(** * Code_Reviewer: the review orchestrator, its analyzer adapters and the report layer

    A shallow embedding of [reviewer.py] and of the counting and report code of
    [app.py].  Python text is a list of Unicode code points, the values that
    [json.loads] returns are a small inductive type, the dictionaries the program
    builds itself are records, and the effects of the program (temporary files,
    subprocesses, the model runtime, the UI messages) are threaded through an
    explicit state with an exception monad on top. *)

From Stdlib Require Import ZArith NArith Ascii String SpecFloat.
From stdpp Require Import base option list gmap pretty.

#[local] Set Warnings "-register-all".
#[local] Open Scope N_scope.

(** ** Text *)

(** A Python [str]: a sequence of code points. *)
Abbreviation pystr := (list N).

(** A literal of the source. *)
Definition lit (s : string) : pystr :=
  N_of_ascii <$> list_ascii_of_string s.

(** [str.isspace] on one code point. *)
Definition isspace (c : N) : bool :=
  ((9 <=? c) && (c <=? 13)) || ((28 <=? c) && (c <=? 32))
  || (c =? 133) || (c =? 160) || (c =? 5760)
  || ((8192 <=? c) && (c <=? 8202))
  || (c =? 8232) || (c =? 8233) || (c =? 8239) || (c =? 8287) || (c =? 12288).

Fixpoint lstrip (s : pystr) : pystr :=
  match s with
  | [] => []
  | c :: s' => if isspace c then lstrip s' else s
  end.

Fixpoint rstrip (s : pystr) : pystr :=
  match s with
  | [] => []
  | c :: s' =>
      match rstrip s' with
      | [] => if isspace c then [] else [c]
      | r => c :: r
      end
  end.

(** [s.strip()] *)
Definition strip (s : pystr) : pystr := rstrip (lstrip s).

(** Truth value of a [str]: non-empty. *)
Definition str_truthy (s : pystr) : bool :=
  match s with [] => false | _ => true end.

(** [s.split(sep)] for a one-character separator. *)
Fixpoint split_char (sep : N) (s : pystr) : list pystr :=
  match s with
  | [] => [[]]
  | c :: s' =>
      if c =? sep then [] :: split_char sep s'
      else match split_char sep s' with
           | l :: ls => (c :: l) :: ls
           | [] => [[c]]
           end
  end.

Definition newline : N := 10.

Fixpoint starts_with (p s : pystr) : bool :=
  match p, s with
  | [], _ => true
  | a :: p', b :: s' => (a =? b) && starts_with p' s'
  | _ :: _, [] => false
  end.

(** [sep in s] *)
Fixpoint contains (sep s : pystr) : bool :=
  starts_with sep s ||
  match s with
  | [] => false
  | _ :: s' => contains sep s'
  end.

(** [s.split(sep)] for a non-empty separator: [skip] counts the characters
    of a separator just matched that are still to be passed over, [cur]
    holds the current piece backwards. *)
Fixpoint split_go (sep : pystr) (skip : nat) (cur : pystr) (s : pystr) : list pystr :=
  match s with
  | [] => [reverse cur]
  | c :: s' =>
      match skip with
      | S k => split_go sep k cur s'
      | O =>
          if starts_with sep s
          then reverse cur :: split_go sep (Nat.pred (length sep)) [] s'
          else split_go sep 0 (c :: cur) s'
      end
  end.

Definition split_str (sep s : pystr) : list pystr := split_go sep 0 [] s.

(** [str(z)] for an integer. *)
Definition str_of_Z (z : Z) : pystr := lit (pretty z).

(** ** JSON values, as [json.loads] builds them *)

Inductive json :=
| JNull
| JBool (b : bool)
| JInt (z : Z)
| JFloat (f : spec_float)
| JStr (s : pystr)
| JList (l : list json)
| JDict (d : list (pystr * json)).

(** ** Exceptions

    Only classes below [Exception] are modelled; a handler [except K] is a
    test on the kind, [except Exception] catches every kind. *)

Inductive exn_kind :=
| TimeoutExpired
| FileNotFoundError
| ImportError
| AttributeError
| TypeError
| OtherError.

Record exn := Exn { kind : exn_kind; message : pystr }.

Inductive Res (A : Type) :=
| Ok (a : A)
| Raise (e : exn).
Arguments Ok {A} a.
Arguments Raise {A} e.

#[global] Instance Res_ret : MRet Res := @Ok.
#[global] Instance Res_bind : MBind Res :=
  fun A B k r => match r with Ok a => k a | Raise e => Raise e end.

(** [for x in l: acc = body(acc, x)] *)
Fixpoint for_each {A S : Type} (body : S -> A -> Res S) (acc : S) (l : list A) : Res S :=
  match l with
  | [] => Ok acc
  | x :: l' => acc' ← body acc x; for_each body acc' l'
  end.

(** What [json.loads(text)] does: it returns a value, it raises
    [json.JSONDecodeError], or it raises an exception of another class, as
    [RecursionError] on text nested too deeply and [ValueError] on an integer
    of more digits than the interpreter converts. *)
Inductive loads_outcome :=
| Loaded (v : json)
| JSONDecodeError
| LoadsRaised (e : exn).

(** ** The dictionaries of the program *)

(** What an analyzer adapter returns.  Keys that a branch does not set
    are [None]. *)
Record AnalyzerResult := {
  ar_success : bool;
  ar_results : json;
  ar_error : option pystr;
  ar_raw_output : option pystr;
  ar_errors : option pystr
}.

(** What [run_ai_analysis] returns. *)
Record AICommentary := {
  ai_success : bool;
  ai_feedback : pystr;
  ai_model_used : option pystr;
  ai_error : option pystr
}.

(** What [run_static_analysis] returns. *)
Record StaticResults := {
  sr_language : pystr;
  pylint : option AnalyzerResult;
  bandit : option AnalyzerResult;
  eslint : option AnalyzerResult
}.

(** What [review_code] returns: the early error dictionary, whose
    ["static_analysis"] and ["ai_analysis"] are empty dictionaries, or the
    full result. *)
Inductive ReviewResult :=
| ReviewError (error : pystr)
| Review (language : pystr) (static_analysis : StaticResults)
         (ai_analysis : AICommentary) (timestamp : pystr).

(** ** The machine state *)

Inductive tool := Pylint | Bandit | ESLint.

(** The trace records what the orchestrator does to the outside: UI
    messages, entries into an adapter, spawned subprocesses, entries into
    the model invoker. *)
Inductive event :=
| StInfo (msg : pystr)
| AdapterCall (t : tool)
| Subprocess (argv : list pystr)
| ModelCall (prompt : pystr).

(** [fs] maps the path of every existing file to its contents;
    [temp_file] is the local variable of that name of the adapter that is
    running. *)
Record State := {
  fs : gmap pystr pystr;
  trace : list event;
  temp_file : option pystr
}.

(** The outside world.
    - [tmp_create suffix fs]: [tempfile.NamedTemporaryFile(mode='w',
      suffix=suffix, delete=False)] picks the name of the new file, or raises;
    - [write_error text]: the exception [f.write(text)] raises, if any;
    - [run_process argv fs]: [subprocess.run(argv, capture_output=True,
      text=True, timeout=30)] returns stdout and stderr, or raises;
    - [tool_writes argv fs]: the files that call leaves behind, whether it
      returns or raises: a tool may write, change and remove files;
    - [json_loads text]: [json.loads(text)];
    - [generate prompt]: the imports, the pipeline and the generator call of
      [call_huggingface_model], up to [result[0]['generated_text']];
    - [model_writes prompt fs]: the files these leave behind, whether they
      return or raise: the runtime may download and cache the model;
    - [py_repr]: [str] of a float, a list or a dictionary;
    - [timestamp_now]: [str(pd.Timestamp.now())];
    - [datetime_now]: [datetime.now().strftime('%Y-%m-%d %H:%M:%S')]. *)
Record Env := {
  tmp_create : pystr -> gmap pystr pystr -> Res pystr;
  write_error : pystr -> option exn;
  run_process : list pystr -> gmap pystr pystr -> Res (pystr * pystr);
  tool_writes : list pystr -> gmap pystr pystr -> gmap pystr pystr;
  json_loads : pystr -> loads_outcome;
  generate : pystr -> Res pystr;
  model_writes : pystr -> gmap pystr pystr -> gmap pystr pystr;
  py_repr : json -> pystr;
  timestamp_now : pystr;
  datetime_now : pystr
}.

(** ** The monad: state and exceptions *)

Definition M (A : Type) : Type := State -> Res A * State.

Definition ret {A} (a : A) : M A := fun s => (Ok a, s).

Definition bind {A B} (m : M A) (k : A -> M B) : M B :=
  fun s =>
    match m s with
    | (Ok a, s') => k a s'
    | (Raise e, s') => (Raise e, s')
    end.

Definition raise {A} (e : exn) : M A := fun s => (Raise e, s).

(** [try: m  except Exception as e: h e] *)
Definition try_except {A} (m : M A) (h : exn -> M A) : M A :=
  fun s =>
    match m s with
    | (Ok a, s') => (Ok a, s')
    | (Raise e, s') => h e s'
    end.

(** [try: m  finally: fin] *)
Definition try_finally {A} (m : M A) (fin : M unit) : M A :=
  fun s =>
    match m s with
    | (r, s') =>
        match fin s' with
        | (Ok _, s'') => (r, s'')
        | (Raise e, s'') => (Raise e, s'')
        end
    end.

Declare Scope m_scope.
Delimit Scope m_scope with M.
Notation "x <- m ;; k" := (bind m (fun x => k))
  (at level 100, m at next level, right associativity) : m_scope.
Notation "m ;;; k" := (bind m (fun _ => k))
  (at level 100, right associativity) : m_scope.

Definition lift_res {A} (r : Res A) : M A := fun s => (r, s).

Definition emit (e : event) : M unit :=
  fun s => (Ok tt, {| fs := fs s; trace := trace s ++ [e]; temp_file := temp_file s |}).

Definition get_fs : M (gmap pystr pystr) := fun s => (Ok (fs s), s).

Definition put_fs (f : gmap pystr pystr) : M unit :=
  fun s => (Ok tt, {| fs := f; trace := trace s; temp_file := temp_file s |}).

Definition get_temp_file : M (option pystr) := fun s => (Ok (temp_file s), s).

Definition set_temp_file (p : option pystr) : M unit :=
  fun s => (Ok tt, {| fs := fs s; trace := trace s; temp_file := p |}).

(** [st.info(msg)] *)
Definition st_info (msg : pystr) : M unit := emit (StInfo msg).

(** ** reviewer.py *)

Section Reviewer.
Context (E : Env).
#[local] Open Scope m_scope.

Definition create_code_review_prompt (code language : pystr) : pystr :=
  lit "Review this " ++ language ++ lit " code and provide:" ++ [newline]
  ++ lit "1. Brief summary of what the code does" ++ [newline]
  ++ lit "2. Readability suggestions " ++ [newline]
  ++ lit "3. Potential bugs" ++ [newline]
  ++ lit "4. Security concerns" ++ [newline]
  ++ lit "5. Refactoring suggestions" ++ [newline]
  ++ [newline]
  ++ lit "Code:" ++ [newline]
  ++ code ++ [newline]
  ++ [newline]
  ++ lit "REVIEW:".

(** The text kept from the generated text: what follows the last
    ["REVIEW:"], stripped, when the marker occurs. *)
Definition extract_feedback (generated_text : pystr) : pystr :=
  let feedback :=
    if contains (lit "REVIEW:") generated_text
    then strip (default [] (last (split_str (lit "REVIEW:") generated_text)))
    else generated_text in
  if str_truthy feedback then feedback
  else lit "AI model generated no specific feedback.".

Definition call_huggingface_model (prompt : pystr) : M pystr :=
  emit (ModelCall prompt) ;;;
  try_except
    (let short_prompt := take 1000 prompt ++ [newline] ++ lit "REVIEW:" in
     files <- get_fs ;;
     put_fs (model_writes E short_prompt files) ;;;
     generated_text <- lift_res (generate E short_prompt) ;;
     ret (extract_feedback generated_text))
    (fun e =>
       match kind e with
       | ImportError =>
           ret (lit "PyTorch/Transformers not available. Install with: pip install torch transformers")
       | _ => ret (lit "AI analysis failed: " ++ message e)
       end).

(** [with tempfile.NamedTemporaryFile(mode='w', suffix=suffix,
    delete=False) as f: f.write(code); temp_file = f.name].  The file
    exists, empty, as soon as it is created; the assignment to [temp_file]
    comes after the write. *)
Definition write_temp_file (suffix code : pystr) : M pystr :=
  files <- get_fs ;;
  f <- lift_res (tmp_create E suffix files) ;;
  put_fs (<[f := []]> files) ;;;
  match write_error E code with
  | Some e => raise e
  | None =>
      put_fs (<[f := code]> files) ;;;
      set_temp_file (Some f) ;;;
      ret f
  end.

(** [subprocess.run(argv, capture_output=True, text=True, timeout=30)];
    the result is [(stdout, stderr)]. *)
Definition subprocess_run (argv : list pystr) : M (pystr * pystr) :=
  emit (Subprocess argv) ;;;
  files <- get_fs ;;
  put_fs (tool_writes E argv files) ;;;
  lift_res (run_process E argv files).

(** The [finally] clause of the three adapters. *)
Definition remove_temp_file : M unit :=
  tf <- get_temp_file ;;
  match tf with
  | Some p =>
      files <- get_fs ;;
      if bool_decide (is_Some (files !! p)) then put_fs (delete p files) else ret tt
  | None => ret tt
  end.

Definition analyzer_ok (results : json) (stdout stderr : pystr) : AnalyzerResult :=
  {| ar_success := true; ar_results := results; ar_error := None;
     ar_raw_output := Some stdout; ar_errors := Some stderr |}.

Definition analyzer_failed (error : pystr) (results : json) : AnalyzerResult :=
  {| ar_success := false; ar_results := results; ar_error := Some error;
     ar_raw_output := None; ar_errors := None |}.

(** The loop of [run_pylint_analysis] over the lines of the stripped
    stdout: [except json.JSONDecodeError: continue] goes on with the next
    line, an exception of another class leaves the loop. *)
Definition pylint_parse (stdout : pystr) : Res (list json) :=
  if str_truthy (strip stdout) then
    for_each (fun pylint_results line =>
                if str_truthy (strip line) then
                  match json_loads E line with
                  | Loaded v => Ok (pylint_results ++ [v])
                  | JSONDecodeError => Ok pylint_results
                  | LoadsRaised e => Raise e
                  end
                else Ok pylint_results)
             [] (split_char newline (strip stdout))
  else Ok [].

(** The single-document parse of [run_bandit_analysis] and
    [run_eslint_analysis]; [empty] is the initial value of the result,
    which [except json.JSONDecodeError: pass] leaves in place. *)
Definition document_parse (empty : json) (stdout : pystr) : Res json :=
  if str_truthy (strip stdout) then
    match json_loads E stdout with
    | Loaded v => Ok v
    | JSONDecodeError => Ok empty
    | LoadsRaised e => Raise e
    end
  else Ok empty.

Definition run_pylint_analysis (code : pystr) : M AnalyzerResult :=
  emit (AdapterCall Pylint) ;;;
  set_temp_file None ;;;
  try_finally
    (try_except
       (temp_file <- write_temp_file (lit ".py") code ;;
        result <- subprocess_run [lit "pylint"; temp_file; lit "--output-format=json"] ;;
        pylint_results <- lift_res (pylint_parse result.1) ;;
        ret (analyzer_ok (JList pylint_results) result.1 result.2))
       (fun e =>
          match kind e with
          | TimeoutExpired => ret (analyzer_failed (lit "Pylint timed out") (JList []))
          | FileNotFoundError =>
              ret (analyzer_failed (lit "pylint not found. Run: pip install pylint") (JList []))
          | _ => ret (analyzer_failed (message e) (JList []))
          end))
    remove_temp_file.

Definition run_bandit_analysis (code : pystr) : M AnalyzerResult :=
  emit (AdapterCall Bandit) ;;;
  set_temp_file None ;;;
  try_finally
    (try_except
       (temp_file <- write_temp_file (lit ".py") code ;;
        result <- subprocess_run [lit "bandit"; lit "-f"; lit "json"; lit "-r"; temp_file] ;;
        bandit_results <- lift_res (document_parse (JDict []) result.1) ;;
        ret (analyzer_ok bandit_results result.1 result.2))
       (fun e =>
          match kind e with
          | TimeoutExpired => ret (analyzer_failed (lit "Bandit timed out") (JDict []))
          | FileNotFoundError =>
              ret (analyzer_failed (lit "bandit not found. Run: pip install bandit") (JDict []))
          | _ => ret (analyzer_failed (message e) (JDict []))
          end))
    remove_temp_file.

Definition run_eslint_analysis (code : pystr) : M AnalyzerResult :=
  emit (AdapterCall ESLint) ;;;
  set_temp_file None ;;;
  try_finally
    (try_except
       (temp_file <- write_temp_file (lit ".js") code ;;
        result <- subprocess_run [lit "npx"; lit "eslint"; temp_file; lit "--format=json"] ;;
        eslint_results <- lift_res (document_parse (JList []) result.1) ;;
        ret (analyzer_ok eslint_results result.1 result.2))
       (fun e =>
          match kind e with
          | TimeoutExpired => ret (analyzer_failed (lit "ESLint timed out") (JList []))
          | FileNotFoundError =>
              ret (analyzer_failed
                     (lit "ESLint/Node not found. Install Node.js + npm install -g eslint")
                     (JList []))
          | _ => ret (analyzer_failed (message e) (JList []))
          end))
    remove_temp_file.

Definition pystr_eqb (a b : pystr) : bool := bool_decide (a = b).

(** U+1F50D and U+1F916, the pictographs of the two UI messages. *)
Definition magnifier : N := 128269.
Definition robot : N := 129302.

Definition run_static_analysis (code language : pystr) : M StaticResults :=
  if pystr_eqb language (lit "Python") then
    st_info (magnifier :: lit " Running Pylint + Bandit...") ;;;
    p <- run_pylint_analysis code ;;
    b <- run_bandit_analysis code ;;
    ret {| sr_language := language; pylint := Some p; bandit := Some b; eslint := None |}
  else if pystr_eqb language (lit "JavaScript") then
    st_info (magnifier :: lit " Running ESLint...") ;;;
    e <- run_eslint_analysis code ;;
    ret {| sr_language := language; pylint := None; bandit := None; eslint := Some e |}
  else
    ret {| sr_language := language; pylint := None; bandit := None; eslint := None |}.

Definition run_ai_analysis (code language : pystr) : M AICommentary :=
  try_except
    (st_info (robot :: lit " Running CodeT5 AI analysis...") ;;;
     let prompt := create_code_review_prompt code language in
     ai_feedback <- call_huggingface_model prompt ;;
     ret {| ai_success := true; ai_feedback := ai_feedback;
            ai_model_used := Some (lit "Salesforce/codet5-base"); ai_error := None |})
    (fun e =>
       ret {| ai_success := false; ai_feedback := lit "AI analysis unavailable";
              ai_model_used := None; ai_error := Some (message e) |}).

Definition supported_languages : list pystr := [lit "Python"; lit "JavaScript"].

Definition review_code (code language : pystr) : M ReviewResult :=
  if negb (str_truthy (strip code)) then
    ret (ReviewError (lit "No code provided"))
  else if negb (bool_decide (language ∈ supported_languages)) then
    ret (ReviewError (lit "Unsupported language: " ++ language))
  else
    static_results <- run_static_analysis code language ;;
    ai_results <- run_ai_analysis code language ;;
    ret (Review language static_results ai_results (timestamp_now E)).

End Reviewer.

(** ** Python operations on the values of [json.loads] *)

Definition type_name (v : json) : pystr :=
  match v with
  | JNull => lit "NoneType"
  | JBool _ => lit "bool"
  | JInt _ => lit "int"
  | JFloat _ => lit "float"
  | JStr _ => lit "str"
  | JList _ => lit "list"
  | JDict _ => lit "dict"
  end.

(** Lookup in a dictionary; keys are unique in what [json.loads] builds. *)
Fixpoint dict_lookup (key : pystr) (d : list (pystr * json)) : option json :=
  match d with
  | [] => None
  | (k, v) :: d' => if bool_decide (k = key) then Some v else dict_lookup key d'
  end.

(** [v.get(key, dflt)] *)
Definition py_get (v : json) (key : pystr) (dflt : json) : Res json :=
  match v with
  | JDict d => Ok (default dflt (dict_lookup key d))
  | _ => Raise (Exn AttributeError
                    ([39] ++ type_name v ++ lit "' object has no attribute 'get'"))
  end.

(** [len(v)] *)
Definition py_len (v : json) : Res nat :=
  match v with
  | JList l => Ok (length l)
  | JDict d => Ok (length d)
  | JStr s => Ok (length s)
  | _ => Raise (Exn TypeError
                    (lit "object of type '" ++ type_name v ++ lit "' has no len()"))
  end.

Definition float_is_zero (f : spec_float) : bool :=
  match f with S754_zero _ => true | _ => false end.

(** [bool(v)] *)
Definition py_truthy (v : json) : bool :=
  match v with
  | JNull => false
  | JBool b => b
  | JInt z => negb (z =? 0)%Z
  | JFloat f => negb (float_is_zero f)
  | JStr s => str_truthy s
  | JList l => match l with [] => false | _ => true end
  | JDict d => match d with [] => false | _ => true end
  end.

(** [iter(v)]: the elements of a list, the keys of a dictionary, the
    characters of a string. *)
Definition py_iter (v : json) : Res (list json) :=
  match v with
  | JList l => Ok l
  | JDict d => Ok ((fun kv => JStr kv.1) <$> d)
  | JStr s => Ok ((fun c => JStr [c]) <$> s)
  | _ => Raise (Exn TypeError ([39] ++ type_name v ++ lit "' object is not iterable"))
  end.

(** ** app.py *)

Section App.
Context (E : Env).

(** [{v}] in an f-string. *)
Definition py_str (v : json) : pystr :=
  match v with
  | JStr s => s
  | JInt z => str_of_Z z
  | JNull => lit "None"
  | JBool true => lit "True"
  | JBool false => lit "False"
  | _ => py_repr E v
  end.

(** The issue count of the combined-suggestions view of [main]. *)
Definition issue_count (static_analysis : StaticResults) : Res nat :=
  let issue_count := O in
  issue_count ←
    match pylint static_analysis with
    | Some pylint_data =>
        if ar_success pylint_data && py_truthy (ar_results pylint_data)
        then n ← py_len (ar_results pylint_data); Ok (issue_count + n)%nat
        else Ok issue_count
    | None => Ok issue_count
    end;
  issue_count ←
    match bandit static_analysis with
    | Some bandit_data =>
        if ar_success bandit_data then
          let results_b := ar_results bandit_data in
          issues ← py_get results_b (lit "results") (JList []);
          n ← py_len issues;
          Ok (issue_count + n)%nat
        else Ok issue_count
    | None => Ok issue_count
    end;
  match eslint static_analysis with
  | Some eslint_data =>
      if ar_success eslint_data && py_truthy (ar_results eslint_data)
      then
        files ← py_iter (ar_results eslint_data);
        for_each (fun issue_count file_result =>
                    messages ← py_get file_result (lit "messages") (JList []);
                    n ← py_len messages;
                    Ok (issue_count + n)%nat)
                 issue_count files
      else Ok issue_count
  | None => Ok issue_count
  end.

(** One line of the pylint section. *)
Definition pylint_line (issue : json) : Res pystr :=
  line ← py_get issue (lit "line") (JStr (lit "N/A"));
  message ← py_get issue (lit "message") (JStr (lit "No message"));
  Ok (lit "Line " ++ py_str line ++ lit ": " ++ py_str message ++ [newline]).

(** One line of the bandit section. *)
Definition bandit_line (issue : json) : Res pystr :=
  line_number ← py_get issue (lit "line_number") (JStr (lit "N/A"));
  issue_text ← py_get issue (lit "issue_text") (JStr (lit "No description"));
  severity ← py_get issue (lit "severity") (JStr (lit "LOW"));
  Ok (lit "Line " ++ py_str line_number ++ lit ": " ++ py_str issue_text
      ++ lit " (" ++ py_str severity ++ lit ")" ++ [newline]).

Definition report_header (language : pystr) : pystr :=
  lit "AI-Powered Code Review Report" ++ [newline]
  ++ lit "Generated: " ++ datetime_now E ++ [newline]
  ++ lit "Language: " ++ language ++ [newline]
  ++ [newline]
  ++ lit "=== STATIC ANALYSIS RESULTS ===" ++ [newline].

Definition pylint_section (report_content : pystr) (pylint_data : option AnalyzerResult)
  : Res pystr :=
  match pylint_data with
  | Some d =>
      if ar_success d then
        let report_content :=
          report_content ++ [newline] ++ lit "--- PYLINT RESULTS ---" ++ [newline] in
        let results := ar_results d in
        if py_truthy results then
          issues ← py_iter results;
          for_each (fun report_content issue =>
                      l ← pylint_line issue; Ok (report_content ++ l))
                   report_content issues
        else Ok (report_content ++ lit "No pylint issues found." ++ [newline])
      else Ok report_content
  | None => Ok report_content
  end.

Definition bandit_section (report_content : pystr) (bandit_data : option AnalyzerResult)
  : Res pystr :=
  match bandit_data with
  | Some d =>
      if ar_success d then
        let report_content :=
          report_content ++ [newline] ++ lit "--- BANDIT SECURITY RESULTS ---" ++ [newline] in
        let results := ar_results d in
        issues ← py_get results (lit "results") (JList []);
        if py_truthy issues then
          issues ← py_iter issues;
          for_each (fun report_content issue =>
                      l ← bandit_line issue; Ok (report_content ++ l))
                   report_content issues
        else Ok (report_content ++ lit "No security issues found." ++ [newline])
      else Ok report_content
  | None => Ok report_content
  end.

Definition ai_section (report_content : pystr) (ai_analysis : option AICommentary) : pystr :=
  match ai_analysis with
  | Some a =>
      if ai_success a then
        report_content ++ [newline] ++ lit "=== AI ANALYSIS RESULTS ===" ++ [newline]
        ++ lit "Model: " ++ default (lit "CodeT5") (ai_model_used a) ++ [newline; newline]
        ++ ai_feedback a
      else report_content
  | None => report_content
  end.

(** [review_results.get(key, {})] and [static_analysis.get(tool)]: the
    error dictionary has no ["language"] and empty dictionaries under
    ["static_analysis"] and ["ai_analysis"]. *)
Definition get_language (r : ReviewResult) : pystr :=
  match r with Review l _ _ _ => l | ReviewError _ => lit "Unknown" end.

Definition get_static (t : tool) (r : ReviewResult) : option AnalyzerResult :=
  match r with
  | Review _ sa _ _ =>
      match t with Pylint => pylint sa | Bandit => bandit sa | ESLint => eslint sa end
  | ReviewError _ => None
  end.

Definition get_ai (r : ReviewResult) : option AICommentary :=
  match r with Review _ _ a _ => Some a | ReviewError _ => None end.

Definition download_report (review_results : ReviewResult) : Res pystr :=
  let language := get_language review_results in
  let report_content := report_header language in
  report_content ← pylint_section report_content (get_static Pylint review_results);
  report_content ← bandit_section report_content (get_static Bandit review_results);
  Ok (ai_section report_content (get_ai review_results)).

End App.

(** ** Reading the trace *)

Definition adapter_of (e : event) : option tool :=
  match e with AdapterCall t => Some t | _ => None end.

(** The adapters entered, in order. *)
Definition adapters_run (tr : list event) : list tool := omap adapter_of tr.

Definition is_model_call (e : event) : bool :=
  match e with ModelCall _ => true | _ => false end.

(** How often the model invoker was entered. *)
Definition model_calls (tr : list event) : nat := length (filter is_model_call tr).

Definition is_subprocess (e : event) : bool :=
  match e with Subprocess _ => true | _ => false end.

Definition subprocesses (tr : list event) : nat := length (filter is_subprocess tr).

(** ** The three adapters, side by side *)

Definition run_adapter (E : Env) (t : tool) : pystr -> M AnalyzerResult :=
  match t with
  | Pylint => run_pylint_analysis E
  | Bandit => run_bandit_analysis E
  | ESLint => run_eslint_analysis E
  end.

Definition suffix_of (t : tool) : pystr :=
  match t with Pylint | Bandit => lit ".py" | ESLint => lit ".js" end.

Definition argv_of (t : tool) (temp_file : pystr) : list pystr :=
  match t with
  | Pylint => [lit "pylint"; temp_file; lit "--output-format=json"]
  | Bandit => [lit "bandit"; lit "-f"; lit "json"; lit "-r"; temp_file]
  | ESLint => [lit "npx"; lit "eslint"; temp_file; lit "--format=json"]
  end.

(** The initial value of an adapter's results: a list for pylint and
    eslint, a dictionary for bandit. *)
Definition empty_results (t : tool) : json :=
  match t with Pylint | ESLint => JList [] | Bandit => JDict [] end.

(** What the environment answers to the [try] body of an adapter started
    on the files [files]: the output of the tool, or the first exception
    of creating the file, writing it and running the tool. *)
Definition invocation_outcome (E : Env) (t : tool) (code : pystr)
    (files : gmap pystr pystr) : Res (pystr * pystr) :=
  match tmp_create E (suffix_of t) files with
  | Raise e => Raise e
  | Ok f =>
      match write_error E code with
      | Some e => Raise e
      | None => run_process E (argv_of t f) (<[f := code]> files)
      end
  end.

(** The command each "not found" message tells the user to run. *)
Definition install_command (t : tool) : pystr :=
  match t with
  | Pylint => lit "pip install pylint"
  | Bandit => lit "pip install bandit"
  | ESLint => lit "npm install -g eslint"
  end.

(** The message of each adapter when its tool is not installed. *)
Definition not_found_message (t : tool) : pystr :=
  match t with
  | Pylint => lit "pylint not found. Run: pip install pylint"
  | Bandit => lit "bandit not found. Run: pip install bandit"
  | ESLint => lit "ESLint/Node not found. Install Node.js + npm install -g eslint"
  end.

(** ** The combined count, as the specification words it *)

Definition list_length_at (key : pystr) (v : json) : nat :=
  match v with
  | JDict d => match dict_lookup key d with Some (JList l) => length l | _ => O end
  | _ => O
  end.

(** The number of diagnostics in the payload of a tool. *)
Definition diagnostic_count (t : tool) (payload : json) : nat :=
  match t with
  | Pylint => match payload with JList l => length l | _ => O end
  | Bandit => list_length_at (lit "results") payload
  | ESLint =>
      match payload with
      | JList files => foldr (fun f n => (list_length_at (lit "messages") f + n)%nat) O files
      | _ => O
      end
  end.

(** An analyzer result counts when it is present, successful and its
    payload is not empty. *)
Definition contribution (t : tool) (r : option AnalyzerResult) : nat :=
  match r with
  | Some d =>
      if ar_success d && py_truthy (ar_results d)
      then diagnostic_count t (ar_results d) else O
  | None => O
  end.

Definition spec_issue_count (sa : StaticResults) : nat :=
  (contribution Pylint (pylint sa) + contribution Bandit (bandit sa)
   + contribution ESLint (eslint sa))%nat.

(** The payload shapes of the data model: a list of diagnostics for
    pylint, a document with an optional list under ["results"] for bandit,
    a list of per-file documents with an optional list under ["messages"]
    for eslint. *)
Definition list_or_absent (key : pystr) (v : json) : bool :=
  match v with
  | JDict d => match dict_lookup key d with Some (JList _) | None => true | Some _ => false end
  | _ => false
  end.

Definition payload_shaped (t : tool) (payload : json) : bool :=
  match t with
  | Pylint => match payload with JList _ => true | _ => false end
  | Bandit => list_or_absent (lit "results") payload
  | ESLint =>
      match payload with
      | JList files => forallb (list_or_absent (lit "messages")) files
      | _ => false
      end
  end.

Definition result_shaped (t : tool) (r : option AnalyzerResult) : bool :=
  match r with
  | Some d => negb (ar_success d) || payload_shaped t (ar_results d)
  | None => true
  end.

Definition well_shaped (sa : StaticResults) : bool :=
  result_shaped Pylint (pylint sa) && result_shaped Bandit (bandit sa)
  && result_shaped ESLint (eslint sa).

(** ** The lines pylint's parser keeps, as the specification words it *)

Definition nonblank (line : pystr) : bool := str_truthy (strip line).

Definition loaded (o : loads_outcome) : option json :=
  match o with Loaded v => Some v | _ => None end.

Definition parseable_lines (E : Env) (stdout : pystr) : list json :=
  omap (fun line => loaded (json_loads E line))
       (filter nonblank (split_char newline (strip stdout))).

(** The texts an adapter hands to [json.loads], in order: the non-blank
    lines of the stripped stdout for pylint, the whole stdout, when it is
    not blank, for bandit and eslint. *)
Definition parsed_texts (t : tool) (stdout : pystr) : list pystr :=
  match t with
  | Pylint => filter nonblank (split_char newline (strip stdout))
  | Bandit | ESLint => if nonblank stdout then [stdout] else []
  end.

(** The first exception outside [json.JSONDecodeError] that [json.loads]
    raises on the texts, if there is one. *)
Fixpoint loads_raises (E : Env) (texts : list pystr) : option exn :=
  match texts with
  | [] => None
  | text :: texts' =>
      match json_loads E text with
      | LoadsRaised e => Some e
      | _ => loads_raises E texts'
      end
  end.

(** ** Concrete environments *)

(** A name longer than every existing path. *)
Definition longest (files : gmap pystr pystr) : nat :=
  map_fold (fun k _ n => (length k `max` n)%nat) O files.

Definition fresh_tmp (suffix : pystr) (files : gmap pystr pystr) : Res pystr :=
  Ok (lit "/tmp/tmp" ++ replicate (longest files) 120 ++ suffix).

Definition is_surrogate (c : N) : bool := (55296 <=? c) && (c <=? 57343).

(** The surrogates a text begins with. *)
Fixpoint leading_surrogates (text : pystr) : pystr :=
  match text with
  | c :: text' => if is_surrogate c then c :: leading_surrogates text' else []
  | [] => []
  end.

(** The first surrogates of a text: where they start, and the run. *)
Fixpoint first_surrogates (start : nat) (text : pystr) : nat * pystr :=
  match text with
  | c :: text' =>
      if is_surrogate c then (start, leading_surrogates text)
      else first_surrogates (S start) text'
  | [] => (start, [])
  end.

Definition hex_digit (n : N) : N := if n <? 10 then 48 + n else 87 + n.

(** A code point below 65536 as [repr] escapes it: a backslash, [u] and
    four hexadecimal digits. *)
Definition escape_u (c : N) : pystr :=
  [92; 117; hex_digit (c / 4096); hex_digit (c / 256 mod 16); hex_digit (c / 16 mod 16);
   hex_digit (c mod 16)].

(** [str] of the [UnicodeEncodeError] of the UTF-8 codec on a text that
    holds a surrogate: it names the first run of surrogates. *)
Definition encode_error_message (text : pystr) : pystr :=
  let '(start, run) := first_surrogates 0 text in
  lit "'utf-8' codec can't encode "
  ++ match run with
     | [c] =>
         lit "character '" ++ escape_u c ++ lit "' in position " ++ str_of_Z (Z.of_nat start)
     | _ =>
         lit "characters in position " ++ str_of_Z (Z.of_nat start) ++ lit "-"
         ++ str_of_Z (Z.of_nat (start + length run - 1))
     end
  ++ lit ": surrogates not allowed".

(** [f.write] under a UTF-8 locale: a surrogate code point cannot be
    encoded. *)
Definition utf8_write_error (text : pystr) : option exn :=
  if existsb is_surrogate text
  then Some (Exn OtherError (encode_error_message text))
  else None.

Definition known_documents : list (pystr * json) :=
  [ (lit "3", JInt 3);
    (lit "[1]", JList [JInt 1]);
    (lit "{}", JDict []) ].

Definition is_digit (c : N) : bool := (48 <=? c) && (c <=? 57).

(** [sys.get_int_max_str_digits()], by default. *)
Definition int_max_str_digits : nat := 4300.

(** A text of digits that does not start with a zero: a JSON integer. *)
Definition is_integer_text (text : pystr) : bool :=
  match text with
  | c :: _ => negb (c =? 48) && forallb is_digit text
  | [] => false
  end.

(** A parser that knows a few documents, and the limit on the digits of
    an integer: [json.loads] raises a [ValueError] on a longer one.  Every
    other text is taken not to be JSON. *)
Definition table_loads (text : pystr) : loads_outcome :=
  match dict_lookup text known_documents with
  | Some v => Loaded v
  | None =>
      if is_integer_text text && (int_max_str_digits <? length text)%nat
      then LoadsRaised
             (Exn OtherError
                (lit "Exceeds the limit (4300 digits) for integer string conversion: value has "
                 ++ str_of_Z (Z.of_nat (length text))
                 ++ lit " digits; use sys.set_int_max_str_digits() to increase the limit"))
      else JSONDecodeError
  end.

(** An environment fixed by what the tools and the model do; neither
    writes a file. *)
Definition scenario (proc : list pystr -> Res (pystr * pystr)) (gen : Res pystr) : Env :=
  {| tmp_create := fresh_tmp;
     write_error := utf8_write_error;
     run_process := fun argv _ => proc argv;
     tool_writes := fun _ files => files;
     json_loads := table_loads;
     generate := fun _ => gen;
     model_writes := fun _ files => files;
     py_repr := fun _ => lit "<value>";
     timestamp_now := lit "2024-01-01 12:00:00.000000";
     datetime_now := lit "2024-01-01 12:00:00" |}.

Definition initial_state : State := {| fs := ∅; trace := []; temp_file := None |}.

(** No tool is installed and the model runtime is missing. *)
Definition nothing_installed : Env :=
  scenario (fun argv => Raise (Exn FileNotFoundError (lit "[Errno 2] No such file or directory")))
           (Raise (Exn ImportError (lit "No module named 'transformers'"))).

(** Every tool hangs and the model runs out of memory. *)
Definition everything_hangs : Env :=
  scenario (fun argv => Raise (Exn TimeoutExpired (lit "timed out after 30 seconds")))
           (Raise (Exn OtherError (lit "CUDA out of memory"))).

(** Every tool prints a parseable line, a line that is not JSON and a
    second parseable line; the model answers. *)
Definition noisy_tools : Env :=
  scenario (fun argv => Ok (lit "3" ++ [newline] ++ lit "Traceback" ++ [newline] ++ lit "[1]",
                            lit ""))
           (Ok (lit "Looks fine.")).

(** Every tool prints one line, an integer of 4301 digits; the model
    answers. *)
Definition long_integer_tools : Env :=
  scenario (fun argv => Ok (replicate 4301 49, lit "")) (Ok (lit "Looks fine.")).

(** A JavaScript result with one eslint diagnostic. *)
Definition eslint_diagnostic : json :=
  JDict [ (lit "line", JInt 1); (lit "message", JStr (lit "Unexpected var, use let or const instead."));
          (lit "severity", JInt 2); (lit "ruleId", JStr (lit "no-var")) ].

Definition javascript_static : StaticResults :=
  {| sr_language := lit "JavaScript"; pylint := None; bandit := None;
     eslint := Some (analyzer_ok
                       (JList [JDict [ (lit "filePath", JStr (lit "/tmp/tmpx.js"));
                                       (lit "messages", JList [eslint_diagnostic]) ]])
                       (lit "[...]") (lit "")) |}.

Definition javascript_review : ReviewResult :=
  Review (lit "JavaScript") javascript_static
    {| ai_success := true; ai_feedback := lit "Looks fine.";
       ai_model_used := Some (lit "Salesforce/codet5-base"); ai_error := None |}
    (lit "2024-01-01 12:00:00.000000").

(** A Python result with one pylint and one bandit diagnostic. *)
Definition python_static : StaticResults :=
  {| sr_language := lit "Python";
     pylint := Some (analyzer_ok
                       (JList [JDict [ (lit "line", JInt 3); (lit "message", JStr (lit "Unused import os"));
                                       (lit "type", JStr (lit "warning")) ]])
                       (lit "{...}") (lit ""));
     bandit := Some (analyzer_ok
                       (JDict [ (lit "results",
                                 JList [JDict [ (lit "line_number", JInt 7);
                                                (lit "issue_text", JStr (lit "Use of exec detected."));
                                                (lit "severity", JStr (lit "MEDIUM")) ];
                                        JDict [ (lit "line_number", JInt 9);
                                                (lit "issue_text", JStr (lit "Use of assert detected."));
                                                (lit "severity", JStr (lit "LOW")) ]]) ])
                       (lit "{...}") (lit ""));
     eslint := None |}.

(** ** Auxiliary notions *)

(** No occurrence of [sep] in [reverse cur ++ s] starts inside
    [reverse cur]: the invariant of [split_go]. *)
Definition clean (sep cur s : pystr) : Prop :=
  forall t1 t2, reverse cur = t1 ++ t2 -> t2 <> [] -> starts_with sep (t2 ++ s) = false.


(** ** The report: when its loops can run *)

Definition is_dict (v : json) : bool :=
  match v with JDict _ => true | _ => false end.

(** A value the loops of the report can walk: one that is false, or a
    list of dictionaries. *)
Definition renders (v : json) : bool :=
  negb (py_truthy v) || match v with JList l => forallb is_dict l | _ => false end.

Definition pylint_renders (r : option AnalyzerResult) : bool :=
  match r with
  | Some d => negb (ar_success d) || renders (ar_results d)
  | None => true
  end.

Definition bandit_renders (r : option AnalyzerResult) : bool :=
  match r with
  | Some d =>
      negb (ar_success d)
      || match ar_results d with
         | JDict kv => renders (default (JList []) (dict_lookup (lit "results") kv))
         | _ => false
         end
  | None => true
  end.

Definition report_renders (r : ReviewResult) : bool :=
  pylint_renders (get_static Pylint r) && bandit_renders (get_static Bandit r).

(** An analyzer entry as the report sees it: a failed one is as good as
    absent. *)
Definition drop_failed (r : option AnalyzerResult) : option AnalyzerResult :=
  match r with
  | Some d => if ar_success d then Some d else None
  | None => None
  end.

(** ** The page

    What the Streamlit calls of [app.py] put on the page, in order;
    [with] blocks hold the widgets drawn inside them. *)

Inductive widget :=
| Markdown (body : pystr) (unsafe_allow_html : bool)
| Header (body : pystr)
| Subheader (body : pystr)
| ErrorBox (body : pystr)
| SuccessBox (body : pystr)
| WarningBox (body : pystr)
| InfoBox (body : pystr)
| Container (children : list widget)
| Expander (label : pystr) (expanded : bool) (children : list widget)
| Sidebar (children : list widget)
| Columns (spec : list Z)
| Column (index : nat) (children : list widget)
| Spinner (text : pystr) (children : list widget)
| Selectbox (label : pystr) (options : list pystr) (help : pystr)
| TextArea (label : pystr) (height : Z) (placeholder help : pystr)
| Button (label type : pystr) (use_container_width : bool)
| DownloadButton (label data file_name mime : pystr).

(** A computation that draws: the widgets drawn so far and the value, or
    the exception that stopped it. *)
Definition UI (A : Type) : Type := list widget * Res A.

Definition ui_ret {A} (a : A) : UI A := ([], Ok a).

Definition ui_bind {A B} (m : UI A) (k : A -> UI B) : UI B :=
  match m with
  | (page, Ok a) => let '(page', r) := k a in (page ++ page', r)
  | (page, Raise e) => (page, Raise e)
  end.

Definition draw (w : widget) : UI unit := ([w], Ok tt).

Definition ui_res {A} (r : Res A) : UI A := ([], r).

(** [with block: body] *)
Definition within {A} (block : list widget -> widget) (body : UI A) : UI A :=
  ([block body.1], body.2).

Declare Scope ui_scope.
Delimit Scope ui_scope with UI.
Notation "x <- m ;; k" := (ui_bind m (fun x => k))
  (at level 100, m at next level, right associativity) : ui_scope.
Notation "m ;;; k" := (ui_bind m (fun _ => k))
  (at level 100, right associativity) : ui_scope.

(** [for x in l: body(x)] *)
Fixpoint ui_for {A : Type} (body : A -> UI unit) (l : list A) : UI unit :=
  match l with
  | [] => ui_ret tt
  | x :: l' => ui_bind (body x) (fun _ => ui_for body l')
  end.

(** [enumerate(l, start)] *)
Fixpoint enumerate {A : Type} (start : Z) (l : list A) : list (Z * A) :=
  match l with
  | [] => []
  | x :: l' => (start, x) :: enumerate (start + 1)%Z l'
  end.

(** ** Keys of a Python dictionary

    Equality of the hashable values of [json.loads]: numbers compare by
    value across [bool], [int] and [float], a NaN equals nothing.  A
    dictionary finds a key that is the object it is given or equals it;
    every NaN that [json.loads] returns is the one object [json.decoder.NaN]. *)

Definition hashable (v : json) : bool :=
  match v with JList _ | JDict _ => false | _ => true end.

Definition float_eq_Z (f : spec_float) (z : Z) : bool :=
  match f with
  | S754_zero _ => (z =? 0)%Z
  | S754_finite s m e =>
      let v := if s then Z.neg m else Z.pos m in
      if (0 <=? e)%Z then (v * 2 ^ e =? z)%Z else (v =? z * 2 ^ (- e))%Z
  | _ => false
  end.

Definition float_eqb (f g : spec_float) : bool :=
  match f, g with
  | S754_zero _, S754_zero _ => true
  | S754_infinity a, S754_infinity b => Bool.eqb a b
  | S754_finite s1 m1 e1, S754_finite s2 m2 e2 =>
      Bool.eqb s1 s2
      && (Z.pos m1 * 2 ^ (e1 - Z.min e1 e2) =? Z.pos m2 * 2 ^ (e2 - Z.min e1 e2))%Z
  | _, _ => false
  end.

Definition int_of_bool (b : bool) : Z := if b then 1%Z else 0%Z.

(** [a == b] *)
Definition key_eqb (a b : json) : bool :=
  match a, b with
  | JNull, JNull => true
  | JStr s, JStr t => bool_decide (s = t)
  | JBool x, JBool y => (int_of_bool x =? int_of_bool y)%Z
  | JBool x, JInt z | JInt z, JBool x => (int_of_bool x =? z)%Z
  | JBool x, JFloat f | JFloat f, JBool x => float_eq_Z f (int_of_bool x)
  | JInt x, JInt y => (x =? y)%Z
  | JInt z, JFloat f | JFloat f, JInt z => float_eq_Z f z
  | JFloat f, JFloat g => float_eqb f g
  | _, _ => false
  end.

Definition is_nan (v : json) : bool :=
  match v with JFloat S754_nan => true | _ => false end.

(** [a is b or a == b], the test of a dictionary on its keys. *)
Definition same_key (a b : json) : bool := (is_nan a && is_nan b) || key_eqb a b.

(** [if key not in groups: groups[key] = []] followed by
    [groups[key].append(item)]; the groups keep the order in which their
    keys first came. *)
Fixpoint group_add (key item : json) (groups : list (json * list json))
  : list (json * list json) :=
  match groups with
  | [] => [(key, [item])]
  | (k, items) :: rest =>
      if same_key k key then (k, items ++ [item]) :: rest
      else (k, items) :: group_add key item rest
  end.

(** ** app.py: what is shown *)

Section Display.
Context (E : Env).
#[local] Open Scope ui_scope.

(** [str(len(l))] *)
Definition str_of_len {A} (l : list A) : pystr := str_of_Z (Z.of_nat (length l)).

(** [pylint_data.get('error', 'Unknown error')] when [pylint_data] is
    [None]. *)
Definition get_on_none : Res json :=
  py_get JNull (lit "error") (JStr (lit "Unknown error")).

(** One round of the grouping loop of [display_pylint_results]. *)
Definition group_issue (issues_by_type : list (json * list json)) (issue : json)
  : Res (list (json * list json)) :=
  issue_type ← py_get issue (lit "type") (JStr (lit "Unknown"));
  if hashable issue_type
  then Ok (group_add issue_type issue issues_by_type)
  else Raise (Exn TypeError (lit "unhashable type: '" ++ type_name issue_type ++ lit "'")).

(** The container of one pylint issue. *)
Definition pylint_issue_box (issue : json) : UI unit :=
  within Container
    (line <- ui_res (py_get issue (lit "line") (JStr (lit "N/A"))) ;;
     message <- ui_res (py_get issue (lit "message") (JStr (lit "No message"))) ;;
     draw (Markdown (lit "**Line " ++ py_str E line ++ lit ":** " ++ py_str E message) false) ;;;
     confidence <- ui_res (py_get issue (lit "confidence") (JStr (lit "N/A"))) ;;
     draw (Markdown (lit "*Confidence: " ++ py_str E confidence ++ lit "*") false) ;;;
     draw (Markdown (lit "---") false)).

(** The heading and the issues of one type. *)
Definition pylint_group (group : json * list json) : UI unit :=
  let issue_type := group.1 in
  let issues := group.2 in
  draw (Markdown (lit "### " ++ py_str E issue_type ++ lit " (" ++ str_of_len issues
                  ++ lit " issues)") false) ;;;
  ui_for pylint_issue_box issues.

Definition display_pylint_results (pylint_data : option AnalyzerResult) : UI unit :=
  match pylint_data with
  | None =>
      error <- ui_res get_on_none ;;
      draw (ErrorBox (lit "Pylint Error: " ++ py_str E error))
  | Some d =>
      if negb (ar_success d) then
        draw (ErrorBox (lit "Pylint Error: " ++ default (lit "Unknown error") (ar_error d)))
      else
        let results := ar_results d in
        if negb (py_truthy results) then
          draw (SuccessBox ([9989] ++ lit " No pylint issues found!"))
        else
          draw (Subheader (lit "Pylint Issues by Type")) ;;;
          issues <- ui_res (py_iter results) ;;
          issues_by_type <- ui_res (for_each group_issue [] issues) ;;
          ui_for pylint_group issues_by_type
  end.

(** The container of one bandit issue, with its number. *)
Definition bandit_issue_box (numbered : Z * json) : UI unit :=
  let i := numbered.1 in
  let issue := numbered.2 in
  within Container
    (test_name <- ui_res (py_get issue (lit "test_name") (JStr (lit "Unknown"))) ;;
     severity <- ui_res (py_get issue (lit "severity") (JStr (lit "Unknown"))) ;;
     draw (Markdown (lit "**" ++ str_of_Z i ++ lit ". " ++ py_str E test_name
                     ++ lit " - " ++ py_str E severity ++ lit "**") false) ;;;
     issue_text <- ui_res (py_get issue (lit "issue_text") (JStr (lit "No description"))) ;;
     draw (Markdown (lit "**Issue:** " ++ py_str E issue_text) false) ;;;
     severity <- ui_res (py_get issue (lit "severity") (JStr (lit "Unknown"))) ;;
     draw (Markdown (lit "**Severity:** " ++ py_str E severity) false) ;;;
     confidence <- ui_res (py_get issue (lit "confidence") (JStr (lit "Unknown"))) ;;
     draw (Markdown (lit "**Confidence:** " ++ py_str E confidence) false) ;;;
     line_number <- ui_res (py_get issue (lit "line_number") (JStr (lit "N/A"))) ;;
     code <- ui_res (py_get issue (lit "code") (JStr (lit "N/A"))) ;;
     draw (Markdown (lit "**Line " ++ py_str E line_number ++ lit ":** `"
                     ++ py_str E code ++ lit "`") false) ;;;
     draw (Markdown (lit "---") false)).

Definition display_bandit_results (bandit_data : option AnalyzerResult) : UI unit :=
  match bandit_data with
  | None =>
      error <- ui_res get_on_none ;;
      draw (ErrorBox (lit "Bandit Error: " ++ py_str E error))
  | Some d =>
      if negb (ar_success d) then
        draw (ErrorBox (lit "Bandit Error: " ++ default (lit "Unknown error") (ar_error d)))
      else
        let results := ar_results d in
        issues <- ui_res (py_get results (lit "results") (JList [])) ;;
        if negb (py_truthy issues) then
          draw (SuccessBox ([9989] ++ lit " No security issues found by Bandit!"))
        else
          n <- ui_res (py_len issues) ;;
          draw (WarningBox (([128274] ++ lit " Found ") ++ str_of_Z (Z.of_nat n)
                            ++ lit " security issue(s)")) ;;;
          draw (Subheader (lit "Security Issues")) ;;;
          items <- ui_res (py_iter issues) ;;
          ui_for bandit_issue_box (enumerate 1 items)
  end.

(** [severity == 2] *)
Definition is_error_severity (severity : json) : bool := key_eqb severity (JInt 2).

(** The container of one eslint message. *)
Definition eslint_message_box (message : json) : UI unit :=
  within Container
    (severity <- ui_res (py_get message (lit "severity") (JInt 1)) ;;
     let severity_text :=
       if is_error_severity severity then lit "Error" else lit "Warning" in
     line <- ui_res (py_get message (lit "line") (JStr (lit "N/A"))) ;;
     text <- ui_res (py_get message (lit "message") (JStr (lit "No message"))) ;;
     draw (Markdown (lit "**Line " ++ py_str E line ++ lit ":** " ++ py_str E text) false) ;;;
     draw (Markdown (lit "*Severity: " ++ severity_text ++ lit "*") false) ;;;
     rule <- ui_res (py_get message (lit "ruleId") JNull) ;;
     (if py_truthy rule then
        draw (Markdown (lit "*Rule: " ++ py_str E rule ++ lit "*") false)
      else ui_ret tt) ;;;
     draw (Markdown (lit "---") false)).

(** What is shown for one file. *)
Definition eslint_file (file_result : json) : UI unit :=
  file_path <- ui_res (py_get file_result (lit "filePath") (JStr (lit "Unknown file"))) ;;
  messages <- ui_res (py_get file_result (lit "messages") (JList [])) ;;
  if negb (py_truthy messages) then
    draw (SuccessBox (([9989] ++ lit " No issues in ") ++ py_str E file_path))
  else
    n <- ui_res (py_len messages) ;;
    draw (Markdown (lit "### " ++ py_str E file_path ++ lit " (" ++ str_of_Z (Z.of_nat n)
                    ++ lit " issues)") false) ;;;
    items <- ui_res (py_iter messages) ;;
    ui_for eslint_message_box items.

Definition display_eslint_results (eslint_data : option AnalyzerResult) : UI unit :=
  match eslint_data with
  | None =>
      error <- ui_res get_on_none ;;
      draw (ErrorBox (lit "ESLint Error: " ++ py_str E error))
  | Some d =>
      if negb (ar_success d) then
        draw (ErrorBox (lit "ESLint Error: " ++ default (lit "Unknown error") (ar_error d)))
      else
        let results := ar_results d in
        if negb (py_truthy results) then
          draw (SuccessBox ([9989] ++ lit " No ESLint issues found!"))
        else
          files <- ui_res (py_iter results) ;;
          ui_for eslint_file files
  end.

(** [ai_data] is a dictionary; [None] is the empty one. *)
Definition display_ai_results (ai_data : option AICommentary) : UI unit :=
  match ai_data with
  | None => draw (ErrorBox (lit "AI Analysis Error: " ++ lit "Unknown error"))
  | Some a =>
      if negb (ai_success a) then
        draw (ErrorBox (lit "AI Analysis Error: " ++ default (lit "Unknown error") (ai_error a)))
      else
        let feedback := ai_feedback a in
        let model_used := default (lit "Unknown model") (ai_model_used a) in
        draw (InfoBox (([129302] ++ lit " AI Analysis powered by ") ++ model_used)) ;;;
        draw (Markdown feedback false)
  end.

End Display.

(** ** app.py: one run of the script

    Streamlit runs [main] from the top at every interaction.  The values
    the browser sends are the inputs of the run; [st.session_state] and the
    machine state are threaded through; the page is the output. *)

(** [st.session_state]: a key that was never set is [None]; the value of
    [review_results] is itself [None] or a result. *)
Record Session := {
  review_results : option (option ReviewResult);
  current_language : option pystr
}.

(** What the widgets return in this run: the option chosen in the
    select box, the text of the text area, whether the button was clicked. *)
Record Inputs := {
  selected_language : pystr;
  code_input : pystr;
  run_clicked : bool
}.

Definition App (A : Type) : Type :=
  Session -> State -> Res A * Session * State * list widget.

Definition app_ret {A} (a : A) : App A := fun ss st => (Ok a, ss, st, []).

Definition app_bind {A B} (m : App A) (k : A -> App B) : App B :=
  fun ss st =>
    match m ss st with
    | (Ok a, ss1, st1, page1) =>
        match k a ss1 st1 with
        | (r, ss2, st2, page2) => (r, ss2, st2, page1 ++ page2)
        end
    | (Raise e, ss1, st1, page1) => (Raise e, ss1, st1, page1)
    end.

Definition app_ui {A} (m : UI A) : App A := fun ss st => (m.2, ss, st, m.1).

Definition info_box (e : event) : option widget :=
  match e with StInfo msg => Some (InfoBox msg) | _ => None end.

(** A call into [reviewer.py]: what it passes to [st.info] is drawn on
    the page, in order. *)
Definition app_machine {A} (m : M A) : App A :=
  fun ss st =>
    match m st with
    | (r, st') => (r, ss, st', omap info_box (drop (length (trace st)) (trace st')))
    end.

(** [with block: body] *)
Definition app_within {A} (block : list widget -> widget) (body : App A) : App A :=
  fun ss st =>
    match body ss st with
    | (r, ss1, st1, page) => (r, ss1, st1, [block page])
    end.

(** [try: body  except Exception as e: handler e] *)
Definition app_try {A} (body : App A) (handler : exn -> App A) : App A :=
  fun ss st =>
    match body ss st with
    | (Ok a, ss1, st1, page1) => (Ok a, ss1, st1, page1)
    | (Raise e, ss1, st1, page1) =>
        match handler e ss1 st1 with
        | (r, ss2, st2, page2) => (r, ss2, st2, page1 ++ page2)
        end
    end.

Definition get_session : App Session := fun ss st => (Ok ss, ss, st, []).

Definition set_review_results (v : option ReviewResult) : App unit :=
  fun ss st =>
    (Ok tt, {| review_results := Some v; current_language := current_language ss |}, st, []).

Definition set_current_language (v : pystr) : App unit :=
  fun ss st =>
    (Ok tt, {| review_results := review_results ss; current_language := Some v |}, st, []).

Definition no_attribute (name : pystr) : exn :=
  Exn AttributeError (lit "st.session_state has no attribute " ++ [34] ++ name ++ [34]).

(** [st.session_state.review_results] *)
Definition read_review_results : App (option ReviewResult) :=
  fun ss st =>
    match review_results ss with
    | Some v => (Ok v, ss, st, [])
    | None => (Raise (no_attribute (lit "review_results")), ss, st, [])
    end.

(** [st.session_state.current_language] *)
Definition read_current_language : App pystr :=
  fun ss st =>
    match current_language ss with
    | Some v => (Ok v, ss, st, [])
    | None => (Raise (no_attribute (lit "current_language")), ss, st, [])
    end.

Declare Scope app_scope.
Delimit Scope app_scope with APP.
Notation "x <- m ;; k" := (app_bind m (fun x => k))
  (at level 100, m at next level, right associativity) : app_scope.
Notation "m ;;; k" := (app_bind m (fun _ => k))
  (at level 100, right associativity) : app_scope.

Definition language_options : list pystr := [lit "Python"; lit "JavaScript"].

Section Main.
Context (E : Env).
(** [datetime.now().strftime('%Y%m%d_%H%M%S')] *)
Context (file_stamp_now : pystr).
#[local] Open Scope app_scope.

Definition show (w : widget) : App unit := app_ui (draw w).

(** Lines 176 to 179: the two keys get their defaults on the first run. *)
Definition init_session : App unit :=
  ss <- get_session ;;
  (match review_results ss with
   | None => set_review_results None
   | Some _ => app_ret tt
   end) ;;;
  ss <- get_session ;;
  match current_language ss with
  | None => set_current_language (lit "Python")
  | Some _ => app_ret tt
  end.

(** Lines 182 to 207. *)
Definition sidebar (input : Inputs) : App pystr :=
  app_within Sidebar
    (show (Header ([9881; 65039] ++ lit " Configuration")) ;;;
     show (Selectbox (lit "Select Programming Language") language_options
             (lit "Choose the language of your code for appropriate analysis")) ;;;
     let language := selected_language input in
     set_current_language language ;;;
     show (Markdown (lit "---") false) ;;;
     show (Markdown (lit "### " ++ [128736; 65039] ++ lit " Analysis Tools") false) ;;;
     (if pystr_eqb language (lit "Python") then
        show (Markdown (lit "**Static Analysis:**") false) ;;;
        show (Markdown ([8226] ++ lit " **Pylint** (Code quality)") false) ;;;
        show (Markdown ([8226] ++ lit " **Bandit** (Security)") false)
      else if pystr_eqb language (lit "JavaScript") then
        show (Markdown (lit "**Static Analysis:**") false) ;;;
        show (Markdown ([8226] ++ lit " **ESLint** (Code quality)") false)
      else app_ret tt) ;;;
     show (Markdown (lit "**" ++ [129302] ++ lit " AI Analysis:**") false) ;;;
     show (Markdown ([8226] ++ lit " **CodeT5** (Hugging Face)") false) ;;;
     show (Markdown ([8226] ++ lit " Code summary & suggestions") false) ;;;
     show (Markdown ([8226] ++ lit " Bug detection") false) ;;;
     show (Markdown ([8226] ++ lit " Refactoring ideas") false) ;;;
     app_ret language).

(** Lines 222 to 238: what a click on the button does. *)
Definition run_review (code language : pystr) : App unit :=
  if negb (str_truthy (strip code)) then
    show (ErrorBox ([10060] ++ lit " Please enter some code to review!")) ;;;
    set_review_results None
  else
    app_within (Spinner ([128260] ++ lit " Analyzing your code... This may take 30-60 seconds."))
      (app_try
         (results <- app_machine (review_code E code language) ;;
          set_review_results (Some results) ;;;
          set_current_language language ;;;
          show (SuccessBox ([9989] ++ lit " Code review completed!")))
         (fun e =>
            show (ErrorBox (([10060] ++ lit " Error during code review: ") ++ message e)) ;;;
            set_review_results None)).

(** Lines 212 to 238. *)
Definition input_column (input : Inputs) (language : pystr) : App unit :=
  app_within (Column 0)
    (show (Markdown (lit "<h3 class=" ++ [34] ++ lit "section-header" ++ [34] ++ lit ">" ++ [128221] ++ lit " Code Input</h3>") true) ;;;
     show (TextArea (lit "Paste your code here:") 300 (lit "def hello_world():" ++ [10] ++ lit "    print('Hello, World!')" ++ [10] ++ lit "    return True")
             (lit "Enter the code you want to review")) ;;;
     let code := code_input input in
     show (Button ([128640] ++ lit " Run AI Review") (lit "primary") true) ;;;
     if run_clicked input then run_review code language else app_ret tt).

(** Lines 240 to 255. *)
Definition instructions_column : App unit :=
  app_within (Column 1)
    (show (Markdown (lit "<h3 class=" ++ [34] ++ lit "section-header" ++ [34] ++ lit ">" ++ [128214] ++ lit " Instructions</h3>") true) ;;;
     show (Markdown ([10] ++ lit "        **How to use:**" ++ [10] ++ lit "        1. Select your programming language" ++ [10] ++ lit "        2. Paste your code in the text area" ++ [10] ++ lit "        3. Click " ++ [34] ++ lit "Run AI Review" ++ [34; 10] ++ lit "        4. View results in the sections below" ++ [10] ++ lit "        " ++ [10] ++ lit "        **What you'll get:**" ++ [10] ++ lit "        - " ++ [129302] ++ lit " AI-powered code analysis" ++ [10] ++ lit "        - " ++ [128269] ++ lit " Static analysis results" ++ [10] ++ lit "        - " ++ [128274] ++ lit " Security scan results" ++ [10] ++ lit "        - " ++ [128161] ++ lit " Improvement suggestions" ++ [10] ++ lit "        ") false)).

(** Lines 288 to 317. *)
Definition combined_suggestions (static_analysis : StaticResults)
    (ai_analysis : AICommentary) : App unit :=
  app_within (Expander ([128203] ++ lit " Combined Suggestions") false)
    (show (Markdown (lit "### Summary of All Findings") false) ;;;
     issue_count <- app_ui (ui_res (issue_count static_analysis)) ;;
     (if (0 <? issue_count)%nat then
        show (WarningBox (([9888; 65039] ++ lit " Found ") ++ str_of_Z (Z.of_nat issue_count)
                          ++ lit " total issues across all analyses"))
      else
        show (SuccessBox ([127881] ++ lit " No issues found in static analysis!"))) ;;;
     if ai_success ai_analysis then
       show (InfoBox ([129302] ++ lit " AI analysis completed - see details above"))
     else
       show (WarningBox ([129302] ++ lit " AI analysis unavailable"))).

(** Lines 258 to 330. *)
Definition results_section : App unit :=
  stored <- read_review_results ;;
  match stored with
  | None => app_ret tt
  | Some results =>
      language <- read_current_language ;;
      match results with
      | ReviewError error => show (ErrorBox error)
      | Review _ static_analysis ai_analysis _ =>
          show (Markdown (lit "---") false) ;;;
          show (Markdown (lit "<h2 class=" ++ [34] ++ lit "section-header" ++ [34] ++ lit ">" ++ [128202] ++ lit " Review Results</h2>") true) ;;;
          app_within (Expander ([129302] ++ lit " AI Review Summary") true)
            (app_ui (display_ai_results (get_ai results))) ;;;
          (if pystr_eqb language (lit "Python") then
             app_within (Expander ([128269] ++ lit " Static Analysis (Pylint)") false)
               (app_ui (display_pylint_results E (get_static Pylint results))) ;;;
             app_within (Expander ([128274] ++ lit " Security Analysis (Bandit)") false)
               (app_ui (display_bandit_results E (get_static Bandit results)))
           else if pystr_eqb language (lit "JavaScript") then
             app_within (Expander ([128269] ++ lit " Static Analysis (ESLint)") false)
               (app_ui (display_eslint_results E (get_static ESLint results)))
           else app_ret tt) ;;;
          combined_suggestions static_analysis ai_analysis ;;;
          show (Markdown (lit "---") false) ;;;
          show (Columns [1; 1; 1]%Z) ;;;
          app_within (Column 1)
            (report_content <- app_ui (ui_res (download_report E results)) ;;
             show (DownloadButton ([128229] ++ lit " Download Full Report") report_content
                     (lit "code_review_report_" ++ file_stamp_now ++ lit ".txt")
                     (lit "text/plain")))
      end
  end.

Definition main (input : Inputs) : App unit :=
  show (Markdown (lit "<h1 class=" ++ [34] ++ lit "main-header" ++ [34] ++ lit ">" ++ [129302] ++ lit " AI-Powered Code Review Assistant</h1>") true) ;;;
  show (Markdown (lit "<h2 style=" ++ [34] ++ lit "text-align: center; color: #666;" ++ [34] ++ lit ">Hugging Face CodeT5 Edition</h2>") true) ;;;
  init_session ;;;
  language <- sidebar input ;;
  show (Columns [2; 1]%Z) ;;;
  input_column input language ;;;
  instructions_column ;;;
  results_section ;;;
  show (Markdown (lit "---") false) ;;;
  show (Markdown (lit "<div style=" ++ [34] ++ lit "text-align: center; color: #6c757d; font-size: 0.9rem; margin-top: 3rem;" ++ [34] ++ lit ">Built with " ++ [10084; 65039] ++ lit " using Hugging Face CodeT5 + Streamlit</div>") true).

End Main.

Definition empty_session : Session := {| review_results := None; current_language := None |}.

(** The results a session may hold after [main]: none, or a full
    record for one of the two languages of the select box. *)
Definition session_ok (ss : Session) : Prop :=
  match review_results ss with
  | Some (Some (Review language _ _ _)) => language ∈ language_options
  | Some (Some (ReviewError _)) => False
  | _ => True
  end.

Definition other_language (language : pystr) : pystr :=
  if pystr_eqb language (lit "Python") then lit "JavaScript" else lit "Python".

(** The containers on a page, at any depth: one per diagnostic shown. *)
Fixpoint containers (w : widget) : nat :=
  match w with
  | Container _ => 1
  | Expander _ _ children | Sidebar children | Column _ children | Spinner _ children =>
      (fix go (l : list widget) : nat :=
         match l with [] => O | x :: l' => (containers x + go l')%nat end) children
  | _ => O
  end.

Definition page_containers (page : list widget) : nat :=
  foldr (fun w n => (containers w + n)%nat) O page.

(** A part of the script that only draws: it leaves the session and the
    machine state alone. *)
Definition readonly {A} (m : App A) : Prop :=
  forall ss st, exists r page, m ss st = (r, ss, st, page).

(** ** What is shown against what is counted *)

Definition display (E : Env) (t : tool) : option AnalyzerResult -> UI unit :=
  match t with
  | Pylint => display_pylint_results E
  | Bandit => display_bandit_results E
  | ESLint => display_eslint_results E
  end.

(** A pylint issue the grouping loop accepts: a dictionary whose
    ["type"] can be a key. *)
Definition typed_issue (v : json) : bool :=
  match v with
  | JDict d => hashable (default (JStr (lit "Unknown")) (dict_lookup (lit "type") d))
  | _ => false
  end.

Definition dicts_or_absent (key : pystr) (v : json) : bool :=
  match v with
  | JDict d =>
      match dict_lookup key d with
      | Some (JList l) => forallb is_dict l
      | None => true
      | Some _ => false
      end
  | _ => false
  end.

(** The payloads the display functions can show in full. *)
Definition display_shaped (t : tool) (payload : json) : bool :=
  match t with
  | Pylint => match payload with JList l => forallb typed_issue l | _ => false end
  | Bandit => dicts_or_absent (lit "results") payload
  | ESLint =>
      match payload with
      | JList files => forallb (dicts_or_absent (lit "messages")) files
      | _ => false
      end
  end.

(** The number of issues held by the groups. *)
Definition group_total (groups : list (json * list json)) : nat :=
  foldr (fun g n => (length g.2 + n)%nat) O groups.

(** An analyzer entry every part of the page can handle: absent,
    failed, or with a payload the display functions can show in full. *)
Definition entry_shaped (t : tool) (r : option AnalyzerResult) : bool :=
  match r with
  | Some d => negb (ar_success d) || display_shaped t (ar_results d)
  | None => true
  end.

Definition fully_shaped (sa : StaticResults) : bool :=
  entry_shaped Pylint (pylint sa) && entry_shaped Bandit (bandit sa)
  && entry_shaped ESLint (eslint sa).

(** What [main] shows of the static analysis under each language of the
    select box: the number of issue containers it draws when the entries it
    shows are present. *)
Definition shown_count (language : pystr) (sa : StaticResults) : nat :=
  if pystr_eqb language (lit "Python")
  then (contribution Pylint (pylint sa) + contribution Bandit (bandit sa))%nat
  else if pystr_eqb language (lit "JavaScript")
  then contribution ESLint (eslint sa)
  else O.

(** The entries [main] shows under a language are present. *)
Definition shown_present (language : pystr) (sa : StaticResults) : bool :=
  if pystr_eqb language (lit "Python")
  then bool_decide (is_Some (pylint sa)) && bool_decide (is_Some (bandit sa))
  else if pystr_eqb language (lit "JavaScript")
  then bool_decide (is_Some (eslint sa))
  else true.

(** ** The groups of [display_pylint_results] *)

(** No two groups have equal keys. *)
Fixpoint keys_distinct (groups : list (json * list json)) : bool :=
  match groups with
  | [] => true
  | g :: rest => forallb (fun h => negb (key_eqb g.1 h.1)) rest && keys_distinct rest
  end.

(** [issue.get("type", "Unknown")] on a dictionary. *)
Definition issue_type_of (issue : json) : json :=
  match issue with
  | JDict d => default (JStr (lit "Unknown")) (dict_lookup (lit "type") d)
  | _ => JNull
  end.

(** Every issue sits under the key of its type: the key is that very
    value (as for a NaN, which equals nothing) or equals it. *)
Definition well_grouped (groups : list (json * list json)) : Prop :=
  Forall (fun g => Forall (fun issue => g.1 = issue_type_of issue
                                        \/ key_eqb g.1 (issue_type_of issue) = true) g.2)
         groups.

(** * Properties *)

(** ** Text *)

Lemma lstrip_nil_iff (s : pystr) : lstrip s = [] <-> forallb isspace s = true.
Proof.
  induction s as [|c s IH]; simpl; [done|].
  destruct (isspace c); simpl; [exact IH|]. split; discriminate.
Qed.

Lemma lstrip_head (s : pystr) c r : lstrip s = c :: r -> isspace c = false.
Proof.
  induction s as [|a s IH]; simpl; [discriminate|].
  destruct (isspace a) eqn:Ha; [exact IH|]. by intros [= <- _].
Qed.

Lemma rstrip_cons_nonspace c (r : pystr) : isspace c = false -> rstrip (c :: r) <> [].
Proof. intros Hc. simpl. rewrite Hc. by destruct (rstrip r). Qed.

(** [strip] leaves nothing exactly when every character is white space. *)
Lemma strip_nil_iff (s : pystr) : strip s = [] <-> forallb isspace s = true.
Proof.
  unfold strip. rewrite <- lstrip_nil_iff.
  destruct (lstrip s) as [|c r] eqn:Hl; [done|].
  split; [|discriminate].
  intros H. by apply rstrip_cons_nonspace in H; [|eapply lstrip_head].
Qed.

Lemma strip_truthy (s : pystr) : str_truthy (strip s) = negb (forallb isspace s).
Proof.
  destruct (forallb isspace s) eqn:H.
  - apply strip_nil_iff in H. by rewrite H.
  - destruct (strip s) eqn:Hs; [|done].
    apply strip_nil_iff in Hs. congruence.
Qed.

(** ** The orchestrator's input validation *)

(** C1. A request whose code is empty or consists of white space only is
    answered with the error "No code provided"; a request with other code
    whose language is not supported is answered with "Unsupported language: "
    followed by that language.  In both cases the state, and with it the
    trace, is the one the call started from: no adapter is entered, no
    subprocess is spawned and the model is not called. *)
Theorem review_code_rejects (E : Env) (code language : pystr) (s : State) :
  (forallb isspace code = true ->
   review_code E code language s = (Ok (ReviewError (lit "No code provided")), s))
  /\ (forallb isspace code = false -> language ∉ supported_languages ->
      review_code E code language s
      = (Ok (ReviewError (lit "Unsupported language: " ++ language)), s)).
Proof.
  unfold review_code. rewrite strip_truthy, negb_involutive. split.
  - by intros ->.
  - intros -> Hl. simpl. by rewrite bool_decide_eq_false_2.
Qed.

Lemma review_code_rejects_witness :
  review_code nothing_installed (lit "  ") (lit "Python") initial_state
  = (Ok (ReviewError (lit "No code provided")), initial_state)
  /\ review_code nothing_installed (lit "x = 1") (lit "Ruby") initial_state
     = (Ok (ReviewError (lit "Unsupported language: " ++ lit "Ruby")), initial_state).
Proof.
  split.
  - apply (proj1 (review_code_rejects nothing_installed (lit "  ") (lit "Python") initial_state)).
    reflexivity.
  - apply (proj2 (review_code_rejects nothing_installed (lit "x = 1") (lit "Ruby") initial_state)).
    + reflexivity.
    + apply (bool_decide_unpack _). vm_compute. exact I.
Defined.

(** ** The analyzer adapters *)

Ltac unfold_adapter :=
  cbv [run_adapter run_pylint_analysis run_bandit_analysis run_eslint_analysis
       invocation_outcome suffix_of argv_of empty_results not_found_message install_command
       bind ret raise try_except try_finally emit lift_res get_fs put_fs
       get_temp_file set_temp_file write_temp_file subprocess_run
       remove_temp_file st_info] in *;
  cbn [fs trace temp_file fst snd] in *.

(** Case analysis on what the environment answers to an adapter: the
    file cannot be created, the write fails, the tool raises, the tool
    completes and the parse raises or returns; at the end the file is still
    there, or the tool has removed it. *)
Ltac adapter_cases E code :=
  unfold_adapter;
  destruct (tmp_create E _ _) as [?f|?e] eqn:?Hcreate;
  [ destruct (write_error E code) as [?e|] eqn:?Hwrite;
    [ | destruct (run_process E _ _) as [[?out ?err]|?e] eqn:?Hrun;
        [ cbn [fst snd] in *;
          first [ destruct (pylint_parse E _) as [?vs|?e] eqn:?Hparse
                | destruct (document_parse E _ _) as [?v|?e] eqn:?Hparse ] | ] ] | ];
  cbn [fs trace temp_file fst snd] in *;
  try match goal with |- context [kind ?e] => destruct (kind e) eqn:?Hkind end;
  cbn [fs trace temp_file fst snd] in *;
  try match goal with
      | |- context [bool_decide (is_Some (?m !! ?k))] =>
          destruct (bool_decide (is_Some (m !! k))) eqn:?Hexists
      end;
  cbn [fs trace temp_file fst snd] in *.

Lemma pylint_loop (E : Env) (lines : list pystr) (acc : list json) :
  for_each (fun pylint_results line =>
              if str_truthy (strip line) then
                match json_loads E line with
                | Loaded v => Ok (pylint_results ++ [v])
                | JSONDecodeError => Ok pylint_results
                | LoadsRaised e => Raise e
                end
              else Ok pylint_results) acc lines
  = match loads_raises E (filter nonblank lines) with
    | Some e => Raise e
    | None =>
        Ok (acc ++ omap (fun line => loaded (json_loads E line)) (filter nonblank lines))
    end.
Proof.
  revert acc. induction lines as [|line lines IH]; intros acc; cbn [for_each].
  - simpl. by rewrite app_nil_r.
  - rewrite filter_cons.
    case_decide as Hb; unfold nonblank in Hb;
      destruct (str_truthy (strip line)); simpl in Hb; try done;
      cbn [mbind Res_bind].
    + cbn [loads_raises omap list_omap].
      destruct (json_loads E line) as [v| |e]; cbn [mbind Res_bind loaded]; [| |done].
      * rewrite IH. destruct (loads_raises E _); [done|]. by rewrite <- app_assoc.
      * apply IH.
    + apply IH.
Qed.

(** The loop of the pylint adapter stops at the first line on which
    [json.loads] raises outside [JSONDecodeError]; when there is none it keeps
    exactly the values of the non-blank lines that parse, in their order. *)
Lemma pylint_parse_spec (E : Env) (stdout : pystr) :
  pylint_parse E stdout
  = match loads_raises E (parsed_texts Pylint stdout) with
    | Some e => Raise e
    | None => Ok (parseable_lines E stdout)
    end.
Proof.
  unfold pylint_parse, parseable_lines, parsed_texts.
  destruct (strip stdout) as [|c r] eqn:Hs.
  - reflexivity.
  - unfold str_truthy at 1. by rewrite pylint_loop.
Qed.

(** The parse of the bandit and eslint adapters, by what [json.loads]
    does on the whole stdout. *)
Lemma document_parse_spec (E : Env) (t : tool) (empty : json) (stdout : pystr) :
  t <> Pylint ->
  document_parse E empty stdout
  = match loads_raises E (parsed_texts t stdout) with
    | Some e => Raise e
    | None =>
        Ok (if nonblank stdout
            then default empty (loaded (json_loads E stdout))
            else empty)
    end.
Proof.
  intros Ht. unfold document_parse, parsed_texts, nonblank.
  destruct t; [done| |]; destruct (str_truthy (strip stdout)); try done;
    cbn [loads_raises]; by destruct (json_loads E stdout).
Qed.

(** A value is kept exactly when it is the parse of a non-blank line of
    the stripped stdout. *)
Lemma parseable_lines_elem (E : Env) (stdout : pystr) (v : json) :
  v ∈ parseable_lines E stdout
  <-> exists line, line ∈ split_char newline (strip stdout)
                   /\ nonblank line = true /\ json_loads E line = Loaded v.
Proof.
  unfold parseable_lines. rewrite list_elem_of_omap. split.
  - intros (line & [Hb Hl]%list_elem_of_filter & Hv). exists line.
    split_and!; [done| |]; [by destruct (nonblank line)|].
    by destruct (json_loads E line); simplify_eq/=.
  - intros (line & Hl & Hb & Hv). exists line. split; [|by rewrite Hv].
    apply list_elem_of_filter. split; [|done]. by rewrite Hb.
Qed.

(** C4. When the [try] body of an adapter raises, the adapter returns a
    result with [success] false and empty results.  On a timeout the error
    says so; when the executable is not found the error is the fixed message
    of the tool, which names the command that installs it and does not depend
    on the code; on any other exception the error is the exception's
    message. *)
Theorem adapter_failure_mapping (E : Env) (t : tool) (code : pystr) (s : State) (e : exn) :
  invocation_outcome E t code (fs s) = Raise e ->
  exists r err,
    (run_adapter E t code s).1 = Ok r
    /\ ar_success r = false
    /\ ar_results r = empty_results t
    /\ ar_error r = Some err
    /\ match kind e with
       | TimeoutExpired => contains (lit "timed out") err = true
       | FileNotFoundError =>
           err = not_found_message t /\ contains (install_command t) err = true
       | _ => err = message e
       end.
Proof.
  intros H.
  destruct t; adapter_cases E code; simplify_eq;
    eexists _, _; split_and!; try reflexivity;
    match goal with Hk : kind _ = _ |- _ => rewrite Hk end;
    split_and?; reflexivity.
Qed.

Lemma adapter_failure_mapping_witness :
  exists r err,
    (run_adapter everything_hangs ESLint (lit "var x = 1;") initial_state).1 = Ok r
    /\ ar_success r = false
    /\ ar_results r = JList []
    /\ ar_error r = Some err
    /\ contains (lit "timed out") err = true.
Proof.
  apply (adapter_failure_mapping everything_hangs ESLint (lit "var x = 1;") initial_state
           (Exn TimeoutExpired (lit "timed out after 30 seconds"))).
  reflexivity.
Defined.

(** C5, amended.  When the tool completes and [json.loads] raises nothing
    outside [JSONDecodeError] on the texts the adapter gives it, the adapter
    reports [success] true and keeps the raw stdout, whatever was printed.
    The pylint adapter keeps the value of every non-blank line of the
    stripped stdout that parses, in order, and drops the other lines; the
    bandit and eslint adapters keep the parsed document and fall back to
    their empty result when stdout is blank or does not parse.  When
    [json.loads] raises another exception on one of these texts, the adapter
    reports it as it reports any exception: [success] false, empty results,
    no raw output, and the error of the failure mapping. *)
Theorem adapter_tolerates_decode_errors
    (E : Env) (t : tool) (code : pystr) (s : State) (stdout stderr : pystr) :
  invocation_outcome E t code (fs s) = Ok (stdout, stderr) ->
  exists r,
    (run_adapter E t code s).1 = Ok r
    /\ match loads_raises E (parsed_texts t stdout) with
       | None =>
           ar_success r = true
           /\ ar_error r = None
           /\ ar_raw_output r = Some stdout
           /\ match t with
              | Pylint => ar_results r = JList (parseable_lines E stdout)
              | Bandit | ESLint =>
                  (nonblank stdout = false -> ar_results r = empty_results t)
                  /\ (json_loads E stdout = JSONDecodeError -> ar_results r = empty_results t)
                  /\ (forall v, nonblank stdout = true -> json_loads E stdout = Loaded v ->
                                ar_results r = v)
              end
       | Some e =>
           ar_success r = false
           /\ ar_results r = empty_results t
           /\ ar_raw_output r = None
           /\ exists err,
                ar_error r = Some err
                /\ match kind e with
                   | TimeoutExpired => contains (lit "timed out") err = true
                   | FileNotFoundError => err = not_found_message t
                   | _ => err = message e
                   end
       end.
Proof.
  intros H.
  destruct t eqn:Ht; adapter_cases E code; simplify_eq;
    first [ rewrite pylint_parse_spec in Hparse
          | rewrite (document_parse_spec E Bandit) in Hparse by done
          | rewrite (document_parse_spec E ESLint) in Hparse by done ];
    (eexists; split; [reflexivity|]);
    destruct (loads_raises E _) as [e'|] eqn:Hraises; simplify_eq;
    cbn [ar_success ar_results ar_error ar_raw_output analyzer_ok analyzer_failed];
    try (split_and!; try reflexivity; eexists; split; [reflexivity|];
         match goal with Hk : kind _ = _ |- _ => by rewrite Hk end);
    split_and!; try reflexivity.
  all: try (intros ->; reflexivity).
  all: try (intros Hnone; rewrite Hnone; by destruct (nonblank _)).
  all: intros v -> ->; reflexivity.
Qed.

Lemma adapter_tolerates_decode_errors_witness :
  exists r,
    (run_adapter noisy_tools Pylint (lit "import os") initial_state).1 = Ok r
    /\ ar_success r = true
    /\ ar_error r = None
    /\ ar_raw_output r = Some (lit "3" ++ [newline] ++ lit "Traceback" ++ [newline] ++ lit "[1]")
    /\ ar_results r
       = JList (parseable_lines noisy_tools
                  (lit "3" ++ [newline] ++ lit "Traceback" ++ [newline] ++ lit "[1]")).
Proof.
  exact (adapter_tolerates_decode_errors noisy_tools Pylint (lit "import os") initial_state
           (lit "3" ++ [newline] ++ lit "Traceback" ++ [newline] ++ lit "[1]") (lit "")
           eq_refl).
Defined.

(** The unparseable middle line is dropped, the two others are kept. *)
Example pylint_keeps_parseable_lines :
  parseable_lines noisy_tools (lit "3" ++ [newline] ++ lit "Traceback" ++ [newline] ++ lit "[1]")
  = [JInt 3; JList [JInt 1]].
Proof. reflexivity. Qed.

(** C5, as stated, fails.  Pylint prints one line, an integer of 4301
    digits, and returns; so does bandit.  On that text [json.loads] raises a
    [ValueError], which is not a [JSONDecodeError]: it leaves the loop and the
    [try] body, and the adapter reports failure, with the message of the
    exception, empty results and no raw output. *)
Lemma parser_exception_surfaces_as_failure :
  invocation_outcome long_integer_tools Pylint (lit "x = 1") (fs initial_state)
  = Ok (replicate 4301 49, lit "")
  /\ (run_adapter long_integer_tools Pylint (lit "x = 1") initial_state).1
     = Ok (analyzer_failed
             (lit "Exceeds the limit (4300 digits) for integer string conversion: value has 4301 digits; use sys.set_int_max_str_digits() to increase the limit")
             (JList []))
  /\ (run_adapter long_integer_tools Bandit (lit "x = 1") initial_state).1
     = Ok (analyzer_failed
             (lit "Exceeds the limit (4300 digits) for integer string conversion: value has 4301 digits; use sys.set_int_max_str_digits() to increase the limit")
             (JDict []))
  /\ ~ (exists r,
          (run_adapter long_integer_tools Pylint (lit "x = 1") initial_state).1 = Ok r
          /\ ar_success r = true).
Proof.
  assert ((run_adapter long_integer_tools Pylint (lit "x = 1") initial_state).1
          = Ok (analyzer_failed
                  (lit "Exceeds the limit (4300 digits) for integer string conversion: value has 4301 digits; use sys.set_int_max_str_digits() to increase the limit")
                  (JList []))) as Hpylint by (vm_compute; reflexivity).
  split_and!; [vm_compute; reflexivity | exact Hpylint | vm_compute; reflexivity |].
  intros (r & Hr & Hs). rewrite Hpylint in Hr. injection Hr as <-. discriminate.
Qed.

(** An adapter always returns a result, it enters its own tool once and
    never calls the model. *)
Lemma adapter_runs (E : Env) (t : tool) (code : pystr) (s : State) :
  exists r s',
    run_adapter E t code s = (Ok r, s')
    /\ adapters_run (trace s') = adapters_run (trace s) ++ [t]
    /\ model_calls (trace s') = model_calls (trace s).
Proof.
  unfold adapters_run, model_calls.
  destruct t; adapter_cases E code; eexists _, _; (split; [reflexivity|]);
    cbn [trace]; rewrite !omap_app, !filter_app, !length_app; simpl;
    by rewrite ?app_nil_r, ?Nat.add_0_r.
Qed.

(** What an adapter leaves behind in the file system: what it found
    when the file could not be created, the empty file besides when the
    write raised, and, when the write succeeded, what the tool left, without
    the temporary file. *)
Lemma adapter_files (E : Env) (t : tool) (code : pystr) (s : State) :
  fs (run_adapter E t code s).2
  = match tmp_create E (suffix_of t) (fs s) with
    | Raise _ => fs s
    | Ok f =>
        match write_error E code with
        | Some _ => <[f := []]> (fs s)
        | None => delete f (tool_writes E (argv_of t f) (<[f := code]> (fs s)))
        end
    end.
Proof.
  destruct t; adapter_cases E code; try reflexivity;
    apply bool_decide_eq_false in Hexists;
    symmetry; apply delete_id;
    by destruct (tool_writes E _ _ !! _) eqn:Hl; [destruct Hexists; eexists|].
Qed.

(** When the name of the temporary file is new, the write succeeds and
    the tool writes nothing, the adapter leaves the file system as it found
    it. *)
Lemma adapter_cleans_up (E : Env) (t : tool) (code : pystr) (s : State) :
  (forall f, tmp_create E (suffix_of t) (fs s) = Ok f -> fs s !! f = None) ->
  write_error E code = None ->
  (forall argv files, tool_writes E argv files = files) ->
  fs (run_adapter E t code s).2 = fs s.
Proof.
  intros Hfresh Hw Htool. rewrite adapter_files, Hw.
  destruct (tmp_create E _ _) as [f|e]; [|done].
  rewrite Htool, delete_insert_eq. by apply delete_id, Hfresh.
Qed.

(** ** The AI commentary invoker *)

Ltac unfold_ai :=
  cbv [run_ai_analysis call_huggingface_model
       bind ret raise try_except try_finally emit lift_res st_info get_fs put_fs] in *;
  cbn [fs trace temp_file fst snd] in *.

(** The feedback kept from the generated text is never empty. *)
Lemma extract_feedback_nonempty (generated_text : pystr) :
  str_truthy (extract_feedback generated_text) = true.
Proof.
  unfold extract_feedback.
  set (feedback := if contains _ _ then _ else _).
  by destruct (str_truthy feedback) eqn:H.
Qed.

(** [call_huggingface_model] never raises: it returns the extracted
    feedback, or one of its two failure texts. *)
Lemma call_huggingface_model_returns (E : Env) (prompt : pystr) (s : State) :
  (call_huggingface_model E prompt s).1
  = Ok match generate E (take 1000 prompt ++ [newline] ++ lit "REVIEW:") with
       | Ok generated_text => extract_feedback generated_text
       | Raise e =>
           match kind e with
           | ImportError =>
               lit "PyTorch/Transformers not available. Install with: pip install torch transformers"
           | _ => lit "AI analysis failed: " ++ message e
           end
       end.
Proof.
  unfold_ai. destruct (generate E _) as [g|e]; [done|]. by destruct (kind e).
Qed.

(** [run_ai_analysis] always returns a record with [success] true; it
    calls the model invoker once and enters no adapter. *)
Lemma ai_analysis_runs (E : Env) (code language : pystr) (s : State) :
  exists fb s',
    run_ai_analysis E code language s
    = (Ok {| ai_success := true; ai_feedback := fb;
             ai_model_used := Some (lit "Salesforce/codet5-base"); ai_error := None |}, s')
    /\ (call_huggingface_model E (create_code_review_prompt code language) s).1 = Ok fb
    /\ adapters_run (trace s') = adapters_run (trace s)
    /\ model_calls (trace s') = S (model_calls (trace s))
    /\ fs s'
       = model_writes E
           (take 1000 (create_code_review_prompt code language) ++ [newline] ++ lit "REVIEW:")
           (fs s).
Proof.
  unfold adapters_run, model_calls. unfold_ai.
  destruct (generate E _) as [g|e]; [|destruct (kind e)];
    cbn [fs trace temp_file fst snd]; eexists _, _; (split; [reflexivity|]);
    cbn [fs trace]; rewrite !omap_app, !filter_app, !length_app; simpl;
    rewrite ?app_nil_r, ?Nat.add_0_r; split_and!; try done; lia.
Qed.

(** C8. When the model runtime cannot be imported the fixed "not
    available, install with" text is the feedback; on any other exception
    the feedback is "AI analysis failed: " followed by the exception's
    message.  Nothing is raised, and [run_ai_analysis] reports [success]
    true with that text as feedback and no error. *)
Theorem generation_failure_is_feedback
    (E : Env) (code language : pystr) (s : State) (e : exn) :
  let prompt := create_code_review_prompt code language in
  generate E (take 1000 prompt ++ [newline] ++ lit "REVIEW:") = Raise e ->
  exists msg,
    msg = match kind e with
          | ImportError =>
              lit "PyTorch/Transformers not available. Install with: pip install torch transformers"
          | _ => lit "AI analysis failed: " ++ message e
          end
    /\ (forall s0, (call_huggingface_model E prompt s0).1 = Ok msg)
    /\ (run_ai_analysis E code language s).1
       = Ok {| ai_success := true; ai_feedback := msg;
               ai_model_used := Some (lit "Salesforce/codet5-base"); ai_error := None |}.
Proof.
  intros prompt Hgen. eexists. split; [reflexivity|]. split.
  - intros s0. by rewrite call_huggingface_model_returns; fold prompt; rewrite Hgen.
  - destruct (ai_analysis_runs E code language s) as (fb & s' & -> & Hfb & _).
    rewrite call_huggingface_model_returns in Hfb. fold prompt in Hfb.
    rewrite Hgen in Hfb. simpl. by simplify_eq.
Qed.

Lemma generation_failure_is_feedback_witness :
  exists msg,
    msg = lit "PyTorch/Transformers not available. Install with: pip install torch transformers"
    /\ (forall s0, (call_huggingface_model nothing_installed
                      (create_code_review_prompt (lit "x = 1") (lit "Python")) s0).1 = Ok msg)
    /\ (run_ai_analysis nothing_installed (lit "x = 1") (lit "Python") initial_state).1
       = Ok {| ai_success := true; ai_feedback := msg;
               ai_model_used := Some (lit "Salesforce/codet5-base"); ai_error := None |}.
Proof.
  apply (generation_failure_is_feedback nothing_installed (lit "x = 1") (lit "Python")
           initial_state (Exn ImportError (lit "No module named 'transformers'"))).
  reflexivity.
Defined.

(** ** The orchestrator on accepted input *)

Lemma supported_cases (language : pystr) :
  language ∈ supported_languages -> language = lit "Python" \/ language = lit "JavaScript".
Proof.
  unfold supported_languages. intros H.
  apply elem_of_cons in H as [->|H]; [by left|].
  apply elem_of_cons in H as [->|H]; [by right|].
  by apply not_elem_of_nil in H.
Qed.

Lemma javascript_is_not_python : lit "JavaScript" <> lit "Python".
Proof. intros H. vm_compute in H. discriminate. Qed.

(** What [run_static_analysis] does for each supported language. *)
Lemma static_analysis_runs (E : Env) (code language : pystr) (s : State) :
  language ∈ supported_languages ->
  exists sa s',
    run_static_analysis E code language s = (Ok sa, s')
    /\ model_calls (trace s') = model_calls (trace s)
    /\ (language = lit "Python" ->
        adapters_run (trace s') = adapters_run (trace s) ++ [Pylint; Bandit]
        /\ is_Some (pylint sa) /\ is_Some (bandit sa) /\ eslint sa = None)
    /\ (language = lit "JavaScript" ->
        adapters_run (trace s') = adapters_run (trace s) ++ [ESLint]
        /\ pylint sa = None /\ bandit sa = None /\ is_Some (eslint sa)).
Proof.
  intros [->| ->]%supported_cases; unfold run_static_analysis, pystr_eqb.
  - rewrite bool_decide_eq_true_2 by done.
    unfold bind at 1, st_info, emit.
    set (s1 := {| fs := fs s; trace := trace s ++ _; temp_file := temp_file s |}).
    destruct (adapter_runs E Pylint code s1) as (p & s2 & Hp & Ha2 & Hm2).
    destruct (adapter_runs E Bandit code s2) as (b & s3 & Hb & Ha3 & Hm3).
    simpl in Hp, Hb. unfold bind, ret. rewrite Hp, Hb.
    eexists _, _. split; [reflexivity|]. simpl.
    rewrite Hm3, Hm2, Ha3, Ha2. subst s1. unfold adapters_run, model_calls. simpl.
    rewrite !omap_app, !filter_app, !length_app. simpl.
    rewrite ?app_nil_r, ?Nat.add_0_r, <- ?app_assoc. split_and!; try done.
    all: intros H; by apply symmetry, javascript_is_not_python in H.
  - rewrite bool_decide_eq_false_2 by apply javascript_is_not_python.
    rewrite bool_decide_eq_true_2 by done.
    unfold bind at 1, st_info, emit.
    set (s1 := {| fs := fs s; trace := trace s ++ _; temp_file := temp_file s |}).
    destruct (adapter_runs E ESLint code s1) as (e & s2 & He & Ha2 & Hm2).
    simpl in He. unfold bind, ret. rewrite He.
    eexists _, _. split; [reflexivity|]. simpl.
    rewrite Hm2, Ha2. subst s1. unfold adapters_run, model_calls. simpl.
    rewrite !omap_app, !filter_app, !length_app. simpl.
    rewrite ?app_nil_r, ?Nat.add_0_r. split_and!; try done.
    all: intros H; by apply javascript_is_not_python in H.
Qed.

(** The result of [review_code] on code that is not blank, in a
    supported language. *)
Lemma review_code_accepts (E : Env) (code language : pystr) (s : State) :
  forallb isspace code = false ->
  language ∈ supported_languages ->
  exists sa s1 ai s',
    review_code E code language s = (Ok (Review language sa ai (timestamp_now E)), s')
    /\ run_static_analysis E code language s = (Ok sa, s1)
    /\ run_ai_analysis E code language s1 = (Ok ai, s').
Proof.
  intros Hcode Hlang. unfold review_code.
  rewrite strip_truthy, Hcode. simpl. rewrite bool_decide_eq_true_2 by done. simpl.
  destruct (static_analysis_runs E code language s Hlang) as (sa & s1 & Hsa & _).
  destruct (ai_analysis_runs E code language s1) as (fb & s' & Hai & _).
  unfold bind, ret. rewrite Hsa, Hai. by eexists _, _, _, _.
Qed.

Lemma both_languages_supported :
  lit "Python" ∈ supported_languages /\ lit "JavaScript" ∈ supported_languages.
Proof. unfold supported_languages. split; [left | right; left]. Qed.

(** C2. On code that is not blank: for Python the adapters entered are
    pylint and bandit, in that order and no other, and the eslint entry
    of the static-analysis mapping is null; for JavaScript the only
    adapter entered is eslint, and the pylint and bandit entries are
    null. *)
Theorem dispatch_by_language (E : Env) (code language : pystr) (s : State) :
  forallb isspace code = false ->
  language ∈ supported_languages ->
  exists sa ai ts s',
    review_code E code language s = (Ok (Review language sa ai ts), s')
    /\ (language = lit "Python" ->
        adapters_run (trace s') = adapters_run (trace s) ++ [Pylint; Bandit]
        /\ is_Some (pylint sa) /\ is_Some (bandit sa) /\ eslint sa = None)
    /\ (language = lit "JavaScript" ->
        adapters_run (trace s') = adapters_run (trace s) ++ [ESLint]
        /\ pylint sa = None /\ bandit sa = None /\ is_Some (eslint sa)).
Proof.
  intros Hcode Hlang.
  destruct (review_code_accepts E code language s Hcode Hlang)
    as (sa & s1 & ai & s' & Hr & Hsa & Hai).
  destruct (static_analysis_runs E code language s Hlang)
    as (sa' & s1' & Hsa' & _ & Hpy & Hjs).
  destruct (ai_analysis_runs E code language s1) as (fb & s'' & Hai' & _ & Hads & _).
  rewrite Hsa in Hsa'. rewrite Hai in Hai'. simplify_eq.
  eexists _, _, _, _. split; [done|]. by rewrite Hads.
Qed.

Lemma dispatch_by_language_witness :
  exists sa ai ts s',
    review_code nothing_installed (lit "x = 1") (lit "Python") initial_state
    = (Ok (Review (lit "Python") sa ai ts), s')
    /\ (lit "Python" = lit "Python" ->
        adapters_run (trace s') = adapters_run (trace initial_state) ++ [Pylint; Bandit]
        /\ is_Some (pylint sa) /\ is_Some (bandit sa) /\ eslint sa = None)
    /\ (lit "Python" = lit "JavaScript" ->
        adapters_run (trace s') = adapters_run (trace initial_state) ++ [ESLint]
        /\ pylint sa = None /\ bandit sa = None /\ is_Some (eslint sa)).
Proof.
  apply (dispatch_by_language nothing_installed (lit "x = 1") (lit "Python") initial_state).
  - reflexivity.
  - exact (proj1 both_languages_supported).
Defined.

(** C3. On code that is not blank, in a supported language, whatever the
    adapters return, the model invoker is entered exactly once, and the
    result carries the static-analysis mapping, the AI record and the
    time stamp. *)
Theorem ai_commentary_attempted_once (E : Env) (code language : pystr) (s : State) :
  forallb isspace code = false ->
  language ∈ supported_languages ->
  exists sa s1 ai s',
    review_code E code language s = (Ok (Review language sa ai (timestamp_now E)), s')
    /\ run_static_analysis E code language s = (Ok sa, s1)
    /\ run_ai_analysis E code language s1 = (Ok ai, s')
    /\ model_calls (trace s') = S (model_calls (trace s)).
Proof.
  intros Hcode Hlang.
  destruct (review_code_accepts E code language s Hcode Hlang)
    as (sa & s1 & ai & s' & Hr & Hsa & Hai).
  destruct (static_analysis_runs E code language s Hlang) as (sa' & s1' & Hsa' & Hm1 & _).
  destruct (ai_analysis_runs E code language s1) as (fb & s'' & Hai' & _ & _ & Hm2 & _).
  rewrite Hsa in Hsa'. rewrite Hai in Hai'. simplify_eq.
  eexists _, _, _, _. split_and!; try done. by rewrite Hm2, Hm1.
Qed.

(** With no tool installed, so that both adapters that run fail, the
    model is still called once. *)
Lemma ai_commentary_attempted_once_witness :
  exists sa s1 ai s',
    review_code nothing_installed (lit "print('x')") (lit "Python") initial_state
    = (Ok (Review (lit "Python") sa ai (timestamp_now nothing_installed)), s')
    /\ run_static_analysis nothing_installed (lit "print('x')") (lit "Python") initial_state
       = (Ok sa, s1)
    /\ run_ai_analysis nothing_installed (lit "print('x')") (lit "Python") s1 = (Ok ai, s')
    /\ model_calls (trace s') = S (model_calls (trace initial_state)).
Proof.
  apply (ai_commentary_attempted_once nothing_installed (lit "print('x')") (lit "Python")
           initial_state).
  - reflexivity.
  - exact (proj1 both_languages_supported).
Defined.

(** The example of the specification: with pylint and bandit absent both
    entries report failure with their remediation message. *)
Example both_python_tools_absent :
  match review_code nothing_installed (lit "print('x')") (lit "Python") initial_state with
  | (Ok (Review language sa ai ts), s') =>
      pylint sa = Some (analyzer_failed (not_found_message Pylint) (JList []))
      /\ bandit sa = Some (analyzer_failed (not_found_message Bandit) (JDict []))
      /\ eslint sa = None
      /\ subprocesses (trace s') = 2%nat
      /\ model_calls (trace s') = 1%nat
  | _ => False
  end.
Proof. vm_compute. by split_and!. Qed.

(** C10. On code that is not blank, in a supported language, the AI
    record of the result has [success] true, the model name
    "Salesforce/codet5-base" and no error: [call_huggingface_model] returns a
    text whatever the model runtime does, so the handler of
    [run_ai_analysis] is never taken. *)
Theorem ai_analysis_reports_success (E : Env) (code language : pystr) (s : State) :
  forallb isspace code = false ->
  language ∈ supported_languages ->
  (forall prompt s0, exists feedback, (call_huggingface_model E prompt s0).1 = Ok feedback)
  /\ exists sa ai ts s',
       review_code E code language s = (Ok (Review language sa ai ts), s')
       /\ ai_success ai = true
       /\ ai_model_used ai = Some (lit "Salesforce/codet5-base")
       /\ ai_error ai = None.
Proof.
  intros Hcode Hlang. split.
  - intros prompt s0. rewrite call_huggingface_model_returns. by eexists.
  - destruct (review_code_accepts E code language s Hcode Hlang)
      as (sa & s1 & ai & s' & Hr & Hsa & Hai).
    destruct (ai_analysis_runs E code language s1) as (fb & s'' & Hai' & _).
    rewrite Hai in Hai'. simplify_eq. by eexists _, _, _, _.
Qed.

(** Even when the model cannot be loaded at all. *)
Lemma ai_analysis_reports_success_witness :
  (forall prompt s0,
     exists feedback, (call_huggingface_model everything_hangs prompt s0).1 = Ok feedback)
  /\ exists sa ai ts s',
       review_code everything_hangs (lit "var x = 1;") (lit "JavaScript") initial_state
       = (Ok (Review (lit "JavaScript") sa ai ts), s')
       /\ ai_success ai = true
       /\ ai_model_used ai = Some (lit "Salesforce/codet5-base")
       /\ ai_error ai = None.
Proof.
  apply (ai_analysis_reports_success everything_hangs (lit "var x = 1;") (lit "JavaScript")
           initial_state).
  - reflexivity.
  - exact (proj2 both_languages_supported).
Defined.

(** ** The combined issue count *)

Lemma counted_list (key : pystr) (v : json) :
  list_or_absent key v = true ->
  (messages ← py_get v key (JList []); py_len messages) = Ok (list_length_at key v).
Proof.
  unfold list_or_absent, list_length_at, py_get.
  destruct v as [| | | | |l|d]; try discriminate.
  destruct (dict_lookup key d) as [[| | | | |l|d']|]; try discriminate; done.
Qed.

(** The loop over the per-file results of eslint adds up the lengths of
    the message lists. *)
Lemma eslint_loop (files : list json) (n : nat) :
  forallb (list_or_absent (lit "messages")) files = true ->
  for_each (fun issue_count file_result =>
              messages ← py_get file_result (lit "messages") (JList []);
              m ← py_len messages;
              Ok (issue_count + m)%nat) n files
  = Ok (n + foldr (fun f k => (list_length_at (lit "messages") f + k)%nat) O files)%nat.
Proof.
  revert n. induction files as [|f files IH]; intros n; simpl.
  - intros _. by rewrite Nat.add_0_r.
  - intros [Hf Hfiles]%andb_prop.
    pose proof (counted_list _ _ Hf) as Hc.
    destruct (py_get f _ _) as [messages|e]; simpl in *; [|discriminate].
    rewrite Hc. simpl. rewrite (IH _ Hfiles). by rewrite Nat.add_assoc.
Qed.

Lemma pylint_step (p : option AnalyzerResult) (n : nat) :
  result_shaped Pylint p = true ->
  match p with
  | Some pylint_data =>
      if ar_success pylint_data && py_truthy (ar_results pylint_data)
      then m ← py_len (ar_results pylint_data); Ok (n + m)%nat
      else Ok n
  | None => Ok n
  end = Ok (n + contribution Pylint p)%nat.
Proof.
  unfold contribution. destruct p as [d|]; simpl; [|by rewrite Nat.add_0_r].
  destruct (ar_success d); simpl; [|by rewrite Nat.add_0_r].
  destruct (ar_results d) as [| | | | |[|x l]|]; try discriminate;
    intros _; simpl; by rewrite ?Nat.add_0_r.
Qed.

Lemma bandit_step (b : option AnalyzerResult) (n : nat) :
  result_shaped Bandit b = true ->
  match b with
  | Some bandit_data =>
      if ar_success bandit_data
      then issues ← py_get (ar_results bandit_data) (lit "results") (JList []);
           m ← py_len issues; Ok (n + m)%nat
      else Ok n
  | None => Ok n
  end = Ok (n + contribution Bandit b)%nat.
Proof.
  unfold contribution. destruct b as [d|]; simpl; [|by rewrite Nat.add_0_r].
  destruct (ar_success d); simpl; [|by rewrite Nat.add_0_r].
  intros Hb. pose proof (counted_list _ _ Hb) as Hc.
  destruct (py_get (ar_results d) _ _) as [issues|?]; simpl in *; [|discriminate].
  destruct (py_len issues) as [m|?]; simpl in *; [|discriminate].
  injection Hc as ->. f_equal. f_equal.
  by destruct (ar_results d) as [| | | | | |[|kv dd]].
Qed.

Lemma eslint_step (e : option AnalyzerResult) (n : nat) :
  result_shaped ESLint e = true ->
  match e with
  | Some eslint_data =>
      if ar_success eslint_data && py_truthy (ar_results eslint_data)
      then files ← py_iter (ar_results eslint_data);
           for_each (fun issue_count file_result =>
                       messages ← py_get file_result (lit "messages") (JList []);
                       m ← py_len messages;
                       Ok (issue_count + m)%nat) n files
      else Ok n
  | None => Ok n
  end = Ok (n + contribution ESLint e)%nat.
Proof.
  unfold contribution. destruct e as [d|]; simpl; [|by rewrite Nat.add_0_r].
  destruct (ar_success d); simpl; [|by rewrite Nat.add_0_r].
  destruct (ar_results d) as [| | | | |files|]; try discriminate.
  destruct files as [|f files]; [by rewrite Nat.add_0_r|].
  intros He. cbn [py_truthy py_iter mbind Res_bind].
  by rewrite (eslint_loop _ _ He).
Qed.

(** C6. On a static-analysis mapping whose payloads have the shapes of
    the data model, the issue count of the combined view is the sum, over
    pylint, bandit and eslint, of the number of diagnostics of every
    analyzer result that is present, successful and not empty; an absent or
    failed analyzer adds nothing, and each tool is counted once. *)
Theorem issue_count_is_sum (sa : StaticResults) :
  well_shaped sa = true ->
  issue_count sa = Ok (spec_issue_count sa).
Proof.
  unfold well_shaped, issue_count, spec_issue_count.
  intros [[Hp Hb]%andb_prop He]%andb_prop.
  rewrite (pylint_step _ 0 Hp). cbn [mbind Res_bind].
  rewrite (bandit_step _ _ Hb). cbn [mbind Res_bind].
  by rewrite (eslint_step _ _ He).
Qed.

Lemma issue_count_is_sum_witness :
  issue_count python_static = Ok (spec_issue_count python_static).
Proof. apply (issue_count_is_sum python_static). reflexivity. Defined.

(** Three diagnostics from two tools; the absent eslint entry adds
    nothing. *)
Example python_static_count : issue_count python_static = Ok 3%nat.
Proof. reflexivity. Qed.

(** A bandit payload that is not a dictionary makes the count raise:
    the shapes of the data model are needed. *)
Example issue_count_needs_shape :
  issue_count {| sr_language := lit "Python"; pylint := None;
                 bandit := Some (analyzer_ok (JList [JInt 1]) (lit "[1]") (lit ""));
                 eslint := None |}
  = Raise (Exn AttributeError (lit "'list' object has no attribute 'get'")).
Proof. reflexivity. Qed.

(** ** The plain-text report *)

(** The report of a Python result: the pylint section, then the bandit
    section, then the AI section, each diagnostic on its line in the order
    of the payload, the feedback last. *)
Example python_report :
  download_report noisy_tools
    (Review (lit "Python") python_static
       {| ai_success := true; ai_feedback := lit "Looks fine.";
          ai_model_used := Some (lit "Salesforce/codet5-base"); ai_error := None |}
       (lit "2024-01-01 12:00:00.000000"))
  = Ok (lit "AI-Powered Code Review Report" ++ [newline]
        ++ lit "Generated: 2024-01-01 12:00:00" ++ [newline]
        ++ lit "Language: Python" ++ [newline]
        ++ [newline]
        ++ lit "=== STATIC ANALYSIS RESULTS ===" ++ [newline]
        ++ [newline]
        ++ lit "--- PYLINT RESULTS ---" ++ [newline]
        ++ lit "Line 3: Unused import os" ++ [newline]
        ++ [newline]
        ++ lit "--- BANDIT SECURITY RESULTS ---" ++ [newline]
        ++ lit "Line 7: Use of exec detected. (MEDIUM)" ++ [newline]
        ++ lit "Line 9: Use of assert detected. (LOW)" ++ [newline]
        ++ [newline]
        ++ lit "=== AI ANALYSIS RESULTS ===" ++ [newline]
        ++ lit "Model: Salesforce/codet5-base" ++ [newline]
        ++ [newline]
        ++ lit "Looks fine.").
Proof. vm_compute. reflexivity. Qed.

(** The feedback of a successful AI record is the end of the report,
    verbatim. *)
Lemma report_ends_with_feedback (E : Env) (r : ReviewResult) (ai : AICommentary)
    (report : pystr) :
  download_report E r = Ok report ->
  get_ai r = Some ai ->
  ai_success ai = true ->
  exists before, report = before ++ ai_feedback ai.
Proof.
  unfold download_report. intros H Hai Hs.
  destruct (pylint_section E _ _) as [r1|?]; simpl in H; [|discriminate].
  destruct (bandit_section E _ _) as [r2|?]; simpl in H; [|discriminate].
  injection H as <-. rewrite Hai. unfold ai_section. rewrite Hs.
  eexists. by rewrite !app_assoc.
Qed.

(** The report does not look at the eslint entry. *)
Lemma report_ignores_eslint (E : Env) (language : pystr) (sa : StaticResults)
    (ai : AICommentary) (ts : pystr) (e : option AnalyzerResult) :
  download_report E (Review language sa ai ts)
  = download_report E
      (Review language
         {| sr_language := sr_language sa; pylint := pylint sa; bandit := bandit sa;
            eslint := e |} ai ts).
Proof. reflexivity. Qed.

(** A loop that appends one rendered line per item yields the lines in
    the order of the items. *)
Lemma for_each_appends {A : Type} (render : A -> Res pystr) (items : list A)
    (lines : list pystr) (report_content : pystr) :
  Forall2 (fun item line => render item = Ok line) items lines ->
  for_each (fun report_content item => l ← render item; Ok (report_content ++ l))
           report_content items
  = Ok (report_content ++ concat lines).
Proof.
  intros H. revert report_content.
  induction H as [|item line items lines Hline _ IH]; intros report_content; simpl.
  - by rewrite app_nil_r.
  - rewrite Hline. simpl. by rewrite IH, app_assoc.
Qed.

(** A diagnostic that is a dictionary always renders, and the line holds
    its message verbatim. *)
Lemma pylint_line_of_dict (E : Env) (d : list (pystr * json)) :
  pylint_line E (JDict d)
  = Ok (lit "Line " ++ py_str E (default (JStr (lit "N/A")) (dict_lookup (lit "line") d))
        ++ lit ": "
        ++ py_str E (default (JStr (lit "No message")) (dict_lookup (lit "message") d))
        ++ [newline]).
Proof. reflexivity. Qed.

Lemma bandit_line_of_dict (E : Env) (d : list (pystr * json)) :
  bandit_line E (JDict d)
  = Ok (lit "Line " ++ py_str E (default (JStr (lit "N/A")) (dict_lookup (lit "line_number") d))
        ++ lit ": "
        ++ py_str E (default (JStr (lit "No description")) (dict_lookup (lit "issue_text") d))
        ++ lit " ("
        ++ py_str E (default (JStr (lit "LOW")) (dict_lookup (lit "severity") d))
        ++ lit ")" ++ [newline]).
Proof. reflexivity. Qed.

Lemma dict_diagnostics_render (render : json -> Res pystr) (ds : list (list (pystr * json))) :
  (forall d, exists line, render (JDict d) = Ok line) ->
  exists lines, Forall2 (fun item line => render item = Ok line) (JDict <$> ds) lines.
Proof.
  intros Hr. induction ds as [|d ds [lines IH]]; [by exists []|].
  destruct (Hr d) as [line Hline]. exists (line :: lines). by constructor.
Qed.

(** The report of a result whose pylint and bandit entries succeeded
    with at least one diagnostic each: the header, the pylint lines in
    order, the bandit lines in order, and the AI section with the feedback
    at the very end. *)
Lemma python_report_in_order (E : Env) (language : pystr)
    (pylint_issues bandit_issues : list (list (pystr * json)))
    (other_keys : list (pystr * json)) (out1 err1 out2 err2 : pystr)
    (e : option AnalyzerResult) (ai : AICommentary) (ts : pystr) :
  pylint_issues <> [] ->
  bandit_issues <> [] ->
  ai_success ai = true ->
  exists pylint_lines bandit_lines,
    Forall2 (fun d line => pylint_line E (JDict d) = Ok line) pylint_issues pylint_lines
    /\ Forall2 (fun d line => bandit_line E (JDict d) = Ok line) bandit_issues bandit_lines
    /\ download_report E
         (Review language
            {| sr_language := language;
               pylint := Some (analyzer_ok (JList (JDict <$> pylint_issues)) out1 err1);
               bandit := Some (analyzer_ok
                                 (JDict ((lit "results", JList (JDict <$> bandit_issues))
                                         :: other_keys)) out2 err2);
               eslint := e |} ai ts)
       = Ok (report_header E language
             ++ ([newline] ++ lit "--- PYLINT RESULTS ---" ++ [newline])
             ++ concat pylint_lines
             ++ ([newline] ++ lit "--- BANDIT SECURITY RESULTS ---" ++ [newline])
             ++ concat bandit_lines
             ++ ([newline] ++ lit "=== AI ANALYSIS RESULTS ===" ++ [newline]
                 ++ lit "Model: " ++ default (lit "CodeT5") (ai_model_used ai)
                 ++ [newline; newline])
             ++ ai_feedback ai).
Proof.
  intros Hp Hb Hai.
  destruct (dict_diagnostics_render (pylint_line E) pylint_issues) as [pl Hpl];
    [intros d; eexists; apply pylint_line_of_dict|].
  destruct (dict_diagnostics_render (bandit_line E) bandit_issues) as [bl Hbl];
    [intros d; eexists; apply bandit_line_of_dict|].
  exists pl, bl. split_and!.
  - by apply Forall2_fmap_l in Hpl.
  - by apply Forall2_fmap_l in Hbl.
  - unfold download_report, pylint_section, bandit_section, ai_section.
    cbn [get_static get_ai get_language pylint bandit analyzer_ok ar_success ar_results].
    destruct pylint_issues as [|p0 ps]; [done|].
    destruct bandit_issues as [|b0 bs]; [done|].
    cbn [fmap list_fmap] in Hpl, Hbl.
    cbn [py_truthy fmap list_fmap py_iter mbind Res_bind].
    rewrite (for_each_appends _ _ _ _ Hpl). cbn [mbind Res_bind].
    cbn [py_get dict_lookup]. rewrite bool_decide_eq_true_2 by done.
    cbn [default from_option id py_truthy py_iter mbind Res_bind].
    rewrite (for_each_appends _ _ _ _ Hbl). rewrite Hai.
    cbn [mbind Res_bind]. f_equal. by rewrite <- !app_assoc.
Qed.

(** C7, on a JavaScript result.  The result holds one eslint diagnostic,
    which the combined view counts; the report has no section for eslint,
    so the text of the diagnostic is nowhere in it. *)
Theorem report_omits_eslint_diagnostics :
  issue_count javascript_static = Ok 1%nat
  /\ download_report noisy_tools javascript_review
     = Ok (lit "AI-Powered Code Review Report" ++ [newline]
           ++ lit "Generated: 2024-01-01 12:00:00" ++ [newline]
           ++ lit "Language: JavaScript" ++ [newline]
           ++ [newline]
           ++ lit "=== STATIC ANALYSIS RESULTS ===" ++ [newline]
           ++ [newline]
           ++ lit "=== AI ANALYSIS RESULTS ===" ++ [newline]
           ++ lit "Model: Salesforce/codet5-base" ++ [newline]
           ++ [newline]
           ++ lit "Looks fine.")
  /\ forall report,
       download_report noisy_tools javascript_review = Ok report ->
       contains (lit "Unexpected var, use let or const instead.") report = false.
Proof.
  split_and!.
  - vm_compute. reflexivity.
  - vm_compute. reflexivity.
  - intros report H. vm_compute in H. injection H as <-. vm_compute. reflexivity.
Qed.

(** ** The temporary file *)

Lemma longest_bounds (files : gmap pystr pystr) (p text : pystr) :
  files !! p = Some text -> (length p <= longest files)%nat.
Proof.
  unfold longest. revert p text.
  induction files as [|k v files Hk Hfold IH] using map_first_key_ind; intros p text.
  - by rewrite lookup_empty.
  - rewrite map_fold_insert_first_key by done.
    rewrite lookup_insert. case_decide as Hp.
    + intros _. subst. lia.
    + intros H. apply IH in H. lia.
Qed.

(** The names [fresh_tmp] picks are new. *)
Lemma fresh_tmp_is_new (suffix : pystr) (files : gmap pystr pystr) (f : pystr) :
  fresh_tmp suffix files = Ok f -> files !! f = None.
Proof.
  unfold fresh_tmp. intros Hf. injection Hf as <-.
  destruct (files !! _) as [text|] eqn:H; [|done].
  apply longest_bounds in H. cbn [length app lit] in H.
  rewrite ?length_app, ?length_cons, ?length_replicate in H. simpl in H.
  rewrite ?length_app, ?length_cons, ?length_replicate in H. lia.
Qed.

(** In the concrete environments, an adapter given code without
    surrogates leaves the file system as it found it. *)
Lemma adapter_cleans_up_scenario proc gen (t : tool) (code : pystr) (s : State) :
  existsb is_surrogate code = false ->
  fs (run_adapter (scenario proc gen) t code s).2 = fs s.
Proof.
  intros Hc. apply adapter_cleans_up.
  - intros f. apply fresh_tmp_is_new.
  - simpl. unfold utf8_write_error. by rewrite Hc.
  - done.
Qed.

(** When the write raises, the file that was created stays. *)
Lemma adapter_leaks_on_failed_write (E : Env) (t : tool) (code : pystr) (s : State)
    (f : pystr) (e : exn) :
  tmp_create E (suffix_of t) (fs s) = Ok f ->
  write_error E code = Some e ->
  fs (run_adapter E t code s).2 !! f = Some [].
Proof.
  intros Hc Hw. rewrite adapter_files, Hc, Hw. apply lookup_insert_eq.
Qed.

(** C9, on code that cannot be written.  The code is one lone surrogate,
    U+D800, which a UTF-8 locale cannot encode: [f.write] raises before
    [temp_file] is assigned, the adapter reports the failure, and the
    [finally] clause, seeing [temp_file] still [None], removes nothing.  The
    file that [NamedTemporaryFile] created is still there when the adapter
    returns. *)
Theorem temp_file_survives_failed_write :
  (run_pylint_analysis noisy_tools [55296] initial_state).1
  = Ok (analyzer_failed
          (lit "'utf-8' codec can't encode character '\ud800' in position 0: surrogates not allowed")
          (JList []))
  /\ temp_file (run_pylint_analysis noisy_tools [55296] initial_state).2 = None
  /\ fs initial_state !! lit "/tmp/tmp.py" = None
  /\ fs (run_pylint_analysis noisy_tools [55296] initial_state).2 !! lit "/tmp/tmp.py"
     = Some [].
Proof. split_and!; vm_compute; reflexivity. Qed.

(** * Further properties *)

(** ** Searching and splitting text *)

Lemma starts_with_app (p a b : pystr) :
  starts_with p a = true -> starts_with p (a ++ b) = true.
Proof.
  revert a. induction p as [|x p IH]; intros [|y a]; simpl; try done.
  intros [-> Hp]%andb_prop. simpl. by apply IH.
Qed.

Lemma contains_app_l (sep a b : pystr) :
  contains sep a = true -> contains sep (a ++ b) = true.
Proof.
  induction a as [|x a IH]; simpl.
  - rewrite orb_false_r. intros H. apply (starts_with_app _ _ b) in H.
    simpl in H. destruct b; simpl; by rewrite H.
  - intros [H|H]%orb_prop.
    + apply (starts_with_app _ _ b) in H. simpl in H. by rewrite H.
    + rewrite (IH H). apply orb_true_r.
Qed.

Lemma contains_app_r (sep a b : pystr) :
  contains sep b = true -> contains sep (a ++ b) = true.
Proof.
  intros H. induction a as [|x a IH]; simpl; [by destruct b|].
  rewrite IH. apply orb_true_r.
Qed.

Lemma lstrip_suffix (s : pystr) : exists before, s = before ++ lstrip s.
Proof.
  induction s as [|c s [before IH]]; simpl; [by exists []|].
  destruct (isspace c); [|by exists []].
  exists (c :: before). simpl. by f_equal.
Qed.

Lemma rstrip_prefix (s : pystr) : exists after, s = rstrip s ++ after.
Proof.
  induction s as [|c s [after IH]]; simpl; [by exists []|].
  destruct (rstrip s) as [|x r] eqn:Hr.
  - destruct (isspace c); [by exists (c :: s)|]. exists after. simpl in *. by f_equal.
  - exists after. simpl. f_equal. exact IH.
Qed.

(** What [strip] keeps is a piece of the text: it holds nothing the text
    does not hold. *)
Lemma contains_strip (sep s : pystr) :
  contains sep (strip s) = true -> contains sep s = true.
Proof.
  unfold strip. intros H.
  destruct (lstrip_suffix s) as [before Hb]. destruct (rstrip_prefix (lstrip s)) as [after Ha].
  rewrite Hb. apply contains_app_r. rewrite Ha. by apply contains_app_l.
Qed.

Lemma clean_nil (sep s : pystr) : clean sep [] s.
Proof. intros t1 t2 H Hne. by destruct t1, t2. Qed.

Lemma clean_cons (sep cur s : pystr) (c : N) :
  clean sep cur (c :: s) -> starts_with sep (c :: s) = false -> clean sep (c :: cur) s.
Proof.
  intros Hc Hs t1 t2 H Hne. rewrite reverse_cons in H.
  destruct (decide (t2 = [])) as [->|_]; [done|].
  destruct (exists_last Hne) as (t2' & x & ->).
  rewrite app_assoc in H. apply app_inj_tail in H as [H ->].
  rewrite <- app_assoc. simpl.
  destruct t2' as [|y t2']; [done|]. by apply (Hc t1).
Qed.

Lemma clean_done (sep cur : pystr) :
  sep <> [] -> clean sep cur [] -> contains sep (reverse cur) = false.
Proof.
  intros Hsep. unfold clean. generalize (reverse cur). clear cur.
  intros l. induction l as [|x l IH]; intros Hc; simpl.
  - by destruct sep.
  - rewrite IH.
    + specialize (Hc [] (x :: l) eq_refl). rewrite app_nil_r in Hc. by rewrite Hc.
    + intros t1 t2 -> Hne. by apply (Hc (x :: t1) t2).
Qed.

(** The last piece of a split holds no separator. *)
Lemma split_go_last (sep s : pystr) (skip : nat) (cur : pystr) :
  sep <> [] ->
  match skip with O => clean sep cur s | S _ => cur = [] end ->
  exists piece, last (split_go sep skip cur s) = Some piece /\ contains sep piece = false.
Proof.
  intros Hsep. revert skip cur.
  induction s as [|c s IH]; intros skip cur Hinv; simpl.
  - exists (reverse cur). split; [done|]. destruct skip.
    + by apply clean_done.
    + subst. by destruct sep.
  - destruct skip as [|k].
    + destruct (starts_with sep (c :: s)) eqn:Hm.
      * destruct (IH (Nat.pred (length sep)) []) as (piece & Hl & Hp).
        { destruct (Nat.pred _); [apply clean_nil | done]. }
        exists piece. split; [|done]. rewrite last_cons. by rewrite Hl.
      * apply IH. by apply clean_cons.
    + subst. apply IH. destruct k; [apply clean_nil | done].
Qed.

Lemma split_str_last (sep s : pystr) :
  sep <> [] -> contains sep (default [] (last (split_str sep s))) = false.
Proof.
  intros Hsep. destruct (split_go_last sep s 0 [] Hsep (clean_nil _ _)) as (piece & Hl & Hp).
  unfold split_str. by rewrite Hl.
Qed.

(** ** The feedback kept from the model *)

Lemma contains_false_strip (sep s : pystr) :
  contains sep s = false -> contains sep (strip s) = false.
Proof.
  intros H. destruct (contains sep (strip s)) eqn:Hs; [|done].
  apply contains_strip in Hs. congruence.
Qed.

Lemma extract_feedback_no_marker (generated_text : pystr) :
  contains (lit "REVIEW:") (extract_feedback generated_text) = false.
Proof.
  unfold extract_feedback.
  destruct (contains (lit "REVIEW:") generated_text) eqn:Hc.
  - pose proof (split_str_last (lit "REVIEW:") generated_text) as H.
    apply contains_false_strip in H; [|done].
    by destruct (str_truthy _).
  - by destruct (str_truthy _).
Qed.

(** X5. When the model answers, the feedback is what [extract_feedback]
    keeps of the answer: it is never empty and the marker "REVIEW:" never
    occurs in it. *)
Theorem model_feedback_is_clean (E : Env) (prompt : pystr) (s : State) (generated_text : pystr) :
  generate E (take 1000 prompt ++ [newline] ++ lit "REVIEW:") = Ok generated_text ->
  exists feedback,
    (call_huggingface_model E prompt s).1 = Ok feedback
    /\ feedback <> []
    /\ contains (lit "REVIEW:") feedback = false.
Proof.
  intros Hg. rewrite call_huggingface_model_returns, Hg. eexists. split; [done|]. split.
  - pose proof (extract_feedback_nonempty generated_text) as H. by destruct (extract_feedback _).
  - apply extract_feedback_no_marker.
Qed.

Lemma model_feedback_is_clean_witness :
  exists feedback,
    (call_huggingface_model noisy_tools (lit "x = 1") initial_state).1 = Ok feedback
    /\ feedback <> []
    /\ contains (lit "REVIEW:") feedback = false.
Proof.
  apply (model_feedback_is_clean noisy_tools (lit "x = 1") initial_state (lit "Looks fine.")).
  reflexivity.
Defined.

(** ** What the model is shown *)

Lemma prompt_shape (language : pystr) :
  exists header,
    length header = (171 + length language)%nat
    /\ forall code,
         create_code_review_prompt code language
         = header ++ code ++ [newline; newline] ++ lit "REVIEW:".
Proof.
  eexists (lit "Review this " ++ language ++ lit " code and provide:" ++ [newline]
           ++ lit "1. Brief summary of what the code does" ++ [newline]
           ++ lit "2. Readability suggestions " ++ [newline]
           ++ lit "3. Potential bugs" ++ [newline]
           ++ lit "4. Security concerns" ++ [newline]
           ++ lit "5. Refactoring suggestions" ++ [newline]
           ++ [newline] ++ lit "Code:" ++ [newline]).
  split.
  - rewrite !length_app. simpl. lia.
  - intros code. unfold create_code_review_prompt. by rewrite <- !app_assoc.
Qed.

Lemma take_middle (n : nat) (a1 a2 tail : pystr) :
  take n a1 = take n a2 -> take n (a1 ++ tail) = take n (a2 ++ tail).
Proof.
  intros H. rewrite !take_app, H. f_equal.
  destruct (decide (n <= length a1)%nat) as [Hle|Hgt].
  - assert (length (take n a2) = n) as Hl by (rewrite <- H, length_take; lia).
    rewrite length_take in Hl.
    replace (n - length a1)%nat with O by lia. by replace (n - length a2)%nat with O by lia.
  - rewrite take_ge in H by lia.
    assert (length (take n a2) < n)%nat as Hl by (rewrite <- H; lia).
    rewrite length_take in Hl. rewrite take_ge in H by lia. by subst.
Qed.

(** X4. The prompt is cut after 1000 characters, 171 of which, and the name
    of the language, come before the code: two programs that agree on their
    first [829 - length language] characters get the same AI record. *)
Theorem ai_sees_only_a_prefix (E : Env) (code1 code2 language : pystr) (s : State) :
  take (829 - length language) code1 = take (829 - length language) code2 ->
  (run_ai_analysis E code1 language s).1 = (run_ai_analysis E code2 language s).1.
Proof.
  intros H.
  destruct (ai_analysis_runs E code1 language s) as (fb1 & s1 & -> & H1 & _).
  destruct (ai_analysis_runs E code2 language s) as (fb2 & s2 & -> & H2 & _).
  rewrite call_huggingface_model_returns in H1, H2. simpl.
  destruct (prompt_shape language) as (header & Hlen & Hprompt).
  rewrite !Hprompt in H1, H2.
  assert (take 1000 (header ++ code1 ++ [newline; newline] ++ lit "REVIEW:")
          = take 1000 (header ++ code2 ++ [newline; newline] ++ lit "REVIEW:")) as Heq.
  { rewrite !(take_app header). f_equal. apply take_middle.
    destruct (decide (length language <= 829)%nat).
    - by replace (1000 - length header)%nat with (829 - length language)%nat by lia.
    - by replace (1000 - length header)%nat with O by lia. }
  rewrite Heq in H1. rewrite H1 in H2. by simplify_eq.
Qed.

Lemma ai_sees_only_a_prefix_witness :
  (run_ai_analysis noisy_tools (replicate 823 97 ++ lit "1") (lit "Python") initial_state).1
  = (run_ai_analysis noisy_tools (replicate 823 97 ++ lit "2") (lit "Python") initial_state).1.
Proof.
  apply (ai_sees_only_a_prefix noisy_tools (replicate 823 97 ++ lit "1")
           (replicate 823 97 ++ lit "2") (lit "Python") initial_state).
  vm_compute. reflexivity.
Defined.

(** ** The orchestrator as a whole *)

(** [run_static_analysis] never raises, whatever the language, and
    labels its result with the language it was given. *)
Lemma static_analysis_total (E : Env) (code language : pystr) (s : State) :
  exists sa s',
    run_static_analysis E code language s = (Ok sa, s')
    /\ sr_language sa = language
    /\ ((forall suffix files f, tmp_create E suffix files = Ok f -> files !! f = None) ->
        write_error E code = None ->
        (forall argv files, tool_writes E argv files = files) ->
        fs s' = fs s).
Proof.
  unfold run_static_analysis, pystr_eqb.
  destruct (bool_decide (language = lit "Python")).
  - unfold bind at 1, st_info, emit.
    set (s1 := {| fs := fs s; trace := trace s ++ _; temp_file := temp_file s |}).
    destruct (adapter_runs E Pylint code s1) as (p & s2 & Hp & _).
    destruct (adapter_runs E Bandit code s2) as (b & s3 & Hb & _).
    pose proof (adapter_cleans_up E Pylint code s1) as Hf1.
    pose proof (adapter_cleans_up E Bandit code s2) as Hf2.
    rewrite Hp in Hf1. rewrite Hb in Hf2. simpl in Hp, Hb, Hf1, Hf2.
    unfold bind, ret. rewrite Hp, Hb. eexists _, _. split_and!; [done..|].
    intros Hfresh Hw Htool. rewrite Hf2, Hf1 by eauto. done.
  - destruct (bool_decide (language = lit "JavaScript")).
    + unfold bind at 1, st_info, emit.
      set (s1 := {| fs := fs s; trace := trace s ++ _; temp_file := temp_file s |}).
      destruct (adapter_runs E ESLint code s1) as (e & s2 & He & _).
      pose proof (adapter_cleans_up E ESLint code s1) as Hf1.
      rewrite He in Hf1. simpl in He, Hf1.
      unfold bind, ret. rewrite He. eexists _, _. split_and!; [done..|].
      intros Hfresh Hw Htool. rewrite Hf1 by eauto. done.
    + unfold ret. by eexists _, _.
Qed.

(** The two ways [review_code] returns. *)
Lemma review_code_outcome (E : Env) (code language : pystr) (s : State) :
  exists r s',
    review_code E code language s = (Ok r, s')
    /\ match r with
       | ReviewError _ =>
           s' = s /\ (forallb isspace code = true \/ language ∉ supported_languages)
       | Review l sa ai ts =>
           l = language /\ sr_language sa = language /\ ts = timestamp_now E
           /\ forallb isspace code = false /\ language ∈ supported_languages
       end.
Proof.
  destruct (forallb isspace code) eqn:Hcode.
  - unfold review_code. rewrite strip_truthy, Hcode. simpl.
    eexists _, _. split; [reflexivity|]. simpl. auto.
  - destruct (decide (language ∈ supported_languages)) as [Hl|Hl].
    + destruct (review_code_accepts E code language s Hcode Hl)
        as (sa & s1 & ai & s' & Hr & Hsa & _).
      destruct (static_analysis_total E code language s) as (sa' & s1' & Hsa' & Hlang & _).
      rewrite Hsa in Hsa'. simplify_eq.
      eexists _, _. split; [exact Hr|]. simpl. auto.
    + unfold review_code. rewrite strip_truthy, Hcode. simpl.
      rewrite bool_decide_eq_false_2 by done. simpl.
      eexists _, _. split; [reflexivity|]. simpl. auto.
Qed.


(** X2. What a review does to the files is what the tools and the model
    runtime do to them.  When the environment hands out new names for
    temporary files, the code can be written, and neither the tools that are
    run nor the model runtime write a file, a whole review leaves the file
    system as it found it: every temporary file it made is gone. *)
Theorem review_code_preserves_files (E : Env) (code language : pystr) (s : State) :
  (forall suffix files f, tmp_create E suffix files = Ok f -> files !! f = None) ->
  write_error E code = None ->
  (forall argv files, tool_writes E argv files = files) ->
  (forall prompt files, model_writes E prompt files = files) ->
  fs (review_code E code language s).2 = fs s.
Proof.
  intros Hfresh Hw Htool Hmodel. unfold review_code.
  destruct (negb (str_truthy (strip code))); [done|].
  destruct (negb (bool_decide (language ∈ supported_languages))); [done|].
  destruct (static_analysis_total E code language s) as (sa & s1 & Hsa & _ & Hfs).
  destruct (ai_analysis_runs E code language s1) as (fb & s' & Hai & _ & _ & _ & Hfs').
  unfold bind, ret. rewrite Hsa, Hai. simpl. rewrite Hfs', Hmodel, Hfs by done. done.
Qed.

Lemma review_code_preserves_files_witness :
  fs (review_code noisy_tools (lit "import os") (lit "Python") initial_state).2
  = fs initial_state.
Proof.
  apply (review_code_preserves_files noisy_tools (lit "import os") (lit "Python") initial_state).
  - intros suffix files f. apply fresh_tmp_is_new.
  - reflexivity.
  - reflexivity.
  - reflexivity.
Defined.

(** X3. An adapter runs its tool at most once: exactly when the temporary
    file was created and written, and then on the path of that file.  When
    the file cannot be created or written nothing is spawned. *)
Theorem adapter_spawns_once (E : Env) (t : tool) (code : pystr) (s : State) :
  trace (run_adapter E t code s).2
  = trace s ++ AdapterCall t ::
      match tmp_create E (suffix_of t) (fs s) with
      | Ok f =>
          match write_error E code with
          | None => [Subprocess (argv_of t f)]
          | Some _ => []
          end
      | Raise _ => []
      end.
Proof.
  destruct t; adapter_cases E code; by rewrite <- ?app_assoc.
Qed.

(** ** When the report can be written *)

Lemma get_on_non_dict (v : json) (key : pystr) (dflt : json) :
  is_dict v = false -> exists e, py_get v key dflt = Raise e /\ kind e = AttributeError.
Proof. destruct v; try discriminate; intros _; by eexists. Qed.

(** A loop that renders one line per item either renders every item, all
    of them dictionaries, or stops with an [AttributeError] at the first
    item that is not one. *)
Lemma line_loop_outcome (render : json -> Res pystr) (items : list json) (acc : pystr) :
  (forall d, exists line, render (JDict d) = Ok line) ->
  (forall v, is_dict v = false -> exists e, render v = Raise e /\ kind e = AttributeError) ->
  match for_each (fun report_content item => l ← render item; Ok (report_content ++ l))
          acc items with
  | Ok _ => forallb is_dict items = true
  | Raise e => forallb is_dict items = false /\ kind e = AttributeError
  end.
Proof.
  intros Hd Hn. revert acc. induction items as [|v items IH]; intros acc; simpl; [done|].
  destruct (is_dict v) eqn:Hv.
  - destruct v; try discriminate. destruct (Hd d) as [line ->]. simpl. apply IH.
  - destruct (Hn v Hv) as (e & -> & He). by simpl.
Qed.

Lemma pylint_line_non_dict (E : Env) (v : json) :
  is_dict v = false -> exists e, pylint_line E v = Raise e /\ kind e = AttributeError.
Proof.
  intros H. unfold pylint_line.
  destruct (get_on_non_dict v (lit "line") (JStr (lit "N/A")) H) as (e & -> & He).
  by exists e.
Qed.

Lemma bandit_line_non_dict (E : Env) (v : json) :
  is_dict v = false -> exists e, bandit_line E v = Raise e /\ kind e = AttributeError.
Proof.
  intros H. unfold bandit_line.
  destruct (get_on_non_dict v (lit "line_number") (JStr (lit "N/A")) H) as (e & -> & He).
  by exists e.
Qed.

(** The two loops of the report share one shape: a value that is true
    is walked, a value that is false gives the "none found" line. *)
Lemma walk_outcome (render : json -> Res pystr) (v : json) (acc otherwise : pystr) :
  (forall d, exists line, render (JDict d) = Ok line) ->
  (forall v, is_dict v = false -> exists e, render v = Raise e /\ kind e = AttributeError) ->
  match (if py_truthy v
         then issues ← py_iter v;
              for_each (fun report_content item => l ← render item; Ok (report_content ++ l))
                       acc issues
         else Ok (acc ++ otherwise)) with
  | Ok _ => renders v = true
  | Raise e => renders v = false /\ (kind e = AttributeError \/ kind e = TypeError)
  end.
Proof.
  intros Hd Hn. unfold renders.
  destruct (py_truthy v) eqn:Ht; simpl; [|done].
  destruct v as [|b|z|f|str|l|d]; simpl in *; try discriminate; try (split; [done|by right]).
  - destruct str as [|c str]; [discriminate|]. simpl.
    destruct (Hn (JStr [c]) eq_refl) as (e & -> & He). simpl. auto.
  - pose proof (line_loop_outcome render l acc Hd Hn) as H.
    destruct (for_each _ acc l); [done|]. destruct H as [H1 H2]. auto.
  - destruct d as [|[k x] d]; [discriminate|]. simpl.
    destruct (Hn (JStr k) eq_refl) as (e & -> & He). simpl. auto.
Qed.

Lemma pylint_section_outcome (E : Env) (acc : pystr) (p : option AnalyzerResult) :
  match pylint_section E acc p with
  | Ok _ => pylint_renders p = true
  | Raise e => pylint_renders p = false /\ (kind e = AttributeError \/ kind e = TypeError)
  end.
Proof.
  unfold pylint_section, pylint_renders. destruct p as [d|]; [|done].
  destruct (ar_success d); simpl; [|done].
  apply (walk_outcome (pylint_line E)).
  - intros x. eexists. apply pylint_line_of_dict.
  - apply pylint_line_non_dict.
Qed.

Lemma bandit_section_outcome (E : Env) (acc : pystr) (b : option AnalyzerResult) :
  match bandit_section E acc b with
  | Ok _ => bandit_renders b = true
  | Raise e => bandit_renders b = false /\ (kind e = AttributeError \/ kind e = TypeError)
  end.
Proof.
  unfold bandit_section, bandit_renders. destruct b as [d|]; [|done].
  destruct (ar_success d); simpl; [|done].
  destruct (ar_results d) as [| | | | | |kv]; simpl; try (split; [done|by left]).
  apply (walk_outcome (bandit_line E)).
  - intros x. eexists. apply bandit_line_of_dict.
  - apply bandit_line_non_dict.
Qed.

(** The two ways [download_report] ends. *)
Lemma download_report_outcome (E : Env) (r : ReviewResult) :
  match download_report E r with
  | Ok _ => report_renders r = true
  | Raise e => report_renders r = false /\ (kind e = AttributeError \/ kind e = TypeError)
  end.
Proof.
  unfold download_report, report_renders.
  pose proof (pylint_section_outcome E (report_header E (get_language r)) (get_static Pylint r))
    as Hp.
  destruct (pylint_section E _ _) as [content|e]; simpl.
  - rewrite Hp. simpl.
    pose proof (bandit_section_outcome E content (get_static Bandit r)) as Hb.
    by destruct (bandit_section E _ _).
  - destruct Hp as [-> He]. by simpl.
Qed.

(** X6. [download_report] writes the report exactly when the diagnostics
    of every successful Python analyzer are dictionaries (and the bandit
    payload is one); otherwise it raises an [AttributeError] or a
    [TypeError] and there is no report. *)
Theorem report_written_iff_renders (E : Env) (r : ReviewResult) :
  match download_report E r with
  | Ok _ => report_renders r = true
  | Raise e => report_renders r = false /\ (kind e = AttributeError \/ kind e = TypeError)
  end.
Proof. apply download_report_outcome. Qed.

(** X7. A value that parses but is not a JSON object, such as the [[]] a
    linter prints when it has nothing to say, becomes a pylint "diagnostic":
    the combined view counts it as an issue, the pylint view stops with an
    [AttributeError] after its subheader, and the report cannot be
    written. *)
Theorem stray_value_breaks_report (E : Env) (language : pystr) (v : json) (out err : pystr) :
  pylint_parse E out = Ok [v] ->
  is_dict v = false ->
  let p := Some (analyzer_ok (JList [v]) out err) in
  issue_count {| sr_language := language; pylint := p; bandit := None; eslint := None |}
  = Ok 1%nat
  /\ (exists x,
        display_pylint_results E p = ([Subheader (lit "Pylint Issues by Type")], Raise x)
        /\ kind x = AttributeError)
  /\ forall b e ai ts,
       exists x,
         download_report E
           (Review language
              {| sr_language := language; pylint := p; bandit := b; eslint := e |} ai ts)
         = Raise x
         /\ kind x = AttributeError.
Proof.
  intros Hparse Hv p. subst p. split_and!.
  - reflexivity.
  - unfold display_pylint_results. cbn [analyzer_ok ar_success ar_results negb py_truthy py_iter].
    unfold ui_bind, draw, ui_res. cbn [for_each]. unfold group_issue.
    destruct (get_on_non_dict v (lit "type") (JStr (lit "Unknown")) Hv) as (x & -> & Hx).
    by exists x.
  - intros b e ai ts. unfold download_report. simpl.
    destruct (pylint_line_non_dict E v Hv) as (x & -> & Hx). simpl. by exists x.
Qed.

Lemma stray_value_breaks_report_witness :
  let p := Some (analyzer_ok (JList [JList [JInt 1]]) (lit "[1]") (lit "")) in
  issue_count {| sr_language := lit "Python"; pylint := p; bandit := None; eslint := None |}
  = Ok 1%nat
  /\ (exists x,
        display_pylint_results noisy_tools p
        = ([Subheader (lit "Pylint Issues by Type")], Raise x)
        /\ kind x = AttributeError)
  /\ forall b e ai ts,
       exists x,
         download_report noisy_tools
           (Review (lit "Python")
              {| sr_language := lit "Python"; pylint := p; bandit := b; eslint := e |} ai ts)
         = Raise x
         /\ kind x = AttributeError.
Proof.
  apply (stray_value_breaks_report noisy_tools (lit "Python") (JList [JInt 1])
           (lit "[1]") (lit "")); reflexivity.
Defined.

(** X8. The report says nothing about an analyzer that failed or did not
    run, and nothing about eslint: it is the report of the result with those
    entries removed. *)
Theorem report_skips_failures (E : Env) (language : pystr) (sa : StaticResults)
    (ai : AICommentary) (ts : pystr) :
  download_report E (Review language sa ai ts)
  = download_report E
      (Review language
         {| sr_language := sr_language sa; pylint := drop_failed (pylint sa);
            bandit := drop_failed (bandit sa); eslint := None |} ai ts).
Proof.
  unfold download_report, pylint_section, bandit_section. simpl.
  destruct (pylint sa) as [p|], (bandit sa) as [b|]; simpl;
    try destruct (ar_success p) eqn:Hp; try destruct (ar_success b) eqn:Hb; simpl;
    rewrite ?Hp, ?Hb; reflexivity.
Qed.

(** ** One run of the script *)

Section MainFacts.
Context (E : Env) (file_stamp_now : pystr).

Lemma app_bind_ok {A B} (m : App A) (k : A -> App B) ss st a ss1 st1 page1 :
  m ss st = (Ok a, ss1, st1, page1) ->
  app_bind m k ss st
  = match k a ss1 st1 with (r, ss2, st2, page2) => (r, ss2, st2, page1 ++ page2) end.
Proof. intros H. unfold app_bind. by rewrite H. Qed.

Lemma app_bind_raise {A B} (m : App A) (k : A -> App B) ss st e ss1 st1 page1 :
  m ss st = (Raise e, ss1, st1, page1) ->
  app_bind m k ss st = (Raise e, ss1, st1, page1).
Proof. intros H. unfold app_bind. by rewrite H. Qed.

Lemma init_session_spec ss st :
  init_session ss st
  = (Ok tt,
     {| review_results := Some (default None (review_results ss));
        current_language := Some (default (lit "Python") (current_language ss)) |},
     st, []).
Proof.
  unfold init_session, app_bind, get_session, set_review_results, set_current_language, app_ret.
  destruct ss as [[rr|] [cl|]]; reflexivity.
Qed.

Lemma sidebar_spec input ss st :
  exists page,
    sidebar input ss st
    = (Ok (selected_language input),
       {| review_results := review_results ss;
          current_language := Some (selected_language input) |},
       st, page).
Proof.
  unfold sidebar, app_within, app_bind, show, app_ui, draw, set_current_language, app_ret.
  simpl. destruct (pystr_eqb _ _); [|destruct (pystr_eqb _ _)]; simpl; by eexists.
Qed.

Lemma instructions_column_spec ss st :
  exists page, instructions_column ss st = (Ok tt, ss, st, page).
Proof. by eexists. Qed.

(** A click with blank code: an error box, no review, stored results
    cleared. *)
Lemma run_review_blank code language ss st :
  forallb isspace code = true ->
  exists page,
    run_review E code language ss st
    = (Ok tt, {| review_results := Some None; current_language := current_language ss |},
       st, page).
Proof.
  intros Hc. unfold run_review. rewrite strip_truthy, Hc. simpl. by eexists.
Qed.

(** A click with code: the review runs and its result is stored, with
    the language; the handler of the [try] is never taken. *)
Lemma run_review_runs code language ss st :
  forallb isspace code = false ->
  exists r st' page,
    review_code E code language st = (Ok r, st')
    /\ run_review E code language ss st
       = (Ok tt, {| review_results := Some (Some r); current_language := Some language |},
          st', page).
Proof.
  intros Hc. unfold run_review. rewrite strip_truthy, Hc. simpl.
  destruct (review_code_outcome E code language st) as (r & st' & Hr & _).
  exists r, st'. eexists. split; [done|].
  unfold app_within, app_try, app_bind, app_machine. rewrite Hr. simpl. reflexivity.
Qed.

Lemma input_column_idle input language ss st :
  run_clicked input = false ->
  exists page, input_column E input language ss st = (Ok tt, ss, st, page).
Proof.
  intros Hc. unfold input_column, app_within, app_bind, show, app_ui, draw, app_ret.
  rewrite Hc. simpl. by eexists.
Qed.

Lemma input_column_blank input language ss st :
  run_clicked input = true ->
  forallb isspace (code_input input) = true ->
  exists page,
    input_column E input language ss st
    = (Ok tt, {| review_results := Some None; current_language := current_language ss |},
       st, page).
Proof.
  intros Hc Hb. destruct (run_review_blank (code_input input) language ss st Hb) as [page Hr].
  unfold input_column, app_within, app_bind, show, app_ui, draw.
  rewrite Hc. simpl. rewrite Hr. by eexists.
Qed.

Lemma input_column_runs input language ss st :
  run_clicked input = true ->
  forallb isspace (code_input input) = false ->
  exists r st' page,
    review_code E (code_input input) language st = (Ok r, st')
    /\ input_column E input language ss st
       = (Ok tt, {| review_results := Some (Some r); current_language := Some language |},
          st', page).
Proof.
  intros Hc Hb.
  destruct (run_review_runs (code_input input) language ss st Hb) as (r & st' & page & Hr & Hrun).
  exists r, st'. eexists. split; [done|].
  unfold input_column, app_within, app_bind, show, app_ui, draw.
  rewrite Hc. simpl. rewrite Hrun. reflexivity.
Qed.

Lemma readonly_ui {A} (u : UI A) : readonly (app_ui u).
Proof. intros ss st. by eexists _, _. Qed.

Lemma readonly_ret {A} (a : A) : readonly (app_ret a).
Proof. intros ss st. by eexists _, _. Qed.

Lemma readonly_bind {A B} (m : App A) (k : A -> App B) :
  readonly m -> (forall a, readonly (k a)) -> readonly (app_bind m k).
Proof.
  intros Hm Hk ss st. destruct (Hm ss st) as (r & page & H).
  unfold app_bind. rewrite H. destruct r as [a|e]; [|by eexists _, _].
  destruct (Hk a ss st) as (r' & page' & ->). by eexists _, _.
Qed.

Lemma readonly_within {A} block (m : App A) : readonly m -> readonly (app_within block m).
Proof.
  intros Hm ss st. destruct (Hm ss st) as (r & page & H).
  unfold app_within. rewrite H. by eexists _, _.
Qed.

Lemma readonly_read_results : readonly read_review_results.
Proof. intros ss st. unfold read_review_results. destruct (review_results ss); by eexists _, _. Qed.

Lemma readonly_read_language : readonly read_current_language.
Proof.
  intros ss st. unfold read_current_language. destruct (current_language ss); by eexists _, _.
Qed.

Lemma readonly_show w : readonly (show w).
Proof. apply readonly_ui. Qed.

Ltac readonly_steps :=
  repeat first
    [ apply readonly_show | apply readonly_ui | apply readonly_ret
    | apply readonly_read_results | apply readonly_read_language
    | apply readonly_within
    | apply readonly_bind; [|intros ?]
    | match goal with |- readonly (if ?b then _ else _) => destruct b end
    | match goal with |- readonly (match ?x with _ => _ end) => destruct x end ].

(** Showing the stored results changes neither the session nor the
    machine state. *)
Lemma results_section_readonly : readonly (results_section E file_stamp_now).
Proof. unfold results_section, combined_suggestions. readonly_steps. Qed.

Lemma show_spec w ss st : show w ss st = (Ok tt, ss, st, [w]).
Proof. reflexivity. Qed.

Lemma results_section_none ss st :
  review_results ss = Some None ->
  results_section E file_stamp_now ss st = (Ok tt, ss, st, []).
Proof.
  intros H. unfold results_section, app_bind, read_review_results. by rewrite H.
Qed.

(** Unfold the outermost sequencing of the script and use what is known
    of its first part. *)
Ltac app_step H := unfold app_bind at 1; rewrite H; cbn beta iota.
Ltac app_show := app_step show_spec.

(** The part of [main] before the stored results are shown: the
    session and the machine state it leaves, for each kind of run. *)
Lemma main_decomposes input ss st :
  exists ss1 st1,
    (forall r page, results_section E file_stamp_now ss1 st1 = (r, ss1, st1, page) ->
       exists page', main E file_stamp_now input ss st = (r, ss1, st1, page'))
    /\ current_language ss1 = Some (selected_language input)
    /\ (run_clicked input = false ->
        review_results ss1 = Some (default None (review_results ss)) /\ st1 = st)
    /\ (run_clicked input = true -> forallb isspace (code_input input) = true ->
        review_results ss1 = Some None /\ st1 = st)
    /\ (run_clicked input = true -> forallb isspace (code_input input) = false ->
        exists r,
          review_code E (code_input input) (selected_language input) st = (Ok r, st1)
          /\ review_results ss1 = Some (Some r)).
Proof.
  set (ss0 := {| review_results := Some (default None (review_results ss));
                 current_language := Some (selected_language input) |}).
  destruct (sidebar_spec input
              {| review_results := Some (default None (review_results ss));
                 current_language := Some (default (lit "Python") (current_language ss)) |} st)
    as [pside Hside].
  assert (exists ss1 st1 pcol,
            input_column E input (selected_language input) ss0 st = (Ok tt, ss1, st1, pcol)
            /\ current_language ss1 = Some (selected_language input)
            /\ (run_clicked input = false ->
                review_results ss1 = Some (default None (review_results ss)) /\ st1 = st)
            /\ (run_clicked input = true -> forallb isspace (code_input input) = true ->
                review_results ss1 = Some None /\ st1 = st)
            /\ (run_clicked input = true -> forallb isspace (code_input input) = false ->
                exists r,
                  review_code E (code_input input) (selected_language input) st = (Ok r, st1)
                  /\ review_results ss1 = Some (Some r)))
    as (ss1 & st1 & pcol & Hcol & Hlang & Hidle & Hblank & Hrun).
  { destruct (run_clicked input) eqn:Hc.
    - destruct (forallb isspace (code_input input)) eqn:Hb.
      + destruct (input_column_blank input (selected_language input) ss0 st Hc Hb) as [p Hp].
        eexists _, _, _. split; [exact Hp|]. split_and!; try done.
      + destruct (input_column_runs input (selected_language input) ss0 st Hc Hb)
          as (r & st' & p & Hr & Hp).
        eexists _, _, _. split; [exact Hp|]. split_and!; try done.
        intros _ _. by exists r.
    - destruct (input_column_idle input (selected_language input) ss0 st Hc) as [p Hp].
      eexists _, _, _. split; [exact Hp|]. split_and!; try done. }
  exists ss1, st1. split_and!; try done.
  intros r page Hres. unfold main. subst ss0.
  cbn [review_results current_language] in Hside.
  app_show. app_show. app_step init_session_spec. app_step Hside. app_show.
  app_step Hcol.
  destruct (instructions_column_spec ss1 st1) as [pins Hins]. app_step Hins.
  unfold app_bind at 1. rewrite Hres. destruct r as [[]|e]; cbn beta iota.
  - app_show. rewrite show_spec. by eexists.
  - by eexists.
Qed.

(** X13. A click on the button with blank code runs no review: the machine
    state is untouched, whatever results the session held are cleared, and
    the run ends normally. *)
Theorem blank_click_clears_results (input : Inputs) (ss : Session) (st : State) :
  run_clicked input = true ->
  forallb isspace (code_input input) = true ->
  exists ss' page,
    main E file_stamp_now input ss st = (Ok tt, ss', st, page)
    /\ review_results ss' = Some None
    /\ current_language ss' = Some (selected_language input).
Proof.
  intros Hc Hb.
  destruct (main_decomposes input ss st) as (ss1 & st1 & Hmain & Hlang & _ & Hblank & _).
  destruct (Hblank Hc Hb) as [Hrr ->].
  destruct (Hmain (Ok tt) [] (results_section_none ss1 st Hrr)) as [page Hp].
  by exists ss1, page.
Qed.

(** X14. A click on the button with code runs [review_code] once, on the
    language of the select box, and stores what it returns in the session,
    whether or not the results can then be shown. *)
Theorem click_stores_review (input : Inputs) (ss : Session) (st : State) :
  run_clicked input = true ->
  forallb isspace (code_input input) = false ->
  exists r st' outcome ss' page,
    review_code E (code_input input) (selected_language input) st = (Ok r, st')
    /\ main E file_stamp_now input ss st = (outcome, ss', st', page)
    /\ review_results ss' = Some (Some r)
    /\ current_language ss' = Some (selected_language input).
Proof.
  intros Hc Hb.
  destruct (main_decomposes input ss st) as (ss1 & st1 & Hmain & Hlang & _ & _ & Hrun).
  destruct (Hrun Hc Hb) as (r & Hr & Hrr).
  destruct (results_section_readonly ss1 st1) as (outcome & page & Hres).
  destruct (Hmain _ _ Hres) as [page' Hp].
  by exists r, st1, outcome, ss1, page'.
Qed.

(** X15. The session never holds the error dictionary of [review_code]: a
    run of the script started from a session that holds none, with a
    language of the select box, ends in such a session.  So the branch of
    [main] that shows [results['error']] is never taken. *)
Theorem main_keeps_session_ok (input : Inputs) (ss : Session) (st : State) :
  selected_language input ∈ language_options ->
  session_ok ss ->
  session_ok (main E file_stamp_now input ss st).1.1.2.
Proof.
  intros Hsel Hok.
  destruct (main_decomposes input ss st) as (ss1 & st1 & Hmain & Hlang & Hidle & Hblank & Hrun).
  destruct (results_section_readonly ss1 st1) as (outcome & page & Hres).
  destruct (Hmain _ _ Hres) as [page' ->]. simpl.
  unfold session_ok in *.
  destruct (run_clicked input) eqn:Hc.
  - destruct (forallb isspace (code_input input)) eqn:Hb.
    + destruct (Hblank eq_refl eq_refl) as [-> _]. done.
    + destruct (Hrun eq_refl eq_refl) as (r & Hr & ->).
      destruct (review_code_outcome E (code_input input) (selected_language input) st)
        as (r' & st' & Hr' & Hcase).
      rewrite Hr in Hr'. simplify_eq. destruct r' as [err|l sa ai ts].
      * destruct Hcase as [_ [?|Hn]]; [congruence|]. by apply Hn.
      * by destruct Hcase as (-> & _).
  - destruct (Hidle eq_refl) as [-> _]. by destruct (review_results ss) as [[[]|]|].
Qed.

(** What [main] stores after a click with code. *)
Lemma click_stores_review_aux (language code : pystr) (ss : Session) (st : State) :
  forallb isspace code = false ->
  exists r st' outcome ss' page,
    review_code E code language st = (Ok r, st')
    /\ main E file_stamp_now
         {| selected_language := language; code_input := code; run_clicked := true |} ss st
       = (outcome, ss', st', page)
    /\ review_results ss' = Some (Some r)
    /\ current_language ss' = Some language.
Proof.
  intros Hb.
  set (input := {| selected_language := language; code_input := code; run_clicked := true |}).
  destruct (main_decomposes input ss st) as (ss1 & st1 & Hmain & Hlang & _ & _ & Hrun).
  destruct (Hrun eq_refl Hb) as (r & Hr & Hrr).
  destruct (results_section_readonly ss1 st1) as (outcome & page & Hres).
  destruct (Hmain _ _ Hres) as [page' Hp].
  by exists r, st1, outcome, ss1, page'.
Qed.

(** The result of an accepted review has no entry for the analyzers of
    the other language. *)
Lemma review_accepted_shape (language code : pystr) (st : State) (r : ReviewResult)
    (st' : State) :
  language ∈ language_options ->
  forallb isspace code = false ->
  review_code E code language st = (Ok r, st') ->
  exists sa ai ts,
    r = Review language sa ai ts
    /\ ((language = lit "Python" /\ eslint sa = None)
        \/ (language = lit "JavaScript" /\ pylint sa = None)).
Proof.
  intros Hl Hcode Hr.
  destruct (review_code_accepts E code language st Hcode Hl)
    as (sa & s1 & ai & s' & Hr' & Hsa & _).
  rewrite Hr in Hr'. simplify_eq.
  destruct (static_analysis_runs E code language st Hl) as (sa' & s1' & Hsa' & _ & Hpy & Hjs).
  rewrite Hsa in Hsa'. simplify_eq.
  exists sa', ai, (timestamp_now E). split; [done|].
  destruct (supported_cases language Hl) as [->| ->].
  - left. split; [done|]. by destruct (Hpy eq_refl) as (_ & _ & _ & ?).
  - right. split; [done|]. by destruct (Hjs eq_refl) as (_ & ? & _).
Qed.

Lemma display_ai_results_draws (ai : option AICommentary) :
  exists page, display_ai_results ai = (page, Ok tt).
Proof.
  unfold display_ai_results. destruct ai as [a|]; [|by eexists].
  destruct (ai_success a); by eexists.
Qed.

(** Shown under a language whose analyzer entry is null, the stored
    results stop the script: the display function calls [.get] on [None]. *)
Lemma results_section_mismatch ss st l sa ai ts lang :
  review_results ss = Some (Some (Review l sa ai ts)) ->
  current_language ss = Some lang ->
  (lang = lit "Python" /\ pylint sa = None) \/ (lang = lit "JavaScript" /\ eslint sa = None) ->
  exists e page,
    results_section E file_stamp_now ss st = (Raise e, ss, st, page)
    /\ kind e = AttributeError.
Proof.
  intros Hrr Hcl Hcase. unfold results_section.
  unfold app_bind at 1, read_review_results. rewrite Hrr. cbn beta iota.
  unfold app_bind at 1, read_current_language. rewrite Hcl. cbn beta iota.
  app_show. app_show.
  destruct (display_ai_results_draws (get_ai (Review l sa ai ts))) as [pai Hai].
  unfold app_bind at 1, app_within, app_ui. rewrite Hai. cbn beta iota. simpl fst. simpl snd.
  unfold app_bind at 1.
  destruct Hcase as [[-> Hnone]|[-> Hnone]].
  - unfold pystr_eqb. rewrite bool_decide_eq_true_2 by done.
    unfold app_bind at 1, app_within, app_ui. simpl get_static. rewrite Hnone.
    simpl. by eexists _, _.
  - unfold pystr_eqb. rewrite bool_decide_eq_false_2 by apply javascript_is_not_python.
    rewrite bool_decide_eq_true_2 by done.
    unfold app_within, app_ui. simpl get_static. rewrite Hnone.
    simpl. by eexists _, _.
Qed.

(** X16. After a review in one language, moving the select box to the other
    language stops the next run of the script with an [AttributeError]: the
    stored results have no entry for the analyzers of the new language. *)
Theorem switching_language_crashes (language code code' : pystr) (ss : Session) (st : State) :
  language ∈ language_options ->
  forallb isspace code = false ->
  let first_run :=
    main E file_stamp_now
      {| selected_language := language; code_input := code; run_clicked := true |} ss st in
  let second_run :=
    main E file_stamp_now
      {| selected_language := other_language language; code_input := code';
         run_clicked := false |}
      first_run.1.1.2 first_run.1.2 in
  exists e, second_run.1.1.1 = Raise e /\ kind e = AttributeError.
Proof.
  intros Hl Hcode first_run second_run.
  destruct (click_stores_review_aux language code ss st Hcode)
    as (r & st1 & outcome & ss1 & page & Hr & Hmain & Hrr & Hcl).
  subst second_run first_run. rewrite Hmain. simpl.
  set (input2 := {| selected_language := other_language language; code_input := code';
                    run_clicked := false |}).
  destruct (main_decomposes input2 ss1 st1) as (ss2 & st2 & Hmain2 & Hlang2 & Hidle & _).
  destruct (Hidle eq_refl) as [Hrr2 ->]. rewrite Hrr in Hrr2. simpl in Hrr2, Hlang2.
  destruct (review_accepted_shape language code st r st1 Hl Hcode Hr)
    as (sa & ai & ts & -> & Hshape).
  destruct (results_section_mismatch ss2 st1 _ _ _ _ (other_language language) Hrr2 Hlang2)
    as (e & page2 & Hres & He).
  { unfold other_language, pystr_eqb. destruct Hshape as [[-> Hn]|[-> Hn]].
    - rewrite bool_decide_eq_true_2 by done. by right.
    - rewrite bool_decide_eq_false_2 by apply javascript_is_not_python. by left. }
  destruct (Hmain2 _ _ Hres) as [page' ->]. by exists e.
Qed.

End MainFacts.

Lemma blank_click_clears_results_witness :
  exists ss' page,
    main noisy_tools (lit "20240101_120000")
      {| selected_language := lit "Python"; code_input := lit "   "; run_clicked := true |}
      empty_session initial_state
    = (Ok tt, ss', initial_state, page)
    /\ review_results ss' = Some None
    /\ current_language ss' = Some (lit "Python").
Proof.
  apply (blank_click_clears_results noisy_tools (lit "20240101_120000")
           {| selected_language := lit "Python"; code_input := lit "   ";
              run_clicked := true |} empty_session initial_state); reflexivity.
Defined.

Lemma click_stores_review_witness :
  exists r st' outcome ss' page,
    review_code noisy_tools (lit "var x = 1;") (lit "JavaScript") initial_state = (Ok r, st')
    /\ main noisy_tools (lit "20240101_120000")
         {| selected_language := lit "JavaScript"; code_input := lit "var x = 1;";
            run_clicked := true |} empty_session initial_state
       = (outcome, ss', st', page)
    /\ review_results ss' = Some (Some r)
    /\ current_language ss' = Some (lit "JavaScript").
Proof.
  apply (click_stores_review noisy_tools (lit "20240101_120000")
           {| selected_language := lit "JavaScript"; code_input := lit "var x = 1;";
              run_clicked := true |} empty_session initial_state); reflexivity.
Defined.

Lemma main_keeps_session_ok_witness :
  session_ok
    (main noisy_tools (lit "20240101_120000")
       {| selected_language := lit "JavaScript"; code_input := lit "var x = 1;";
          run_clicked := true |} empty_session initial_state).1.1.2.
Proof.
  apply (main_keeps_session_ok noisy_tools (lit "20240101_120000")
           {| selected_language := lit "JavaScript"; code_input := lit "var x = 1;";
              run_clicked := true |} empty_session initial_state).
  - exact (proj2 both_languages_supported).
  - exact I.
Defined.

Lemma switching_language_crashes_witness :
  exists e,
    (main nothing_installed (lit "20240101_120000")
       {| selected_language := other_language (lit "Python"); code_input := lit "x = 1";
          run_clicked := false |}
       (main nothing_installed (lit "20240101_120000")
          {| selected_language := lit "Python"; code_input := lit "x = 1";
             run_clicked := true |} empty_session initial_state).1.1.2
       (main nothing_installed (lit "20240101_120000")
          {| selected_language := lit "Python"; code_input := lit "x = 1";
             run_clicked := true |} empty_session initial_state).1.2).1.1.1 = Raise e
    /\ kind e = AttributeError.
Proof.
  apply (switching_language_crashes nothing_installed (lit "20240101_120000")
           (lit "Python") (lit "x = 1") (lit "x = 1") empty_session initial_state).
  - exact (proj1 both_languages_supported).
  - reflexivity.
Defined.

(** The second run, computed: the page stops inside the ESLint expander. *)
Example switching_language_outcome :
  (main nothing_installed (lit "20240101_120000")
     {| selected_language := lit "JavaScript"; code_input := lit "x = 1"; run_clicked := false |}
     (main nothing_installed (lit "20240101_120000")
        {| selected_language := lit "Python"; code_input := lit "x = 1";
           run_clicked := true |} empty_session initial_state).1.1.2
     initial_state).1.1.1
  = Raise (Exn AttributeError (lit "'NoneType' object has no attribute 'get'")).
Proof. vm_compute. reflexivity. Qed.

(** What a click draws while the review runs: the two messages of
    [reviewer.py], then the box that tells the review is done. *)
Example click_shows_progress :
  (run_review noisy_tools (lit "x = 1") (lit "Python") empty_session initial_state).2
  = [Spinner ([128260] ++ lit " Analyzing your code... This may take 30-60 seconds.")
       [InfoBox ([128269] ++ lit " Running Pylint + Bandit...");
        InfoBox ([129302] ++ lit " Running CodeT5 AI analysis...");
        SuccessBox ([9989] ++ lit " Code review completed!")]].
Proof. vm_compute. reflexivity. Qed.

(** ** What is shown against what is counted *)

Lemma page_containers_app (p q : list widget) :
  page_containers (p ++ q) = (page_containers p + page_containers q)%nat.
Proof.
  unfold page_containers. induction p as [|w p IH]; simpl; [done|]. rewrite IH. lia.
Qed.

(** A loop whose every round draws and returns draws the lot. *)
Lemma ui_for_counts {A : Type} (body : A -> UI unit) (count : A -> nat) (l : list A) :
  (forall x, x ∈ l ->
     exists page, body x = (page, Ok tt) /\ page_containers page = count x) ->
  exists page,
    ui_for body l = (page, Ok tt)
    /\ page_containers page = foldr (fun x n => (count x + n)%nat) O l.
Proof.
  induction l as [|x l IH]; intros H; simpl; [by exists []|].
  destruct (H x) as (p & Hp & Hc); [by left|].
  destruct IH as (q & Hq & Hcq); [intros y Hy; apply H; by right|].
  exists (p ++ q). unfold ui_bind. rewrite Hp, Hq. split; [done|].
  rewrite page_containers_app. lia.
Qed.

Lemma ui_for_containers {A : Type} (body : A -> UI unit) (l : list A) :
  (forall x, x ∈ l -> exists ws, body x = ([Container ws], Ok tt)) ->
  exists page, ui_for body l = (page, Ok tt) /\ page_containers page = length l.
Proof.
  intros H. destruct (ui_for_counts body (fun _ => 1%nat) l) as (page & Hp & Hc).
  - intros x Hx. destruct (H x Hx) as [ws ->]. by eexists.
  - exists page. split; [done|]. rewrite Hc. clear.
    induction l as [|a l IH]; simpl; [done | f_equal; exact IH].
Qed.

Lemma group_add_total (key item : json) (groups : list (json * list json)) :
  group_total (group_add key item groups) = S (group_total groups).
Proof.
  unfold group_total. induction groups as [|[k items] groups IH]; simpl; [done|].
  destruct (same_key k key); simpl.
  - rewrite length_app. simpl. lia.
  - rewrite IH. lia.
Qed.

Lemma group_add_dicts (key item : json) (groups : list (json * list json)) :
  is_dict item = true ->
  Forall (fun g => forallb is_dict g.2 = true) groups ->
  Forall (fun g => forallb is_dict g.2 = true) (group_add key item groups).
Proof.
  intros Hi. induction 1 as [|[k items] groups Hg Hgs IH]; simpl.
  - constructor; [|done]. simpl. by rewrite Hi.
  - destruct (same_key k key); constructor; simpl in *; try done.
    rewrite forallb_app, Hg. simpl. by rewrite Hi.
Qed.

Lemma group_issue_typed (groups : list (json * list json)) (d : list (pystr * json)) :
  typed_issue (JDict d) = true ->
  group_issue groups (JDict d)
  = Ok (group_add (default (JStr (lit "Unknown")) (dict_lookup (lit "type") d)) (JDict d) groups).
Proof. unfold typed_issue, group_issue. cbn [py_get mbind Res_bind]. by intros ->. Qed.

(** The grouping loop of [display_pylint_results] puts every issue in
    one group. *)
Lemma grouping_keeps_all (issues : list json) (groups : list (json * list json)) :
  forallb typed_issue issues = true ->
  Forall (fun g => forallb is_dict g.2 = true) groups ->
  exists groups',
    for_each group_issue groups issues = Ok groups'
    /\ group_total groups' = (group_total groups + length issues)%nat
    /\ Forall (fun g => forallb is_dict g.2 = true) groups'.
Proof.
  revert groups. induction issues as [|v issues IH]; intros groups Hi Hg.
  - exists groups. split_and!; [done| simpl; lia |done].
  - cbn [forallb] in Hi. apply andb_prop in Hi as [Hv Hi].
    destruct v as [| | | | | |d]; try discriminate.
    cbn [for_each]. rewrite (group_issue_typed _ _ Hv). cbn [mbind Res_bind].
    fold (for_each group_issue).
    destruct (IH (group_add (default (JStr (lit "Unknown")) (dict_lookup (lit "type") d))
                    (JDict d) groups) Hi) as (groups' & Hf & Ht & Hd).
    { by apply group_add_dicts. }
    exists groups'. split_and!; [done| |done].
    rewrite Ht, group_add_total. cbn [length]. lia.
Qed.

Section DisplayFacts.
Context (E : Env).

Lemma forallb_elem {A} (f : A -> bool) (l : list A) (x : A) :
  forallb f l = true -> x ∈ l -> f x = true.
Proof.
  intros H Hx. rewrite forallb_forall in H. apply H. by apply list_elem_of_In.
Qed.

Lemma pylint_issue_box_draws (d : list (pystr * json)) :
  exists ws, pylint_issue_box E (JDict d) = ([Container ws], Ok tt).
Proof. by eexists. Qed.

Lemma bandit_issue_box_draws (i : Z) (d : list (pystr * json)) :
  exists ws, bandit_issue_box E (i, JDict d) = ([Container ws], Ok tt).
Proof. by eexists. Qed.

Lemma eslint_message_box_draws (d : list (pystr * json)) :
  exists ws, eslint_message_box E (JDict d) = ([Container ws], Ok tt).
Proof.
  unfold eslint_message_box, within. cbn [py_get ui_res ui_bind draw app fst snd].
  destruct (py_truthy _); by eexists.
Qed.

Lemma pylint_group_draws (group : json * list json) :
  forallb is_dict group.2 = true ->
  exists page, pylint_group E group = (page, Ok tt) /\ page_containers page = length group.2.
Proof.
  intros Hd. unfold pylint_group.
  destruct (ui_for_containers (pylint_issue_box E) group.2) as (p & Hp & Hc).
  { intros issue Hi. pose proof (forallb_elem _ _ _ Hd Hi) as Hdict.
    destruct issue; try discriminate. apply pylint_issue_box_draws. }
  unfold ui_bind, draw. rewrite Hp. eexists. split; [reflexivity|]. exact Hc.
Qed.

Lemma pylint_shown (d : AnalyzerResult) (l : list json) :
  ar_success d = true ->
  ar_results d = JList l ->
  forallb typed_issue l = true ->
  exists page,
    display_pylint_results E (Some d) = (page, Ok tt)
    /\ page_containers page = length l.
Proof.
  intros Hs Hr Hl. unfold display_pylint_results. rewrite Hs, Hr. cbn [negb].
  destruct l as [|v l]; [by eexists|].
  cbn [py_truthy negb py_iter].
  destruct (grouping_keeps_all (v :: l) [] Hl) as (groups & Hg & Ht & Hd); [constructor|].
  destruct (ui_for_counts (pylint_group E) (fun group => length group.2) groups)
    as (page & Hp & Hc).
  { intros group Hin. rewrite Forall_forall in Hd. by apply pylint_group_draws, Hd. }
  unfold ui_bind, draw, ui_res. rewrite Hg, Hp. eexists. split; [reflexivity|].
  rewrite !page_containers_app, Hc. exact Ht.
Qed.

Lemma enumerate_length {A} (start : Z) (l : list A) : length (enumerate start l) = length l.
Proof. revert start. induction l as [|x l IH]; intros start; simpl; [done|]. by rewrite IH. Qed.

Lemma enumerate_elem {A} (start : Z) (l : list A) (ix : Z * A) :
  ix ∈ enumerate start l -> ix.2 ∈ l.
Proof.
  revert start. induction l as [|x l IH]; intros start; simpl.
  - by intros ?%not_elem_of_nil.
  - intros [->|H]%elem_of_cons; [by left|]. right. by eapply IH.
Qed.

Lemma bandit_shown (d : AnalyzerResult) :
  ar_success d = true ->
  dicts_or_absent (lit "results") (ar_results d) = true ->
  exists page,
    display_bandit_results E (Some d) = (page, Ok tt)
    /\ page_containers page = list_length_at (lit "results") (ar_results d).
Proof.
  intros Hs Hshape. unfold display_bandit_results. rewrite Hs. cbn [negb].
  unfold dicts_or_absent, list_length_at in *.
  destruct (ar_results d) as [| | | | | |kv]; try discriminate.
  cbn [py_get ui_res]. unfold ui_bind at 1.
  destruct (dict_lookup (lit "results") kv) as [[| | | | |l|]|]; try discriminate;
    cbn [default from_option id app].
  - destruct l as [|v l]; [by eexists|].
    cbn [py_truthy negb py_len py_iter].
    destruct (ui_for_containers (bandit_issue_box E) (enumerate 1 (v :: l))) as (p & Hp & Hc).
    { intros [i issue] Hi. apply enumerate_elem in Hi. simpl in Hi.
      pose proof (forallb_elem _ _ _ Hshape Hi) as Hdict.
      destruct issue; try discriminate. apply bandit_issue_box_draws. }
    unfold ui_bind, draw, ui_res. cbn [py_truthy negb py_len py_iter].
    rewrite Hp. eexists. split; [reflexivity|].
    rewrite !page_containers_app, Hc, enumerate_length. reflexivity.
  - by eexists.
Qed.

Lemma eslint_file_draws (file_result : json) :
  dicts_or_absent (lit "messages") file_result = true ->
  exists page,
    eslint_file E file_result = (page, Ok tt)
    /\ page_containers page = list_length_at (lit "messages") file_result.
Proof.
  intros Hshape. unfold eslint_file, dicts_or_absent, list_length_at in *.
  destruct file_result as [| | | | | |kv]; try discriminate.
  cbn [py_get ui_res]. unfold ui_bind at 1. cbn [app]. unfold ui_bind at 1.
  destruct (dict_lookup (lit "messages") kv) as [[| | | | |l|]|]; try discriminate;
    cbn [default from_option id app].
  - destruct l as [|v l]; [by eexists|].
    cbn [py_truthy negb py_len py_iter].
    destruct (ui_for_containers (eslint_message_box E) (v :: l)) as (p & Hp & Hc).
    { intros message Hi. pose proof (forallb_elem _ _ _ Hshape Hi) as Hdict.
      destruct message; try discriminate. apply eslint_message_box_draws. }
    unfold ui_bind, draw, ui_res. cbn [py_truthy negb py_len py_iter].
    rewrite Hp. eexists. split; [reflexivity|].
    rewrite !page_containers_app, Hc. reflexivity.
  - by eexists.
Qed.

Lemma eslint_shown (d : AnalyzerResult) (files : list json) :
  ar_success d = true ->
  ar_results d = JList files ->
  forallb (dicts_or_absent (lit "messages")) files = true ->
  exists page,
    display_eslint_results E (Some d) = (page, Ok tt)
    /\ page_containers page
       = foldr (fun f n => (list_length_at (lit "messages") f + n)%nat) O files.
Proof.
  intros Hs Hr Hshape. unfold display_eslint_results. rewrite Hs, Hr. cbn [negb].
  destruct files as [|f files]; [by eexists|].
  cbn [py_truthy negb py_iter].
  destruct (ui_for_counts (eslint_file E) (list_length_at (lit "messages")) (f :: files))
    as (page & Hp & Hc).
  { intros file Hin. by apply eslint_file_draws, (forallb_elem _ _ _ Hshape). }
  unfold ui_bind, ui_res. rewrite Hp. eexists. split; [reflexivity|].
  rewrite !page_containers_app, Hc. reflexivity.
Qed.

Lemma display_count_aux (t : tool) (d : AnalyzerResult) :
  (ar_success d = true -> display_shaped t (ar_results d) = true) ->
  exists page,
    display E t (Some d) = (page, Ok tt)
    /\ page_containers page = contribution t (Some d).
Proof.
  intros Hshape. unfold contribution.
  destruct (ar_success d) eqn:Hs.
  - specialize (Hshape eq_refl). cbn [andb].
    destruct t; cbn [display display_shaped diagnostic_count] in *.
    + destruct (ar_results d) as [| | | | |l|] eqn:Hr; try discriminate.
      destruct (pylint_shown d l Hs Hr Hshape) as (page & Hp & Hc).
      exists page. split; [done|]. rewrite Hc. by destruct l.
    + destruct (bandit_shown d Hs Hshape) as (page & Hp & Hc).
      exists page. split; [done|]. rewrite Hc.
      unfold dicts_or_absent in Hshape.
      destruct (ar_results d) as [| | | | | |[|kv rest]]; try discriminate; done.
    + destruct (ar_results d) as [| | | | |files|] eqn:Hr; try discriminate.
      destruct (eslint_shown d files Hs Hr Hshape) as (page & Hp & Hc).
      exists page. split; [done|]. rewrite Hc. by destruct files.
  - destruct t; cbn [display]; unfold display_pylint_results, display_bandit_results,
      display_eslint_results; rewrite Hs; by eexists.
Qed.

(** X11. What a display function shows of a present analyzer result agrees
    with what the combined view counts for it: when the result failed, or
    its payload has the shape the function expects, the function ends
    normally and draws one container per counted issue. *)
Theorem shown_issues_match_count (t : tool) (d : AnalyzerResult) :
  (ar_success d = true -> display_shaped t (ar_results d) = true) ->
  exists page,
    display E t (Some d) = (page, Ok tt)
    /\ page_containers page = contribution t (Some d).
Proof. apply display_count_aux. Qed.

End DisplayFacts.

Lemma shown_issues_match_count_witness :
  exists page,
    display noisy_tools Bandit (bandit python_static) = (page, Ok tt)
    /\ page_containers page = contribution Bandit (bandit python_static).
Proof.
  apply (shown_issues_match_count noisy_tools Bandit
           (analyzer_ok
              (JDict [ (lit "results",
                        JList [JDict [ (lit "line_number", JInt 7);
                                       (lit "issue_text", JStr (lit "Use of exec detected."));
                                       (lit "severity", JStr (lit "MEDIUM")) ];
                               JDict [ (lit "line_number", JInt 9);
                                       (lit "issue_text", JStr (lit "Use of assert detected."));
                                       (lit "severity", JStr (lit "LOW")) ]]) ])
              (lit "{...}") (lit ""))).
  reflexivity.
Defined.

(** ** When the stored results can be shown in full *)

Section ResultsFacts.
Context (E : Env) (file_stamp_now : pystr).

Lemma containers_expander label expanded (children : list widget) :
  containers (Expander label expanded children) = page_containers children.
Proof. unfold page_containers. simpl. induction children as [|w ws IH]; simpl; congruence. Qed.

Lemma display_ai_results_plain (ai : option AICommentary) :
  exists page, display_ai_results ai = (page, Ok tt) /\ page_containers page = O.
Proof.
  unfold display_ai_results. destruct ai as [a|]; [|by eexists].
  destruct (ai_success a); by eexists.
Qed.

Lemma display_shaped_payload (t : tool) (payload : json) :
  display_shaped t payload = true -> payload_shaped t payload = true.
Proof.
  destruct t; simpl.
  - by destruct payload.
  - unfold dicts_or_absent, list_or_absent. destruct payload; try done.
    by destruct (dict_lookup _ _) as [[]|].
  - destruct payload as [| | | | |files|]; try done.
    induction files as [|f files IH]; simpl; [done|].
    intros [Hf Hfs]%andb_prop. rewrite (IH Hfs), andb_true_r.
    unfold dicts_or_absent, list_or_absent in *. destruct f; try done.
    by destruct (dict_lookup _ _) as [[]|].
Qed.

Lemma entry_shaped_result (t : tool) (r : option AnalyzerResult) :
  entry_shaped t r = true -> result_shaped t r = true.
Proof.
  unfold entry_shaped, result_shaped. destruct r as [d|]; [|done].
  destruct (ar_success d); simpl; [|done]. apply display_shaped_payload.
Qed.

Lemma typed_issues_are_dicts (l : list json) :
  forallb typed_issue l = true -> forallb is_dict l = true.
Proof.
  induction l as [|v l IH]; simpl; [done|].
  intros [Hv Hl]%andb_prop. rewrite (IH Hl), andb_true_r. by destruct v.
Qed.

Lemma entry_shaped_pylint_renders (r : option AnalyzerResult) :
  entry_shaped Pylint r = true -> pylint_renders r = true.
Proof.
  unfold entry_shaped, pylint_renders, renders. destruct r as [d|]; [|done].
  destruct (ar_success d); simpl; [|done].
  destruct (ar_results d) as [| | | | |l|]; try done.
  intros H. rewrite (typed_issues_are_dicts _ H). apply orb_true_r.
Qed.

Lemma entry_shaped_bandit_renders (r : option AnalyzerResult) :
  entry_shaped Bandit r = true -> bandit_renders r = true.
Proof.
  unfold entry_shaped, bandit_renders, renders. destruct r as [d|]; [|done].
  destruct (ar_success d); simpl; [|done].
  unfold dicts_or_absent. destruct (ar_results d) as [| | | | | |kv]; try done.
  destruct (dict_lookup _ _) as [[| | | | |l|]|]; try done; simpl.
  intros ->. apply orb_true_r.
Qed.

(** Fully shaped results can be counted and reported. *)
Lemma fully_shaped_counts (sa : StaticResults) :
  fully_shaped sa = true -> issue_count sa = Ok (spec_issue_count sa).
Proof.
  unfold fully_shaped, issue_count, spec_issue_count.
  intros [[Hp Hb]%andb_prop He]%andb_prop.
  apply entry_shaped_result in Hp, Hb, He.
  rewrite (pylint_step _ 0 Hp). cbn [mbind Res_bind].
  rewrite (bandit_step _ _ Hb). cbn [mbind Res_bind].
  by rewrite (eslint_step _ _ He).
Qed.

Lemma fully_shaped_reports (language : pystr) (sa : StaticResults) (ai : AICommentary)
    (ts : pystr) :
  fully_shaped sa = true ->
  exists report, download_report E (Review language sa ai ts) = Ok report.
Proof.
  unfold fully_shaped. intros [[Hp Hb]%andb_prop _]%andb_prop.
  pose proof (download_report_outcome E (Review language sa ai ts)) as H.
  destruct (download_report E _) as [report|e]; [by exists report|].
  destruct H as [H _]. unfold report_renders in H. simpl in H.
  by rewrite (entry_shaped_pylint_renders _ Hp), (entry_shaped_bandit_renders _ Hb) in H.
Qed.

Lemma display_entry (t : tool) (r : option AnalyzerResult) :
  entry_shaped t r = true ->
  is_Some r ->
  exists page,
    display E t r = (page, Ok tt) /\ page_containers page = contribution t r.
Proof.
  intros Hshape [d ->]. unfold entry_shaped in Hshape.
  destruct (ar_success d) eqn:Hs; simpl in Hshape.
  - destruct (display_count_aux E t d) as (page & Hp & Hc); [by rewrite Hs|]. by exists page.
  - destruct (display_count_aux E t d) as (page & Hp & Hc); [by rewrite Hs|]. by exists page.
Qed.

Ltac step H := unfold app_bind at 1; rewrite H; cbn beta iota.

Lemma page_containers_cons (w : widget) (page : list widget) :
  page_containers (w :: page) = (containers w + page_containers page)%nat.
Proof. reflexivity. Qed.

Lemma page_containers_nil : page_containers [] = O.
Proof. reflexivity. Qed.

Lemma containers_column index (children : list widget) :
  containers (Column index children) = page_containers children.
Proof. unfold page_containers. simpl. induction children as [|w ws IH]; simpl; congruence. Qed.

Ltac count_page :=
  cbn [fst snd app];
  repeat rewrite ?page_containers_cons, ?page_containers_app, ?page_containers_nil,
                 ?containers_expander, ?containers_column;
  cbn [containers].

Lemma shown_in_expander label expanded (t : tool) (r : option AnalyzerResult) ss st :
  entry_shaped t r = true ->
  is_Some r ->
  exists page,
    app_within (Expander label expanded) (app_ui (display E t r)) ss st = (Ok tt, ss, st, page)
    /\ page_containers page = contribution t r.
Proof.
  intros Hshape Hsome. destruct (display_entry t r Hshape Hsome) as (p & Hp & Hc).
  unfold app_within, app_ui. rewrite Hp. cbn [fst snd]. eexists. split; [reflexivity|].
  rewrite page_containers_cons, page_containers_nil, containers_expander, Hc. lia.
Qed.

Lemma combined_suggestions_plain (sa : StaticResults) (ai : AICommentary) ss st :
  fully_shaped sa = true ->
  exists page,
    combined_suggestions sa ai ss st = (Ok tt, ss, st, page) /\ page_containers page = O.
Proof.
  intros Hshape. unfold combined_suggestions, app_within, app_bind, show, app_ui, draw, ui_res.
  rewrite (fully_shaped_counts sa Hshape). cbn [fst snd].
  destruct (0 <? spec_issue_count sa)%nat; destruct (ai_success ai); by eexists.
Qed.

Lemma results_section_shows (ss : Session) (st : State) (l lang : pystr)
    (sa : StaticResults) (ai : AICommentary) (ts : pystr) :
  review_results ss = Some (Some (Review l sa ai ts)) ->
  current_language ss = Some lang ->
  fully_shaped sa = true ->
  shown_present lang sa = true ->
  exists page,
    results_section E file_stamp_now ss st = (Ok tt, ss, st, page)
    /\ page_containers page = shown_count lang sa.
Proof.
  intros Hrr Hcl Hshape Hpresent.
  pose proof Hshape as Hall. unfold fully_shaped in Hall.
  apply andb_prop in Hall as [[Hp Hb]%andb_prop He].
  unfold results_section.
  unfold app_bind at 1, read_review_results. rewrite Hrr. cbn beta iota.
  unfold app_bind at 1, read_current_language. rewrite Hcl. cbn beta iota.
  step (show_spec (Markdown (lit "---") false)).
  unfold app_bind at 1. rewrite show_spec. cbn beta iota.
  destruct (display_ai_results_plain (get_ai (Review l sa ai ts))) as (pai & Hai & Hcai).
  unfold app_bind at 1, app_within at 1, app_ui at 1. rewrite Hai. cbn [fst snd].
  destruct (fully_shaped_reports l sa ai ts Hshape) as [report Hreport].
  destruct (combined_suggestions_plain sa ai ss st Hshape) as (pcomb & Hcomb & Hccomb).
  unfold shown_present, shown_count in *.
  destruct (pystr_eqb lang (lit "Python")).
  - apply andb_prop in Hpresent as [Hp1 Hb1].
    apply bool_decide_eq_true in Hp1, Hb1.
    destruct (shown_in_expander
                ([128269] ++ lit " Static Analysis (Pylint)") false Pylint (pylint sa) ss st Hp Hp1)
      as (pp & Hpp & Hcp).
    destruct (shown_in_expander
                ([128274] ++ lit " Security Analysis (Bandit)") false Bandit (bandit sa) ss st
                Hb Hb1) as (pb & Hpb & Hcb).
    cbn [display get_static app] in *.
    unfold app_bind at 1. unfold app_bind at 1. rewrite Hpp. cbn beta iota. rewrite Hpb.
    cbn beta iota.
    step Hcomb. step (show_spec (Markdown (lit "---") false)).
    unfold app_bind at 1. rewrite show_spec. cbn beta iota.
    unfold app_within, app_bind, app_ui, ui_res, show, draw. rewrite Hreport. cbn [fst snd].
    eexists. split; [reflexivity|].
    count_page. rewrite ?Hcp, ?Hcb, ?Hce, ?Hccomb, ?Hcai. lia.
  - destruct (pystr_eqb lang (lit "JavaScript")).
    + apply bool_decide_eq_true in Hpresent.
      destruct (shown_in_expander
                  ([128269] ++ lit " Static Analysis (ESLint)") false ESLint (eslint sa) ss st
                  He Hpresent) as (pe & Hpe & Hce).
      cbn [display get_static app] in *.
      unfold app_bind at 1. rewrite Hpe. cbn beta iota.
      step Hcomb. step (show_spec (Markdown (lit "---") false)).
      unfold app_bind at 1. rewrite show_spec. cbn beta iota.
      unfold app_within, app_bind, app_ui, ui_res, show, draw. rewrite Hreport. cbn [fst snd].
      eexists. split; [reflexivity|].
      count_page. rewrite ?Hcp, ?Hcb, ?Hce, ?Hccomb, ?Hcai. lia.
    + unfold app_bind at 1, app_ret. cbn beta iota.
      step Hcomb. step (show_spec (Markdown (lit "---") false)).
      unfold app_bind at 1. rewrite show_spec. cbn beta iota.
      unfold app_within, app_bind, app_ui, ui_res, show, draw. rewrite Hreport. cbn [fst snd].
      eexists. split; [reflexivity|].
      count_page. rewrite ?Hcp, ?Hcb, ?Hce, ?Hccomb, ?Hcai. lia.
Qed.

(** X18. The stored results are shown in full, and the script goes on, when
    every analyzer entry is absent, failed or of the expected shape and the
    entries of the current language are present; the page then holds one
    container for each issue counted for the analyzers of that language. *)
Theorem results_shown_in_full (ss : Session) (st : State) (l lang : pystr)
    (sa : StaticResults) (ai : AICommentary) (ts : pystr) :
  review_results ss = Some (Some (Review l sa ai ts)) ->
  current_language ss = Some lang ->
  fully_shaped sa = true ->
  shown_present lang sa = true ->
  exists page,
    results_section E file_stamp_now ss st = (Ok tt, ss, st, page)
    /\ page_containers page = shown_count lang sa.
Proof. apply results_section_shows. Qed.

End ResultsFacts.

(** ** Tools that fail *)

Section FailureFacts.
Context (E : Env) (file_stamp_now : pystr).

Lemma adapter_fails (t : tool) (code : pystr) (s : State) :
  (exists e, invocation_outcome E t code (fs s) = Raise e) ->
  exists r s', run_adapter E t code s = (Ok r, s') /\ ar_success r = false.
Proof.
  intros [e0 H]. destruct t; adapter_cases E code; simplify_eq; by eexists _, _.
Qed.

Lemma entry_failed_shaped (t : tool) (r : AnalyzerResult) :
  ar_success r = false -> entry_shaped t (Some r) = true.
Proof. unfold entry_shaped. by intros ->. Qed.

Lemma static_analysis_all_failed (code language : pystr) (s : State) :
  (forall t files, exists e, invocation_outcome E t code files = Raise e) ->
  language ∈ supported_languages ->
  exists sa s',
    run_static_analysis E code language s = (Ok sa, s')
    /\ fully_shaped sa = true
    /\ shown_present language sa = true.
Proof.
  intros Hfail [->| ->]%supported_cases;
    unfold run_static_analysis, shown_present, fully_shaped, pystr_eqb.
  - rewrite !bool_decide_eq_true_2 by done.
    unfold bind at 1, st_info, emit.
    set (s1 := {| fs := fs s; trace := trace s ++ _; temp_file := temp_file s |}).
    destruct (adapter_fails Pylint code s1 (Hfail _ _)) as (p & s2 & Hp & Hps).
    destruct (adapter_fails Bandit code s2 (Hfail _ _)) as (b & s3 & Hb & Hbs).
    simpl in Hp, Hb. unfold bind, ret. rewrite Hp, Hb.
    eexists _, _. split; [reflexivity|]. cbn [pylint bandit eslint].
    rewrite !entry_failed_shaped by done. split; [done|].
    rewrite !bool_decide_eq_true_2 by by eexists. done.
  - rewrite !(bool_decide_eq_false_2 _ javascript_is_not_python).
    rewrite !bool_decide_eq_true_2 by done.
    unfold bind at 1, st_info, emit.
    set (s1 := {| fs := fs s; trace := trace s ++ _; temp_file := temp_file s |}).
    destruct (adapter_fails ESLint code s1 (Hfail _ _)) as (e & s2 & He & Hes).
    simpl in He. unfold bind, ret. rewrite He.
    eexists _, _. split; [reflexivity|]. cbn [pylint bandit eslint].
    rewrite !entry_failed_shaped by done. split; [done|].
    rewrite !bool_decide_eq_true_2 by by eexists. done.
Qed.

(** X19. When every tool fails, for whatever reason, a click on the button
    still gives a page: the run of the script ends normally, with the
    failures stored as results and no issue shown. *)
Theorem tool_failures_do_not_stop_the_page (language code : pystr) (ss : Session) (st : State) :
  language ∈ language_options ->
  forallb isspace code = false ->
  (forall t files, exists e, invocation_outcome E t code files = Raise e) ->
  exists ss' st' page sa ai ts,
    main E file_stamp_now
      {| selected_language := language; code_input := code; run_clicked := true |} ss st
    = (Ok tt, ss', st', page)
    /\ review_results ss' = Some (Some (Review language sa ai ts))
    /\ issue_count sa = Ok O.
Proof.
  intros Hl Hcode Hfail.
  set (input := {| selected_language := language; code_input := code; run_clicked := true |}).
  destruct (main_decomposes E file_stamp_now input ss st)
    as (ss1 & st1 & Hmain & Hlang & _ & _ & Hrun).
  destruct (Hrun eq_refl Hcode) as (r & Hr & Hrr). simpl in Hr, Hlang.
  destruct (review_code_accepts E code language st Hcode Hl)
    as (sa & s1 & ai & s' & Hr' & Hsa & _).
  rewrite Hr in Hr'. simplify_eq.
  destruct (static_analysis_all_failed code language st Hfail Hl)
    as (sa' & s1' & Hsa' & Hshape & Hpresent).
  rewrite Hsa in Hsa'. simplify_eq.
  destruct (results_section_shows E file_stamp_now ss1 s' language language sa' ai
              (timestamp_now E) Hrr Hlang Hshape Hpresent) as (page & Hres & Hcount).
  destruct (Hmain _ _ Hres) as [page' Hp].
  exists ss1, s', page', sa', ai, (timestamp_now E). split_and!; [done..|].
  rewrite (fully_shaped_counts sa' Hshape). f_equal.
  clear -Hsa Hfail Hl. revert Hsa.
  destruct (supported_cases language Hl) as [->| ->];
    unfold run_static_analysis, pystr_eqb.
  - rewrite bool_decide_eq_true_2 by done.
    unfold bind at 1, st_info, emit.
    set (s1 := {| fs := fs st; trace := trace st ++ _; temp_file := temp_file st |}).
    destruct (adapter_fails Pylint code s1 (Hfail _ _)) as (p & s2 & Hp & Hps).
    destruct (adapter_fails Bandit code s2 (Hfail _ _)) as (b & s3 & Hb & Hbs).
    simpl in Hp, Hb. unfold bind, ret. rewrite Hp, Hb. intros [= <- _].
    unfold spec_issue_count, contribution. simpl. by rewrite Hps, Hbs.
  - rewrite (bool_decide_eq_false_2 _ javascript_is_not_python).
    rewrite bool_decide_eq_true_2 by done.
    unfold bind at 1, st_info, emit.
    set (s1 := {| fs := fs st; trace := trace st ++ _; temp_file := temp_file st |}).
    destruct (adapter_fails ESLint code s1 (Hfail _ _)) as (e & s2 & He & Hes).
    simpl in He. unfold bind, ret. rewrite He. intros [= <- _].
    unfold spec_issue_count, contribution. simpl. by rewrite Hes.
Qed.

End FailureFacts.

Lemma tool_failures_do_not_stop_the_page_witness :
  exists ss' st' page sa ai ts,
    main nothing_installed (lit "20240101_120000")
      {| selected_language := lit "Python"; code_input := lit "print('x')";
         run_clicked := true |} empty_session initial_state
    = (Ok tt, ss', st', page)
    /\ review_results ss' = Some (Some (Review (lit "Python") sa ai ts))
    /\ issue_count sa = Ok O.
Proof.
  apply (tool_failures_do_not_stop_the_page nothing_installed (lit "20240101_120000")
           (lit "Python") (lit "print('x')") empty_session initial_state).
  - exact (proj1 both_languages_supported).
  - reflexivity.
  - intros t files. eexists. unfold invocation_outcome. simpl. reflexivity.
Defined.

(** ** Grouping by type *)

Lemma group_add_keys (key item : json) (groups : list (json * list json)) :
  (group_add key item groups).*1 = groups.*1
  \/ ((group_add key item groups).*1 = groups.*1 ++ [key]
      /\ forallb (fun k => negb (key_eqb k key)) groups.*1 = true).
Proof.
  induction groups as [|[k items] groups IH]; [by right|].
  cbn [group_add]. destruct (same_key k key) eqn:Hk; [by left|].
  apply orb_false_elim in Hk as [_ Hk].
  rewrite !fmap_cons. cbn [fst forallb].
  destruct IH as [IH|[IH H]]; rewrite IH; [by left|].
  right. by rewrite Hk, H.
Qed.

Lemma keys_distinct_fst (groups groups' : list (json * list json)) :
  groups.*1 = groups'.*1 -> keys_distinct groups = keys_distinct groups'.
Proof.
  revert groups'. induction groups as [|[k a] groups IH]; intros [|[k' b] groups'] H;
    try discriminate; [done|].
  simpl in *. injection H as -> H. rewrite (IH _ H). f_equal.
  clear IH. revert groups' H. induction groups as [|[x a'] groups IH]; intros [|[y b'] groups'] H;
    try discriminate; [done|].
  simpl in *. injection H as -> H. by rewrite (IH _ H).
Qed.

Lemma keys_distinct_snoc (groups : list (json * list json)) (key : json) (items : list json) :
  keys_distinct groups = true ->
  forallb (fun k => negb (key_eqb k key)) groups.*1 = true ->
  keys_distinct (groups ++ [(key, items)]) = true.
Proof.
  induction groups as [|[k a] groups IH]; simpl; [done|].
  intros [H1 H2]%andb_prop [H3 H4]%andb_prop.
  rewrite forallb_app, H1, (IH H2 H4). simpl. by rewrite H3.
Qed.

Lemma group_add_distinct (key item : json) (groups : list (json * list json)) :
  keys_distinct groups = true -> keys_distinct (group_add key item groups) = true.
Proof.
  intros H. destruct (group_add_keys key item groups) as [Hk|[Hk Hnew]].
  - by rewrite (keys_distinct_fst _ _ Hk).
  - rewrite (keys_distinct_fst _ (groups ++ [(key, [item])])).
    + by apply keys_distinct_snoc.
    + by rewrite Hk, fmap_app.
Qed.

Lemma group_add_grouped (item : json) (groups : list (json * list json)) :
  well_grouped groups -> well_grouped (group_add (issue_type_of item) item groups).
Proof.
  unfold well_grouped. induction 1 as [|[k items] groups Hg Hgs IH]; simpl.
  - constructor; [|done]. constructor; [by left|done].
  - destruct (same_key k (issue_type_of item)) eqn:Hk; constructor; simpl in *; try done.
    apply Forall_app. split; [done|]. constructor; [|done].
    apply orb_prop in Hk as [[Hk Hi]%andb_prop|Hk]; [left | by right].
    destruct k as [| | |[]| | |]; try discriminate.
    by destruct (issue_type_of item) as [| | |[]| | |].
Qed.

Lemma grouping_invariant (issues : list json) (groups : list (json * list json)) :
  forallb typed_issue issues = true ->
  keys_distinct groups = true ->
  well_grouped groups ->
  exists groups',
    for_each group_issue groups issues = Ok groups'
    /\ keys_distinct groups' = true
    /\ well_grouped groups'
    /\ group_total groups' = (group_total groups + length issues)%nat.
Proof.
  revert groups. induction issues as [|v issues IH]; intros groups Hi Hd Hw.
  - exists groups. split_and!; first [done | simpl; lia].
  - cbn [forallb] in Hi. apply andb_prop in Hi as [Hv Hi].
    destruct v as [| | | | | |d]; try discriminate.
    cbn [for_each]. rewrite (group_issue_typed _ _ Hv). cbn [mbind Res_bind].
    fold (for_each group_issue).
    destruct (IH (group_add (issue_type_of (JDict d)) (JDict d) groups) Hi)
      as (groups' & Hf & Hd' & Hw' & Ht).
    { by apply group_add_distinct. }
    { by apply group_add_grouped. }
    exists groups'. split_and!; first [done | rewrite Ht, group_add_total; cbn [length]; lia].
Qed.

(** X12. The grouping loop of [display_pylint_results], run on dictionaries
    whose type can be a key, splits the issues into groups: no two groups
    have equal keys, every issue is under the key of its own type, and no
    issue is lost or repeated. *)
Theorem grouping_partitions (issues : list json) :
  forallb typed_issue issues = true ->
  exists groups,
    for_each group_issue [] issues = Ok groups
    /\ keys_distinct groups = true
    /\ well_grouped groups
    /\ group_total groups = length issues.
Proof.
  intros H. destruct (grouping_invariant issues [] H eq_refl) as (groups & Hf & Hd & Hw & Ht).
  - constructor.
  - by exists groups.
Qed.

Lemma grouping_partitions_witness :
  exists groups,
    for_each group_issue []
      [JDict [(lit "type", JStr (lit "warning")); (lit "line", JInt 1)];
       JDict [(lit "type", JStr (lit "error")); (lit "line", JInt 2)];
       JDict [(lit "type", JStr (lit "warning")); (lit "line", JInt 3)]] = Ok groups
    /\ keys_distinct groups = true
    /\ well_grouped groups
    /\ group_total groups = 3%nat.
Proof.
  apply (grouping_partitions
           [JDict [(lit "type", JStr (lit "warning")); (lit "line", JInt 1)];
            JDict [(lit "type", JStr (lit "error")); (lit "line", JInt 2)];
            JDict [(lit "type", JStr (lit "warning")); (lit "line", JInt 3)]]).
  reflexivity.
Defined.

(** Two warnings and an error: the warnings share the first group. *)
Example grouping_example :
  for_each group_issue []
    [JDict [(lit "type", JStr (lit "warning")); (lit "line", JInt 1)];
     JDict [(lit "type", JStr (lit "error")); (lit "line", JInt 2)];
     JDict [(lit "type", JStr (lit "warning")); (lit "line", JInt 3)]]
  = Ok [ (JStr (lit "warning"),
          [JDict [(lit "type", JStr (lit "warning")); (lit "line", JInt 1)];
           JDict [(lit "type", JStr (lit "warning")); (lit "line", JInt 3)]]);
         (JStr (lit "error"),
          [JDict [(lit "type", JStr (lit "error")); (lit "line", JInt 2)]]) ].
Proof. reflexivity. Qed.

(** Two issues whose type is the NaN of [json.loads] share one group, as
    do the types [1] and [true], which are equal. *)
Example grouping_by_identity :
  for_each group_issue []
    [JDict [(lit "type", JFloat S754_nan)]; JDict [(lit "type", JInt 1)];
     JDict [(lit "type", JFloat S754_nan)]; JDict [(lit "type", JBool true)]]
  = Ok [ (JFloat S754_nan,
          [JDict [(lit "type", JFloat S754_nan)]; JDict [(lit "type", JFloat S754_nan)]]);
         (JInt 1, [JDict [(lit "type", JInt 1)]; JDict [(lit "type", JBool true)]]) ].
Proof. reflexivity. Qed.

(** ** Runs without a click *)

(** X17. A run of the script without a click on the button starts no review:
    the machine state is the one it began with and the stored results are
    kept, whatever happens when they are shown. *)
Theorem idle_run_keeps_results (E : Env) (file_stamp_now : pystr) (input : Inputs)
    (ss : Session) (st : State) :
  run_clicked input = false ->
  exists outcome ss' page,
    main E file_stamp_now input ss st = (outcome, ss', st, page)
    /\ review_results ss' = Some (default None (review_results ss))
    /\ current_language ss' = Some (selected_language input).
Proof.
  intros Hc.
  destruct (main_decomposes E file_stamp_now input ss st)
    as (ss1 & st1 & Hmain & Hlang & Hidle & _).
  destruct (Hidle Hc) as [Hrr ->].
  destruct (results_section_readonly E file_stamp_now ss1 st) as (outcome & page & Hres).
  destruct (Hmain _ _ Hres) as [page' Hp].
  by exists outcome, ss1, page'.
Qed.

Lemma idle_run_keeps_results_witness :
  exists outcome ss' page,
    main noisy_tools (lit "20240101_120000")
      {| selected_language := lit "Python"; code_input := lit "x = 1"; run_clicked := false |}
      empty_session initial_state
    = (outcome, ss', initial_state, page)
    /\ review_results ss' = Some (default None (review_results empty_session))
    /\ current_language ss' = Some (lit "Python").
Proof.
  apply (idle_run_keeps_results noisy_tools (lit "20240101_120000")
           {| selected_language := lit "Python"; code_input := lit "x = 1";
              run_clicked := false |} empty_session initial_state).
  reflexivity.
Defined.

Lemma results_shown_in_full_witness :
  exists page,
    results_section noisy_tools (lit "20240101_120000")
      {| review_results :=
           Some (Some (Review (lit "Python") python_static
                         {| ai_success := true; ai_feedback := lit "Looks fine.";
                            ai_model_used := Some (lit "Salesforce/codet5-base");
                            ai_error := None |} (lit "2024-01-01 12:00:00.000000")));
         current_language := Some (lit "Python") |} initial_state
    = (Ok tt,
       {| review_results :=
            Some (Some (Review (lit "Python") python_static
                          {| ai_success := true; ai_feedback := lit "Looks fine.";
                             ai_model_used := Some (lit "Salesforce/codet5-base");
                             ai_error := None |} (lit "2024-01-01 12:00:00.000000")));
          current_language := Some (lit "Python") |}, initial_state, page)
    /\ page_containers page = shown_count (lit "Python") python_static.
Proof.
  apply (results_shown_in_full noisy_tools (lit "20240101_120000") _ initial_state
           (lit "Python") (lit "Python") python_static
           {| ai_success := true; ai_feedback := lit "Looks fine.";
              ai_model_used := Some (lit "Salesforce/codet5-base"); ai_error := None |}
           (lit "2024-01-01 12:00:00.000000")); reflexivity.
Defined.

(** Three issues counted, three containers shown. *)
Example python_static_shown : shown_count (lit "Python") python_static = 3%nat.
Proof. reflexivity. Qed.

(** ** The order of the report *)

(** X9. The report of a result whose pylint and bandit entries
    succeeded with at least one diagnostic each, all of them dictionaries:
    after the header come the pylint heading and one line per pylint
    diagnostic in the order of the payload, then the bandit heading and
    one line per bandit diagnostic in order, then the AI section, whose
    last part is the feedback. *)
Theorem report_lists_diagnostics_in_order (E : Env) (language : pystr)
    (pylint_issues bandit_issues : list (list (pystr * json)))
    (other_keys : list (pystr * json)) (out1 err1 out2 err2 : pystr)
    (e : option AnalyzerResult) (ai : AICommentary) (ts : pystr) :
  pylint_issues <> [] ->
  bandit_issues <> [] ->
  ai_success ai = true ->
  exists pylint_lines bandit_lines,
    Forall2 (fun d line => pylint_line E (JDict d) = Ok line) pylint_issues pylint_lines
    /\ Forall2 (fun d line => bandit_line E (JDict d) = Ok line) bandit_issues bandit_lines
    /\ download_report E
         (Review language
            {| sr_language := language;
               pylint := Some (analyzer_ok (JList (JDict <$> pylint_issues)) out1 err1);
               bandit := Some (analyzer_ok
                                 (JDict ((lit "results", JList (JDict <$> bandit_issues))
                                         :: other_keys)) out2 err2);
               eslint := e |} ai ts)
       = Ok (report_header E language
             ++ ([newline] ++ lit "--- PYLINT RESULTS ---" ++ [newline])
             ++ concat pylint_lines
             ++ ([newline] ++ lit "--- BANDIT SECURITY RESULTS ---" ++ [newline])
             ++ concat bandit_lines
             ++ ([newline] ++ lit "=== AI ANALYSIS RESULTS ===" ++ [newline]
                 ++ lit "Model: " ++ default (lit "CodeT5") (ai_model_used ai)
                 ++ [newline; newline])
             ++ ai_feedback ai).
Proof. apply python_report_in_order. Qed.

(** X10. Whenever a report is written for a result whose AI record
    succeeded, the feedback is the end of the report, character for
    character. *)
Theorem feedback_closes_the_report (E : Env) (r : ReviewResult) (ai : AICommentary)
    (report : pystr) :
  download_report E r = Ok report ->
  get_ai r = Some ai ->
  ai_success ai = true ->
  exists before, report = before ++ ai_feedback ai.
Proof. apply report_ends_with_feedback. Qed.

Lemma report_lists_diagnostics_in_order_witness :
  exists pylint_lines bandit_lines,
    Forall2 (fun d line => pylint_line noisy_tools (JDict d) = Ok line)
      [[(lit "line", JInt 3); (lit "message", JStr (lit "Unused import os"))]] pylint_lines
    /\ Forall2 (fun d line => bandit_line noisy_tools (JDict d) = Ok line)
         [[(lit "line_number", JInt 7); (lit "issue_text", JStr (lit "Use of exec detected."))]]
         bandit_lines
    /\ download_report noisy_tools
         (Review (lit "Python")
            {| sr_language := lit "Python";
               pylint := Some (analyzer_ok
                                 (JList (JDict <$> [[(lit "line", JInt 3);
                                                     (lit "message",
                                                      JStr (lit "Unused import os"))]]))
                                 (lit "out") (lit ""));
               bandit := Some (analyzer_ok
                                 (JDict ((lit "results",
                                          JList (JDict <$> [[(lit "line_number", JInt 7);
                                                             (lit "issue_text",
                                                              JStr (lit "Use of exec detected."))]]))
                                         :: []))
                                 (lit "out") (lit ""));
               eslint := None |}
            {| ai_success := true; ai_feedback := lit "Looks fine.";
               ai_model_used := None; ai_error := None |} (lit "now"))
       = Ok (report_header noisy_tools (lit "Python")
             ++ ([newline] ++ lit "--- PYLINT RESULTS ---" ++ [newline])
             ++ concat pylint_lines
             ++ ([newline] ++ lit "--- BANDIT SECURITY RESULTS ---" ++ [newline])
             ++ concat bandit_lines
             ++ ([newline] ++ lit "=== AI ANALYSIS RESULTS ===" ++ [newline]
                 ++ lit "Model: " ++ default (lit "CodeT5") None ++ [newline; newline])
             ++ lit "Looks fine.").
Proof.
  apply (report_lists_diagnostics_in_order noisy_tools (lit "Python")
           [[(lit "line", JInt 3); (lit "message", JStr (lit "Unused import os"))]]
           [[(lit "line_number", JInt 7); (lit "issue_text", JStr (lit "Use of exec detected."))]]
           [] (lit "out") (lit "") (lit "out") (lit "") None
           {| ai_success := true; ai_feedback := lit "Looks fine.";
              ai_model_used := None; ai_error := None |} (lit "now")); done.
Defined.

Lemma feedback_closes_the_report_witness :
  exists before,
    lit "AI-Powered Code Review Report" ++ [newline]
    ++ lit "Generated: 2024-01-01 12:00:00" ++ [newline]
    ++ lit "Language: JavaScript" ++ [newline]
    ++ [newline]
    ++ lit "=== STATIC ANALYSIS RESULTS ===" ++ [newline]
    ++ [newline]
    ++ lit "=== AI ANALYSIS RESULTS ===" ++ [newline]
    ++ lit "Model: Salesforce/codet5-base" ++ [newline]
    ++ [newline]
    ++ lit "Looks fine."
    = before ++ lit "Looks fine.".
Proof.
  apply (feedback_closes_the_report noisy_tools javascript_review
           {| ai_success := true; ai_feedback := lit "Looks fine.";
              ai_model_used := Some (lit "Salesforce/codet5-base"); ai_error := None |});
    reflexivity.
Defined.
